(** * YouTube-to-Instagram agent: ledger, publish pipeline and scheduler

    A shallow embedding of the parts of the agent that decide its
    orchestration discipline:

    - [Analytics]       (src/agent/analytics.py): the publication ledger and
                        its optimisation queries;
    - [InstagramPoster] (src/agent/instagram_poster.py): login, the publish
                        call with its re-authentication path, and the
                        metrics query;
    - [Scheduler]       (src/agent/scheduler.py): parsing of post times and
                        registration of the daily jobs;
    - [Agent]           (src/main.py): one pipeline cycle ([run_once]), the
                        metrics refresh job and the exit code of the
                        single-run invocation;
    - [Config]          (src/agent/config.py): lookup by dotted path;
    - [YouTubeScraper]  (src/agent/youtube_scraper.py): the filter and the
                        ranking of the search results.

    Python values are modelled as follows.  [int] is [Z]; [float] is Rocq's
    primitive binary64 [float], and the true division of two [int]s is the
    correctly rounded quotient; [str] is [string]; a [dict] read by key is a
    [gmap string _]; a [dict] whose insertion order is observed is an
    association list; the SQL table [posts] is the list of its rows in rowid
    order, its INTEGER columns holding 64 bits; a call that may raise is a
    [PyResult]. *)

From Stdlib Require Import ZArith List String Ascii Floats.
From Stdlib Require Import Sorted Permutation Lia.
From stdpp Require Import base option list strings gmap pretty.

Open Scope string_scope.
Open Scope list_scope.
Open Scope Z_scope.

(** ** Python primitives *)

Module Py.

(** Outcome of a call that may raise.  Every [except Exception] of the source
    catches every exception the model can raise, so the exception carries no
    payload. *)
Inductive PyResult (A : Type) : Type :=
| Ret (a : A)
| Raise.
Arguments Ret {A} a.
Arguments Raise {A}.

(** An [int] as an exact binary float with exponent 0. *)
Definition SF_of_Z (z : Z) : spec_float :=
  match z with
  | Z0 => S754_zero false
  | Zpos p => S754_finite false p 0
  | Zneg p => S754_finite true p 0
  end.

(** [float(z)] for an [int] operand of float arithmetic: the binary64
    nearest to [z], ties to even.  From 2^1024 - 2^970 on that is infinity,
    where Python raises OverflowError; the model converts constants, counts
    and lengths of lists only. *)
Definition float_of_Z (z : Z) : float :=
  SF2Prim (binary_normalize FloatOps.prec FloatOps.emax z 0 false).

(** The binary64 nearest to the quotient of two [int]s, ties to even, for a
    divisor that is not 0. *)
Definition int_quotient (a b : Z) : float :=
  SF2Prim (SFdiv FloatOps.prec FloatOps.emax (SF_of_Z a) (SF_of_Z b)).

(** The least magnitude that rounds beyond the largest binary64. *)
Definition float_overflow : Z := 2 ^ 1024 - 2 ^ 970.

(** [a / b] on two [int]s (true division): the correctly rounded quotient.
    [None] is ZeroDivisionError, or OverflowError when the quotient rounds
    beyond the largest float. *)
Definition int_truediv (a b : Z) : option float :=
  if b =? 0 then None
  else if float_overflow * Z.abs b <=? Z.abs a then None
  else Some (int_quotient a b).

(** [x / n] for a [float] and an [int]; [None] is ZeroDivisionError. *)
Definition float_div_int (x : float) (n : Z) : option float :=
  if n =? 0 then None else Some (PrimFloat.div x (float_of_Z n)).

(** [sum(xs)] over [float]s: the accumulator starts at the [int] 0 and the
    items are added from left to right. *)
Definition sum_float (xs : list float) : float :=
  fold_left PrimFloat.add xs PrimFloat.zero.

(** [sum(xs)] over [int]s. *)
Definition sum_int (xs : list Z) : Z := fold_left Z.add xs 0.

(** [sorted(l, key=key, reverse=True)] for [float] keys.  The sort is stable:
    an element moves behind another one only when its key is strictly
    smaller, so equal keys keep the order they had in [l]. *)
Section Sorted.
Context {A : Type} (key : A -> float).

Fixpoint insert_desc (x : A) (l : list A) : list A :=
  match l with
  | [] => [x]
  | y :: l' =>
      if PrimFloat.ltb (key x) (key y) then y :: insert_desc x l' else x :: l
  end.

Definition sorted_desc (l : list A) : list A := fold_right insert_desc [] l.

(** [a] may stand before [b] in a descending list. *)
Definition desc (a b : A) : Prop := PrimFloat.leb (key b) (key a) = true.

Definition not_nan (a : A) : Prop := PrimFloat.is_nan (key a) = false.

(** The key of [a] is not less than the key of [b]. *)
Definition not_below (a b : A) : Prop := PrimFloat.ltb (key a) (key b) = false.

End Sorted.

(** [f"{n:02d}"]: at least two characters, zero padded. *)
Definition format_02d (n : Z) : string :=
  if (0 <=? n) && (n <? 10) then "0" +:+ pretty n else pretty n.

(** [l[:n]] for [n >= 0]. *)
Definition slice_to {A : Type} (n : nat) (l : list A) : list A := firstn n l.

(** [sorted(l, key=key, reverse=True)] and SQL's [ORDER BY key DESC] for
    [int] keys, stable like [sorted_desc]. *)
Section SortedZ.
Context {A : Type} (key : A -> Z).

Fixpoint insert_desc_Z (x : A) (l : list A) : list A :=
  match l with
  | [] => [x]
  | y :: l' => if key x <? key y then y :: insert_desc_Z x l' else x :: l
  end.

Definition sorted_desc_Z (l : list A) : list A :=
  fold_right insert_desc_Z [] l.

End SortedZ.

(** [l[:n]] for any [int] [n]: a negative [n] counts from the end. *)
Definition slice_to_Z {A : Type} (n : Z) (l : list A) : list A :=
  if n <? 0 then firstn (length l - Z.to_nat (- n)) l
  else firstn (Z.to_nat n) l.

End Py.

(** ** The order of binary64 floats *)

Module FloatOrder.

(** A non-NaN float is ranked by sign class, then exponent, then mantissa. *)
Definition rank (f : spec_float) : option (Z * Z * Z) :=
  match f with
  | S754_nan => None
  | S754_zero _ => Some (0, 0, 0)
  | S754_infinity s => Some (if s then -2 else 2, 0, 0)
  | S754_finite s m e =>
      Some (if s then (-1, - e, - Zpos m) else (1, e, Zpos m))
  end.

Definition lex3 (a b : Z * Z * Z) : comparison :=
  match a, b with
  | (a1, a2, a3), (b1, b2, b3) =>
      match a1 ?= b1 with
      | Eq => match a2 ?= b2 with Eq => a3 ?= b3 | c => c end
      | c => c
      end
  end.

Definition rank_of (x : float) : option (Z * Z * Z) := rank (Prim2SF x).

End FloatOrder.

(** ** The publication ledger: src/agent/analytics.py *)

Module Analytics.
Import Py.

(** [datetime]: a naive local timestamp in seconds; [hour] is its
    hour-of-day component. *)
Definition datetime := Z.
Definition hour (t : datetime) : Z := (t / 3600) mod 24.

(** A row of the table [posts] (class [Post]).  [hashtags] is stored as the
    JSON text of a list of strings and read back with [json.loads]; the
    model keeps the list. *)
Record Post : Type := mkPost {
  id : Z;
  video_id : string;
  instagram_media_id : string;
  instagram_code : string;
  instagram_url : string;
  youtube_title : string;
  youtube_url : string;
  caption : string;
  hashtags : list string;
  category : option string;
  posted_at : datetime;
  likes : Z;
  comments : Z;
  views : Z;
  engagement_rate : float;
  last_updated : datetime
}.

(** The argument of [track_post] (the dict [post_data]). *)
Record PostData : Type := mkPostData {
  pd_video_id : string;
  pd_instagram_media_id : string;
  pd_instagram_code : string;
  pd_instagram_url : string;
  pd_youtube_title : string;
  pd_youtube_url : string;
  pd_caption : string;
  pd_hashtags : list string;
  pd_category : option string
}.

(** The table: rows in rowid order. *)
Definition Ledger := list Post.

(** The autoincremented primary key of the next row. *)
Definition next_id (db : Ledger) : Z :=
  1 + fold_right Z.max 0 (map id db).

(** [session.query(Post).filter_by(video_id=video_id).first()] *)
Definition query_first (vid : string) (db : Ledger) : option Post :=
  List.find (fun p => String.eqb (video_id p) vid) db.

(** [track_post]: the two arguments [t_posted] and [t_updated] are the two
    readings of [datetime.now()].  [video_id] is a UNIQUE column: the commit
    of a second row with the same [video_id] raises, the handler rolls back
    and the function returns [False]. *)
Definition track_post (pd : PostData) (t_posted t_updated : datetime)
    (db : Ledger) : Ledger * bool :=
  let post := {|
    id := next_id db;
    video_id := pd_video_id pd;
    instagram_media_id := pd_instagram_media_id pd;
    instagram_code := pd_instagram_code pd;
    instagram_url := pd_instagram_url pd;
    youtube_title := pd_youtube_title pd;
    youtube_url := pd_youtube_url pd;
    caption := pd_caption pd;
    hashtags := pd_hashtags pd;
    category := pd_category pd;
    posted_at := t_posted;
    likes := 0;
    comments := 0;
    views := 0;
    engagement_rate := PrimFloat.zero;
    last_updated := t_updated
  |} in
  match query_first (pd_video_id pd) db with
  | Some _ => (db, false)
  | None => (db ++ [post], true)
  end.

(** [(post.likes + post.comments) / post.views * 100]; [None] is the
    exception of the division. *)
Definition engagement (likes' comments' views' : Z) : option float :=
  option_map (fun q => PrimFloat.mul q (float_of_Z 100))
    (int_truediv (likes' + comments') views').

(** The rate that [update_post_metrics] gives the row it found.
    [metrics] is a dict of [int]s; a key that is absent keeps the stored
    value.  The rate is recomputed under the guard [post.views > 0];
    [None] is the exception of the division. *)
Definition new_rate (metrics : gmap string Z) (post : Post) : option float :=
  let likes' := default (likes post) (metrics !! "likes") in
  let comments' := default (comments post) (metrics !! "comments") in
  let views' := default (views post) (metrics !! "views") in
  if 0 <? views' then engagement likes' comments' views'
  else Some (engagement_rate post).

(** The body of [update_post_metrics] on the row it found, up to the
    commit.  An exception of the division leaves the body before the clock
    is read. *)
Definition refresh (metrics : gmap string Z) (now : datetime) (post : Post)
    : PyResult Post :=
  match new_rate metrics post with
  | None => Raise
  | Some rate' =>
      Ret {|
        id := id post;
        video_id := video_id post;
        instagram_media_id := instagram_media_id post;
        instagram_code := instagram_code post;
        instagram_url := instagram_url post;
        youtube_title := youtube_title post;
        youtube_url := youtube_url post;
        caption := caption post;
        hashtags := hashtags post;
        category := category post;
        posted_at := posted_at post;
        likes := default (likes post) (metrics !! "likes");
        comments := default (comments post) (metrics !! "comments");
        views := default (views post) (metrics !! "views");
        engagement_rate := rate';
        last_updated := now
      |}
  end.

(** An INTEGER column holds a signed 64-bit value: the commit of a row with
    a larger [int] raises OverflowError. *)
Definition int64 (z : Z) : bool := (- 2 ^ 63 <=? z) && (z <? 2 ^ 63).

Definition fits (post : Post) : bool :=
  int64 (likes post) && int64 (comments post) && int64 (views post).

(** The table with the first row whose [video_id] is [vid] replaced. *)
Fixpoint replace_first (vid : string) (post' : Post) (db : Ledger) : Ledger :=
  match db with
  | [] => []
  | p :: db' =>
      if String.eqb (video_id p) vid then post' :: db'
      else p :: replace_first vid post' db'
  end.

(** [update_post_metrics]: [now] is the reading of [datetime.now()].  An
    exception of the body or of the commit is caught by the handler, which
    rolls back and returns [False]. *)
Definition update_post_metrics (vid : string) (metrics : gmap string Z)
    (now : datetime) (db : Ledger) : Ledger * bool :=
  match query_first vid db with
  | None => (db, false)
  | Some post =>
      match refresh metrics now post with
      | Raise => (db, false)
      | Ret post' =>
          if fits post' then (replace_first vid post' db, true)
          else (db, false)
      end
  end.

(** Whether that call reads the clock: it does once the row is found and
    the rate is computed. *)
Definition reads_clock (vid : string) (metrics : gmap string Z) (db : Ledger)
    : bool :=
  match query_first vid db with
  | None => false
  | Some post =>
      match new_rate metrics post with
      | None => false
      | Some _ => true
      end
  end.

(** The same call with the dict that [get_media_info] builds, whose 'likes'
    and 'comments' are [int]s and whose 'views' is an [int] or None.  With
    None the comparison [post.views > 0] raises TypeError before the clock
    is read, the handler rolls back and the call returns [False], as it
    does without a record.  The last component tells whether the clock was
    read. *)
Definition update_post_metrics_reported (vid : string) (likes' comments' : Z)
    (views' : option Z) (now : datetime) (db : Ledger)
    : Ledger * bool * bool :=
  match views' with
  | None => (db, false, false)
  | Some v =>
      let metrics :=
        <["likes" := likes']>
        (<["comments" := comments']> (<["views" := v]> ∅)) in
      (update_post_metrics vid metrics now db, reads_clock vid metrics db)
  end.

(** [get_post]: the dict built by [_post_to_dict] has the fields of the row
    and is never empty, so it is truthy exactly when a row was found. *)
Definition get_post (vid : string) (db : Ledger) : option Post :=
  query_first vid db.

(** SQL [LIMIT n]: a negative [n] means no limit. *)
Definition sql_limit {A : Type} (n : Z) (rows : list A) : list A :=
  if n <? 0 then rows else firstn (Z.to_nat n) rows.



(** A value of the statistics dict. *)
Inductive StatValue : Type :=
| SInt (z : Z)
| SFloat (x : float).

(** [total / len(posts)] for the sum of a column: the rows hold 64-bit
    values, so the quotient is within the range of the floats and the only
    exception of the division is ZeroDivisionError. *)
Definition column_mean (total n : Z) : option float :=
  if n =? 0 then None else Some (int_quotient total n).

(** [get_statistics].  The divisions of the second branch are by
    [len(posts)]; a ZeroDivisionError would be caught by the handler, which
    returns the empty dict. *)
Definition get_statistics (db : Ledger) : gmap string StatValue :=
  match db with
  | [] =>
      <["total_posts" := SInt 0]>
      (<["total_likes" := SInt 0]>
      (<["total_comments" := SInt 0]>
      (<["total_views" := SInt 0]>
      (<["avg_engagement_rate" := SInt 0]> ∅))))
  | _ :: _ =>
      let n := Z.of_nat (length db) in
      let total_likes := sum_int (map likes db) in
      let total_comments := sum_int (map comments db) in
      let total_views := sum_int (map views db) in
      match float_div_int (sum_float (map engagement_rate db)) n,
            column_mean total_likes n,
            column_mean total_comments n,
            column_mean total_views n with
      | Some avg_engagement, Some al, Some ac, Some av =>
          <["total_posts" := SInt n]>
          (<["total_likes" := SInt total_likes]>
          (<["total_comments" := SInt total_comments]>
          (<["total_views" := SInt total_views]>
          (<["avg_engagement_rate" := SFloat avg_engagement]>
          (<["avg_likes_per_post" := SFloat al]>
          (<["avg_comments_per_post" := SFloat ac]>
          (<["avg_views_per_post" := SFloat av]> ∅)))))))
      | _, _, _, _ => ∅
      end
  end.

(** The dict [hour_engagement]: hours in the order of their first post. *)
Fixpoint dict_append (h : Z) (r : float) (d : list (Z * list float))
    : list (Z * list float) :=
  match d with
  | [] => [(h, [r])]
  | (h', rs) :: d' =>
      if h' =? h then (h', rs ++ [r]) :: d' else (h', rs) :: dict_append h r d'
  end.

Definition hour_engagement (posts : list Post) : list (Z * list float) :=
  fold_left (fun d p => dict_append (hour (posted_at p)) (engagement_rate p) d)
    posts [].

(** [sum(rates) / len(rates)]; every list of the dict is non-empty. *)
Definition mean (rates : list float) : float :=
  PrimFloat.div (sum_float rates) (float_of_Z (Z.of_nat (length rates))).

Definition hour_avg (posts : list Post) : list (Z * float) :=
  map (fun hr => (fst hr, mean (snd hr))) (hour_engagement posts).

(** The rows of [filter(Post.engagement_rate > 0)]. *)
Definition qualifying (db : Ledger) : list Post :=
  filter (fun p => PrimFloat.ltb PrimFloat.zero (engagement_rate p) = true) db.

(** [best_hours]: the (hour, mean) pairs after the sort. *)
Definition best_hours (db : Ledger) : list (Z * float) :=
  sorted_desc snd (hour_avg (qualifying db)).

(** [get_best_posting_times]; [min_posts] is the configured
    [analytics.optimization.min_posts_for_optimization] (default 10). *)
Definition get_best_posting_times (min_posts : Z) (db : Ledger)
    : list string :=
  if Z.of_nat (length (qualifying db)) <? min_posts then []
  else map (fun hm => format_02d (fst hm) +:+ ":00")
           (slice_to 3 (best_hours db)).

(** [get_all_posts]: the most recent posts first. *)
Definition get_all_posts (limit : Z) (db : Ledger) : list Post :=
  sql_limit limit (sorted_desc_Z posted_at db).

(** The dict [hashtag_data]: for each tag, in the order of its first use, its
    number of uses and the sum of the rates of the posts using it.  The sum
    starts at the [int] 0. *)
Fixpoint hashtag_add (tag : string) (r : float)
    (d : list (string * (Z * float))) : list (string * (Z * float)) :=
  match d with
  | [] => [(tag, (0 + 1, PrimFloat.add PrimFloat.zero r))]
  | (t, (count, total)) :: d' =>
      if String.eqb t tag then (t, (count + 1, PrimFloat.add total r)) :: d'
      else (t, (count, total)) :: hashtag_add tag r d'
  end.

Definition hashtag_data (posts : list Post) : list (string * (Z * float)) :=
  fold_left
    (fun d post =>
       fold_left (fun d' tag => hashtag_add tag (engagement_rate post) d')
         (hashtags post) d)
    posts [].

(** The dict [hashtag_avg]: the tags with at least three uses. *)
Definition hashtag_avg (d : list (string * (Z * float)))
    : list (string * float) :=
  map (fun e => (e.1, PrimFloat.div e.2.2 (float_of_Z e.2.1)))
    (List.filter (fun e => 3 <=? e.2.1) d).

Definition get_best_hashtags (limit : Z) (db : Ledger) : list string :=
  match qualifying db with
  | [] => []
  | posts =>
      map fst
        (slice_to_Z limit (sorted_desc snd (hashtag_avg (hashtag_data posts))))
  end.

End Analytics.

(** ** The publishing client: src/agent/instagram_poster.py *)

Module InstagramPoster.
Import Py.

(** The fields of instagrapi's [Media] that the poster reads. *)
Record Media : Type := mkMedia {
  media_id : string;
  media_code : string;
  media_taken_at : Z
}.

(** The dict [post_info]. *)
Record PostInfo : Type := mkPostInfo {
  pi_id : string;
  pi_code : string;
  pi_url : string;
  pi_posted_at : Z
}.

(** What one call of [clip_upload] or [video_upload] does: return a media
    object, raise [LoginRequired], or raise any other exception. *)
Inductive UploadOutcome : Type :=
| UploadOk (m : Media)
| LoginRequired
| UploadError.

(** The platform as the poster observes it.  [credentials] tells whether both
    the user name and the password are configured; [login_outcome k] is the
    outcome of the k-th session the poster tries to establish and
    [upload_outcome k] the outcome of its k-th upload call. *)
Record Platform : Type := mkPlatform {
  credentials : bool;
  login_outcome : nat -> bool;
  upload_outcome : nat -> UploadOutcome
}.

(** The poster object: whether [self.client] is set, and how many sessions
    and uploads it has asked the platform for. *)
Record Poster : Type := mkPoster {
  client : bool;
  logins : nat;
  uploads : nat
}.

Inductive PostType : Type := Reel | Video.

Definition post_url (kind : PostType) (code : string) : string :=
  match kind with
  | Reel => "https://www.instagram.com/reel/" +:+ code +:+ "/"
  | Video => "https://www.instagram.com/p/" +:+ code +:+ "/"
  end.

Definition post_info (kind : PostType) (m : Media) : PostInfo :=
  {| pi_id := media_id m;
     pi_code := media_code m;
     pi_url := post_url kind (media_code m);
     pi_posted_at := media_taken_at m |}.

Section Poster.
Variable pf : Platform.

(** [login]: without credentials nothing is touched; otherwise [self.client]
    is set to a fresh [Client()] before the platform is asked, and stays set
    when the login fails. *)
Definition login (st : Poster) : Poster * bool :=
  if negb (credentials pf) then (st, false)
  else ({| client := true; logins := S (logins st); uploads := uploads st |},
        login_outcome pf (logins st)).

Definition count_upload (st : Poster) : Poster :=
  {| client := client st; logins := logins st; uploads := S (uploads st) |}.

Definition drop_client (st : Poster) : Poster :=
  {| client := false; logins := logins st; uploads := uploads st |}.

(** [post_reel] and [post_video] share their body up to the upload method and
    the URL.  [depth] is the number of frames the interpreter still allows:
    the handler of [LoginRequired] calls the function again, and a call
    beyond the recursion limit raises. *)
Fixpoint post (kind : PostType) (depth : nat) (st : Poster)
    : Poster * PyResult (option PostInfo) :=
  match depth with
  | O => (st, Raise)
  | S depth' =>
      let '(st1, ok) := if client st then (st, true) else login st in
      if negb ok then (st1, Ret None)
      else
        match upload_outcome pf (uploads st1) with
        | UploadOk m => (count_upload st1, Ret (Some (post_info kind m)))
        | LoginRequired =>
            let '(st2, ok2) := login (drop_client (count_upload st1)) in
            if ok2 then post kind depth' st2 else (st2, Ret None)
        | UploadError => (count_upload st1, Ret None)
        end
  end.

Definition post_reel := post Reel.
Definition post_video := post Video.

End Poster.
(** An attribute of instagrapi's media object that may be missing, or be
    there with the value None or with an [int]. *)
Inductive Attr : Type :=
| Missing
| IsNone
| IsInt (z : Z).

(** The attributes of the media object that [get_media_info] reads.  The
    counts of likes and comments are [int]s, which the sum
    [post.likes + post.comments] of the ledger presupposes. *)
Record MediaInfo : Type := mkMediaInfo {
  info_id : string;
  info_code : string;
  like_count : Z;
  comment_count : Z;
  view_count : Attr;
  play_count : Attr
}.

(** The dict that [get_media_info] returns; [m_views] is an [int] or
    None. *)
Record Metrics : Type := mkMetrics {
  m_id : string;
  m_code : string;
  m_likes : Z;
  m_comments : Z;
  m_views : option Z
}.

(** [getattr(media, name, 0)]: an [int] or None. *)
Definition getattr0 (a : Attr) : option Z :=
  match a with
  | Missing => Some 0
  | IsNone => None
  | IsInt z => Some z
  end.

(** [getattr(media, 'view_count', 0) or getattr(media, 'play_count', 0)]:
    the first value when it is truthy (an [int] other than 0), else the
    second one, whatever it is. *)
Definition views_of (media : MediaInfo) : option Z :=
  match getattr0 (view_count media) with
  | Some v => if v =? 0 then getattr0 (play_count media) else Some v
  | None => getattr0 (play_count media)
  end.

Section Queries.
Variable pf : Platform.
Variable media_info : string -> PyResult MediaInfo.

(** [get_media_info]: any exception of the platform call gives None. *)
Definition get_media_info (media_id : string) (st : Poster)
    : Poster * option Metrics :=
  let '(st1, ok) := if client st then (st, true) else login pf st in
  if negb ok then (st1, None)
  else
    match media_info media_id with
    | Ret media =>
        (st1, Some {| m_id := info_id media;
                      m_code := info_code media;
                      m_likes := like_count media;
                      m_comments := comment_count media;
                      m_views := views_of media |})
    | Raise => (st1, None)
    end.

End Queries.

End InstagramPoster.

(** ** The job scheduler: src/agent/scheduler.py *)

Module Scheduler.
Import Py.

(** [s.split(':')] *)
Fixpoint split_colon_aux (cur : string) (s : string) : list string :=
  match s with
  | EmptyString => [cur]
  | String c s' =>
      if Ascii.eqb c ":" then cur :: split_colon_aux "" s'
      else split_colon_aux (cur +:+ String c "") s'
  end.

Definition split_colon (s : string) : list string := split_colon_aux "" s.

(** The characters [int()] skips around the number in a [str] of ASCII
    characters: the space and the control characters 9 to 13. *)
Definition is_space (c : ascii) : bool :=
  let n := N_of_ascii c in
  (((9 <=? n) && (n <=? 13)) || (n =? 32))%N.

Definition digit_of (c : ascii) : option Z :=
  let n := N_of_ascii c in
  if ((48 <=? n) && (n <=? 57))%N then Some (Z.of_N n - 48) else None.

Fixpoint lstrip (s : string) : string :=
  match s with
  | EmptyString => EmptyString
  | String c s' => if is_space c then lstrip s' else s
  end.

Fixpoint all_space (s : string) : bool :=
  match s with
  | EmptyString => true
  | String c s' => is_space c && all_space s'
  end.

(** Where the scan of the digits stands: nothing read yet, just read a digit,
    or just read an underscore. *)
Inductive DigitState : Type := AtStart | AfterDigit | AfterUnderscore.

(** The digits of a decimal literal: digits with single underscores between
    them, then nothing but space. *)
Fixpoint digits (acc : Z) (state : DigitState) (s : string) : option Z :=
  match s with
  | EmptyString =>
      match state with AfterDigit => Some acc | _ => None end
  | String c s' =>
      match digit_of c with
      | Some d => digits (10 * acc + d) AfterDigit s'
      | None =>
          match state with
          | AfterDigit =>
              if Ascii.eqb c "_" then digits acc AfterUnderscore s'
              else if all_space s then Some acc
              else None
          | _ => None
          end
      end
  end.

(** [int(s)] for a [str] of ASCII characters, at most 4300 of them (the
    default limit of [int] on the number of digits); [None] is ValueError.
    Beyond ASCII the answer of [int] depends on the Unicode database of the
    interpreter, for which every decimal digit and every space character
    counts; statements that depend on the conversion are made for ASCII
    strings ([Spec.plain]). *)
Definition int (s : string) : option Z :=
  match lstrip s with
  | String "-" s' => option_map Z.opp (digits 0 AtStart s')
  | String "+" s' => digits 0 AtStart s'
  | s' => digits 0 AtStart s'
  end.

(** The [try] block of [_parse_time]: the unpacking of the split needs
    exactly two parts, and both must convert. *)
Definition parse_hh_mm (time_str : string) : option (Z * Z) :=
  match split_colon time_str with
  | [hour; minute] =>
      match int hour, int minute with
      | Some h, Some m => Some (h, m)
      | _, _ => None
      end
  | _ => None
  end.

(** [_parse_time]: the handler returns 7 PM. *)
Definition _parse_time (time_str : string) : Z * Z :=
  match parse_hh_mm time_str with
  | Some hm => hm
  | None => (19, 0)
  end.

(** A cron trigger firing every day at [cron_hour]:[cron_minute]. *)
Record Cron : Type := mkCron {
  cron_hour : Z;
  cron_minute : Z
}.

(** APScheduler's [CronTrigger(hour=h, minute=m)] raises ValueError for a
    field outside its range. *)
Definition CronTrigger (h m : Z) : PyResult Cron :=
  if (0 <=? h) && (h <=? 23) && (0 <=? m) && (m <=? 59)
  then Ret {| cron_hour := h; cron_minute := m |}
  else Raise.

(** The job id [f'daily_post_{hour}_{minute}']. *)
Definition daily_job_id (h m : Z) : string :=
  "daily_post_" +:+ pretty h +:+ "_" +:+ pretty m.

(** One round of the loop of [schedule_posts].  The job store maps a job id
    to its trigger; [replace_existing=True] makes [add_job] an insertion. *)
Definition schedule_post (frequency : string) (post_time_str : string)
    (jobs : gmap string Cron) : gmap string Cron * PyResult unit :=
  let '(hour, minute) := _parse_time post_time_str in
  if String.eqb frequency "daily" then
    match CronTrigger hour minute with
    | Ret trigger => (<[daily_job_id hour minute := trigger]> jobs, Ret tt)
    | Raise => (jobs, Raise)
    end
  else if String.eqb frequency "twice_daily" then
    match CronTrigger 9 0, CronTrigger 19 0 with
    | Ret trigger1, Ret trigger2 =>
        (<["evening_post" := trigger2]> (<["morning_post" := trigger1]> jobs),
         Ret tt)
    | _, _ => (jobs, Raise)
    end
  else (jobs, Ret tt).

(** [schedule_posts]: an exception leaves the loop with the jobs added so
    far. *)
Fixpoint schedule_posts (frequency : string) (post_times : list string)
    (jobs : gmap string Cron) : gmap string Cron * PyResult unit :=
  match post_times with
  | [] => (jobs, Ret tt)
  | post_time_str :: rest =>
      match schedule_post frequency post_time_str jobs with
      | (jobs', Ret _) => schedule_posts frequency rest jobs'
      | (jobs', Raise) => (jobs', Raise)
      end
  end.

End Scheduler.

(** ** The pipeline: src/main.py *)

Module Agent.
Import Py.

(** The keys of a video dict that the pipeline reads. *)
Record Video : Type := mkVideo {
  v_id : string;
  v_title : string;
  v_url : string
}.

(** The dict returned by [generate_caption]. *)
Record CaptionData : Type := mkCaptionData {
  cd_caption : string;
  cd_hashtags : list string;
  cd_full_caption : string
}.

(** The configuration values [run_once] looks up. *)
Record Settings : Type := mkSettings {
  post_type : string;
  content_category : option string;
  cleanup_downloads : bool
}.

(** The collaborators of one cycle: what the scraper, the editor and the
    caption generator answer (each may raise), the publishing platform, the
    wall clock ([clock k] is the k-th reading of [datetime.now()]) and the
    recursion depth left to [post_reel] / [post_video]. *)
Record Collaborators : Type := mkCollaborators {
  search_videos : PyResult (list Video);
  download_video : Video -> PyResult (option string);
  process_video : string -> string -> PyResult (option string);
  generate_caption : Video -> PyResult CaptionData;
  platform : InstagramPoster.Platform;
  clock : nat -> Z;
  recursion_limit : nat
}.

(** The calls a cycle makes on the publisher and on the ledger, in order. *)
Inductive Event : Type :=
| EvPublish (r : PyResult (option InstagramPoster.PostInfo))
| EvTrack (pd : Analytics.PostData).

(** The state a cycle runs in: the ledger, the poster object, the number of
    clock readings so far and the log of calls. *)
Record State : Type := mkState {
  ledger : Analytics.Ledger;
  poster : InstagramPoster.Poster;
  ticks : nat;
  trace : list Event
}.

(** State passing with exceptions. *)
Definition M (A : Type) : Type := State -> State * PyResult A.

Definition ret {A : Type} (a : A) : M A := fun st => (st, Ret a).

Definition bind {A B : Type} (m : M A) (k : A -> M B) : M B :=
  fun st =>
    match m st with
    | (st', Ret a) => k a st'
    | (st', Raise) => (st', Raise)
    end.

Definition lift {A : Type} (r : PyResult A) : M A := fun st => (st, r).

Definition gets {A : Type} (f : State -> A) : M A := fun st => (st, Ret (f st)).

Notation "'let*' x ':=' m 'in' k" := (bind m (fun x => k))
  (at level 10, x name, m at level 100, k at level 200).

(** [_get_unposted_video]: the first video for which [get_post] finds no
    row. *)
Definition _get_unposted_video (videos : list Video)
    (db : Analytics.Ledger) : option Video :=
  List.find
    (fun video =>
       match Analytics.get_post (v_id video) db with
       | None => true
       | Some _ => false
       end)
    videos.

(** Truth value of an [Optional[str]]: [None] and the empty string are
    false. *)
Definition truthy (o : option string) : option string :=
  match o with
  | Some EmptyString => None
  | _ => o
  end.

Section Cycle.
Variable w : Collaborators.
Variable cfg : Settings.
Variable test_mode : bool.

(** Step 5: the call of [post_reel] or [post_video]. *)
Definition publish : M (option InstagramPoster.PostInfo) :=
  fun st =>
    let '(poster', r) :=
      if String.eqb (post_type cfg) "reel"
      then InstagramPoster.post_reel (platform w) (recursion_limit w)
             (poster st)
      else InstagramPoster.post_video (platform w) (recursion_limit w)
             (poster st) in
    ({| ledger := ledger st;
        poster := poster';
        ticks := ticks st;
        trace := trace st ++ [EvPublish r] |}, r).

(** Step 6: the call of [track_post], whose result is not looked at. *)
Definition track (pd : Analytics.PostData) : M unit :=
  fun st =>
    let '(db', _) :=
      Analytics.track_post pd (clock w (ticks st)) (clock w (S (ticks st)))
        (ledger st) in
    ({| ledger := db';
        poster := poster st;
        ticks := S (S (ticks st));
        trace := trace st ++ [EvTrack pd] |}, Ret tt).

(** [_cleanup_files] removes local files and catches its own exceptions; the
    file system is not part of the state. *)
Definition _cleanup_files (paths : list string) : M unit := ret tt.

(** The [try] block of [run_once]. *)
Definition run_once_body : M bool :=
  let* videos := lift (search_videos w) in
  match videos with
  | [] => ret false
  | _ :: _ =>
  let* found := gets (fun st => _get_unposted_video videos (ledger st)) in
  match found with
  | None => ret false
  | Some video =>
  let* downloaded := lift (download_video w video) in
  match truthy downloaded with
  | None => ret false
  | Some video_path =>
  let* processed := lift (process_video w video_path (v_id video)) in
  match truthy processed with
  | None => ret false
  | Some edited_path =>
  let* caption_data := lift (generate_caption w video) in
  if test_mode then ret true
  else
  let* posted := publish in
  match posted with
  | None => ret false
  | Some post_info =>
  let* _ := track {|
    Analytics.pd_video_id := v_id video;
    Analytics.pd_instagram_media_id := InstagramPoster.pi_id post_info;
    Analytics.pd_instagram_code := InstagramPoster.pi_code post_info;
    Analytics.pd_instagram_url := InstagramPoster.pi_url post_info;
    Analytics.pd_youtube_title := v_title video;
    Analytics.pd_youtube_url := v_url video;
    Analytics.pd_caption := cd_caption caption_data;
    Analytics.pd_hashtags := cd_hashtags caption_data;
    Analytics.pd_category := content_category cfg
  |} in
  let* _ := (if cleanup_downloads cfg
             then _cleanup_files [video_path; edited_path] else ret tt) in
  ret true
  end end end end end.

(** [run_once]: any exception of the body is caught and gives [False]. *)
Definition run_once (st : State) : State * bool :=
  match run_once_body st with
  | (st', Ret success) => (st', success)
  | (st', Raise) => (st', false)
  end.

End Cycle.

Section Refresh.
Variable w : Collaborators.
Variable media_info : string -> PyResult InstagramPoster.MediaInfo.
Variable test_mode : bool.

(** One round of the loop of [update_analytics] for the dict [post]; the
    result of [update_post_metrics] is not looked at. *)
Definition update_analytics_post (st : State) (post : Analytics.Post)
    : State :=
  match Analytics.instagram_media_id post with
  | EmptyString => st
  | media_id =>
      let '(poster', metrics) :=
        InstagramPoster.get_media_info (platform w) media_info media_id
          (poster st) in
      match metrics with
      | None =>
          {| ledger := ledger st; poster := poster';
             ticks := ticks st; trace := trace st |}
      | Some m =>
          let '(db', _, clock_read) :=
            Analytics.update_post_metrics_reported (Analytics.video_id post)
              (InstagramPoster.m_likes m) (InstagramPoster.m_comments m)
              (InstagramPoster.m_views m) (clock w (ticks st)) (ledger st) in
          {| ledger := db'; poster := poster';
             ticks := if clock_read then S (ticks st) else ticks st;
             trace := trace st |}
      end
  end.

(** [update_analytics]: the ten most recent posts are refreshed in turn. *)
Definition update_analytics (st : State) : State :=
  if test_mode then st
  else fold_left update_analytics_post
         (Analytics.get_all_posts 10 (ledger st)) st.

End Refresh.



End Agent.

(** ** The configuration: src/agent/config.py *)

Module Config.
Import Py.

(** A value loaded from the YAML file.  [YNull] is Python's None; a dict
    is the list of its items, each key once. *)
#[warnings="-register-all"]
Inductive Yaml : Type :=
| YNull
| YBool (b : bool)
| YInt (z : Z)
| YFloat (x : float)
| YStr (s : string)
| YList (l : list Yaml)
| YDict (items : list (string * Yaml)).

(** [s.split('.')] *)
Fixpoint split_dot_aux (cur : string) (s : string) : list string :=
  match s with
  | EmptyString => [cur]
  | String c s' =>
      if Ascii.eqb c "." then cur :: split_dot_aux "" s'
      else split_dot_aux (cur +:+ String c "") s'
  end.

Definition split_dot (s : string) : list string := split_dot_aux "" s.

(** [d.get(key)] on the items of a dict; a missing key gives None. *)
Fixpoint dict_get (key : string) (items : list (string * Yaml)) : Yaml :=
  match items with
  | [] => YNull
  | (k, v) :: items' => if String.eqb k key then v else dict_get key items'
  end.

(** The loop of [get] over the keys of the path. *)
Fixpoint get_keys (keys : list string) (value default : Yaml) : Yaml :=
  match keys with
  | [] => value
  | key :: keys' =>
      match value with
      | YDict items =>
          match dict_get key items with
          | YNull => default
          | value' => get_keys keys' value' default
          end
      | _ => default
      end
  end.

(** [Config.get(key_path, default)] on the loaded [config_data]. *)
Definition get (config_data : Yaml) (key_path : string) (default : Yaml)
    : Yaml :=
  get_keys (split_dot key_path) config_data default.

End Config.

(** ** Discovery: src/agent/youtube_scraper.py *)

Module YouTubeScraper.
Import Py.

(** The keys of a video dict that the filter reads or writes.  A field that
    is [None] holds Python's None, which the search backend gives for what
    it does not know. *)
Record VideoInfo : Type := mkVideoInfo {
  id : string;
  title : option string;
  description : option string;
  duration : option Z;
  view_count : option Z;
  like_count : option Z;
  engagement_score : option float
}.

(** The configuration values and what the scraper is given from outside:
    [search keyword] is what [_search_youtube] returns or raises, and
    [str_lower] is [str.lower] of the interpreter, whose case mapping is
    that of its Unicode database. *)
Record Setup : Type := mkSetup {
  min_length : Z;
  max_length : Z;
  min_views : Z;
  min_likes_ratio : float;
  enable_copyright_check : bool;
  search : string -> PyResult (list VideoInfo);
  str_lower : string -> string
}.

(** [keyword in s], for a keyword of ASCII characters. *)
Fixpoint contains (keyword s : string) : bool :=
  String.prefix keyword s
  || match s with
     | EmptyString => false
     | String _ s' => contains keyword s'
     end.

Definition copyright_keywords : list string :=
  ["official music video"; "official video"; "vevo"; "full movie";
   "full episode"; "hd movie"; "soundtrack"].

Section Scraper.
Variable cfg : Setup.

(** [_check_copyright_indicators]: [.lower()] on None raises. *)
Definition _check_copyright_indicators (video : VideoInfo) : PyResult bool :=
  if negb (enable_copyright_check cfg) then Ret false
  else
    match title video, description video with
    | Some t, Some d =>
        Ret (existsb
               (fun keyword =>
                  contains keyword (str_lower cfg t)
                  || contains keyword (str_lower cfg d))
               copyright_keywords)
    | _, _ => Raise
    end.

Definition set_score (video : VideoInfo) (score : float) : VideoInfo :=
  {| id := id video;
     title := title video;
     description := description video;
     duration := duration video;
     view_count := view_count video;
     like_count := like_count video;
     engagement_score := Some score |}.

(** One round of the loop of [_filter_videos]: the video to append, nothing
    for [continue], or an exception: the TypeError of a comparison or a
    division with None, or the OverflowError of the division. *)
Definition filter_video (video : VideoInfo) : PyResult (option VideoInfo) :=
  match duration video with
  | None => Raise
  | Some d =>
      if (d <? min_length cfg) || (max_length cfg <? d) then Ret None
      else
        match view_count video with
        | None => Raise
        | Some views =>
            if views <? min_views cfg then Ret None
            else
              match like_count video with
              | None => Raise
              | Some likes =>
                  match int_truediv likes (Z.max views 1) with
                  | None => Raise
                  | Some score =>
                      let video' := set_score video score in
                      if PrimFloat.ltb score
                           (PrimFloat.div (min_likes_ratio cfg)
                              (float_of_Z 100))
                      then Ret None
                      else
                        match _check_copyright_indicators video' with
                        | Raise => Raise
                        | Ret true => Ret None
                        | Ret false => Ret (Some video')
                        end
                  end
              end
        end
  end.

Fixpoint _filter_videos (videos : list VideoInfo)
    : PyResult (list VideoInfo) :=
  match videos with
  | [] => Ret []
  | video :: videos' =>
      match filter_video video with
      | Raise => Raise
      | Ret kept =>
          match _filter_videos videos' with
          | Raise => Raise
          | Ret filtered =>
              Ret (match kept with
                   | Some video' => video' :: filtered
                   | None => filtered
                   end)
          end
      end
  end.

(** The videos that one keyword contributes to [search_videos]: an
    exception of the search or of the filter is caught and the keyword
    contributes nothing. *)
Definition videos_of_keyword (keyword : string) : list VideoInfo :=
  match search cfg keyword with
  | Raise => []
  | Ret search_results =>
      match _filter_videos search_results with
      | Raise => []
      | Ret filtered_videos => filtered_videos
      end
  end.

(** The sort key [x.get('engagement_score', 0)]. *)
Definition score_of (video : VideoInfo) : float :=
  default PrimFloat.zero (engagement_score video).

Definition search_videos (keywords : list string) (max_results : Z)
    : list VideoInfo :=
  slice_to_Z max_results
    (sorted_desc score_of (flat_map videos_of_keyword keywords)).

End Scraper.
End YouTubeScraper.

(** ** Notions of the statements

    The claims in the words of the specification, and the notions the
    statements about the code are written with. *)

Module Spec.
Import Analytics.

(** The rate as the specification words it:
    (likes + comments) / max(views, 1) * 100. *)
Definition spec_engagement_rate (l c v : Z) : option float :=
  option_map (fun q => PrimFloat.mul q (Py.float_of_Z 100))
    (Py.int_truediv (l + c) (Z.max v 1)).


(** The record with its time stamp of the last refresh blanked. *)
Definition without_last_updated (p : Post) : Post :=
  {| id := id p;
     video_id := video_id p;
     instagram_media_id := instagram_media_id p;
     instagram_code := instagram_code p;
     instagram_url := instagram_url p;
     youtube_title := youtube_title p;
     youtube_url := youtube_url p;
     caption := caption p;
     hashtags := hashtags p;
     category := category p;
     posted_at := posted_at p;
     likes := likes p;
     comments := comments p;
     views := views p;
     engagement_rate := engagement_rate p;
     last_updated := 0 |}.

(** The rates of the records of hour [h], in the order of the table. *)
Definition rates_of_hour (h : Z) (posts : list Post) : list float :=
  map engagement_rate
    (List.filter (fun p => hour (posted_at p) =? h) posts).

(** The mean engagement of the qualifying records of hour [h]. *)
Definition mean_of_hour (db : Ledger) (h : Z) : float :=
  mean (rates_of_hour h (qualifying db)).

(** The entry of hour [h] in the dict [hour_engagement]. *)
Definition entry_of_hour (h : Z) (d : list (Z * list float))
    : option (list float) :=
  option_map snd (List.find (fun e => fst e =? h) d).

(** Hours strictly ordered by descending mean: each returned time stands for
    an hour whose mean is strictly greater than that of the next one. *)
Definition hours_strictly_descending (db : Ledger) (times : list string)
    : Prop :=
  forall (i : nat) (h1 h2 : Z),
    times !! i = Some (Py.format_02d h1 +:+ ":00") ->
    times !! S i = Some (Py.format_02d h2 +:+ ":00") ->
    PrimFloat.ltb (mean_of_hour db h2) (mean_of_hour db h1) = true.

(** The retry bounded to one attempt: when the publish call and the retried
    call both signal [LoginRequired], the invocation has established one more
    session, has made two publish calls and yields no post identifier. *)
Definition retry_bounded_to_one (pf : InstagramPoster.Platform)
    (kind : InstagramPoster.PostType) (depth : nat)
    (st : InstagramPoster.Poster) : Prop :=
  InstagramPoster.client st = true ->
  InstagramPoster.upload_outcome pf (InstagramPoster.uploads st)
    = InstagramPoster.LoginRequired ->
  InstagramPoster.upload_outcome pf (S (InstagramPoster.uploads st))
    = InstagramPoster.LoginRequired ->
  let r := InstagramPoster.post pf kind depth st in
  InstagramPoster.logins r.1 = S (InstagramPoster.logins st) /\
  InstagramPoster.uploads r.1 = S (S (InstagramPoster.uploads st)) /\
  forall info, r.2 <> Py.Ret (Some info).

(** What the invocation yields when its last publish call has the outcome
    [o]. *)
Definition result_of_outcome (kind : InstagramPoster.PostType)
    (o : InstagramPoster.UploadOutcome) : option InstagramPoster.PostInfo :=
  match o with
  | InstagramPoster.UploadOk m => Some (InstagramPoster.post_info kind m)
  | _ => None
  end.

(** The publisher call of a cycle with the settings [cfg]. *)
Definition post_kind (cfg : Agent.Settings) : InstagramPoster.PostType :=
  if String.eqb (Agent.post_type cfg) "reel"
  then InstagramPoster.Reel else InstagramPoster.Video.

(** The row [track_post] is asked to insert for [video] after [info]. *)
Definition post_data_of (cfg : Agent.Settings) (video : Agent.Video)
    (cd : Agent.CaptionData) (info : InstagramPoster.PostInfo)
    : PostData :=
  {| pd_video_id := Agent.v_id video;
     pd_instagram_media_id := InstagramPoster.pi_id info;
     pd_instagram_code := InstagramPoster.pi_code info;
     pd_instagram_url := InstagramPoster.pi_url info;
     pd_youtube_title := Agent.v_title video;
     pd_youtube_url := Agent.v_url video;
     pd_caption := Agent.cd_caption cd;
     pd_hashtags := Agent.cd_hashtags cd;
     pd_category := Agent.content_category cfg |}.



(** The uses of tags by the posts, in order: each use is the tag with the
    rate of the post that carries it. *)
Definition tag_uses (posts : list Post) : list (string * float) :=
  flat_map (fun p => map (fun t => (t, engagement_rate p)) (hashtags p)) posts.

(** The number of uses of tag [t] among the qualifying records. *)
Definition uses_of (t : string) (db : Ledger) : nat :=
  length (List.filter (fun u => String.eqb u.1 t) (tag_uses (qualifying db))).

(** The count that the dict [hashtag_data] holds for tag [t] (0 when the
    tag has no entry). *)
Definition count_of (t : string) (d : list (string * (Z * float))) : Z :=
  match List.find (fun e => String.eqb e.1 t) d with
  | Some e => e.2.1
  | None => 0
  end.

(** A post time whose hour and minute [CronTrigger] accepts. *)
Definition accepted (post_time_str : string) : Prop :=
  exists trigger,
    Scheduler.CronTrigger (Scheduler._parse_time post_time_str).1
      (Scheduler._parse_time post_time_str).2 = Py.Ret trigger.

(** The daily trigger at 19:00 and the id of its job. *)
Definition seven_pm : Scheduler.Cron :=
  {| Scheduler.cron_hour := 19; Scheduler.cron_minute := 0 |}.


(** The video ids of the records that the cycles logged in [tr] asked the
    ledger to insert, in order. *)
Definition tracked_ids (tr : list Agent.Event) : list string :=
  flat_map
    (fun e => match e with
              | Agent.EvTrack pd => [pd_video_id pd]
              | Agent.EvPublish _ => []
              end)
    tr.

(** A run of cycles, each with its own collaborators, settings and mode. *)
Definition run_cycles
    (cycles : list (Agent.Collaborators * Agent.Settings * bool))
    (st : Agent.State) : Agent.State :=
  fold_left (fun s c => (Agent.run_once c.1.1 c.1.2 c.2 s).1) cycles st.

(** The time [h]:[m] written HH:MM, zero padded. *)
Definition hh_mm (h m : Z) : string :=
  Py.format_02d h +:+ ":" +:+ Py.format_02d m.

(** The number of colons of a string. *)
Fixpoint colons (s : string) : nat :=
  match s with
  | EmptyString => 0
  | String c s' => (if Ascii.eqb c ":" then 1 else 0) + colons s'
  end.

(** Every time of the day, written padded or not, parses to itself. *)
Definition times_parse_back : bool :=
  forallb
    (fun h =>
       forallb
         (fun m =>
            bool_decide (Scheduler._parse_time (hh_mm h m) = (h, m))
            && bool_decide
                 (Scheduler._parse_time (pretty h +:+ ":" +:+ pretty m)
                  = (h, m)))
         (seqZ 0 60))
    (seqZ 0 24).

(** The time a daily job id stands for: the two numbers after the prefix,
    read with the underscore between them as the colon of a time. *)
Fixpoint underscore_to_colon (s : string) : string :=
  match s with
  | EmptyString => EmptyString
  | String c s' =>
      String (if Ascii.eqb c "_" then ":"%char else c) (underscore_to_colon s')
  end.

Definition time_of_job_id (job_id : string) : option (Z * Z) :=
  if String.eqb (String.substring 0 11 job_id) "daily_post_" then
    Scheduler.parse_hh_mm
      (underscore_to_colon
         (String.substring 11 (String.length job_id - 11) job_id))
  else None.

(** The job id of every time of the day stands for that time. *)
Definition job_ids_decode : bool :=
  forallb
    (fun h =>
       forallb
         (fun m =>
            bool_decide
              (time_of_job_id (Scheduler.daily_job_id h m) = Some (h, m)))
         (seqZ 0 60))
    (seqZ 0 24).

(** The job id and the trigger that the daily schedule derives from a post
    time. *)
Definition job_id_of (t : string) : string :=
  Scheduler.daily_job_id (Scheduler._parse_time t).1
    (Scheduler._parse_time t).2.

Definition trigger_of (t : string) : Scheduler.Cron :=
  {| Scheduler.cron_hour := (Scheduler._parse_time t).1;
     Scheduler.cron_minute := (Scheduler._parse_time t).2 |}.

(** The dotted path of a list of keys, and the configuration that holds
    [v] under that list of keys and nothing else. *)
Fixpoint dotted (keys : list string) : string :=
  match keys with
  | [] => ""
  | [k] => k
  | k :: keys' => k +:+ "." +:+ dotted keys'
  end.

Fixpoint nested (keys : list string) (v : Config.Yaml) : Config.Yaml :=
  match keys with
  | [] => v
  | k :: keys' => Config.YDict [(k, nested keys' v)]
  end.

(** A key as a dotted path can name it: it has no dot. *)
Fixpoint dotless (k : string) : bool :=
  match k with
  | EmptyString => true
  | String c k' => negb (Ascii.eqb c ".") && dotless k'
  end.

(** A video that the filter of [cfg] lets through, with the score the
    filter gave it. *)
Definition suitable (cfg : YouTubeScraper.Setup)
    (video : YouTubeScraper.VideoInfo) : Prop :=
  exists d views likes,
    YouTubeScraper.duration video = Some d /\
    YouTubeScraper.view_count video = Some views /\
    YouTubeScraper.like_count video = Some likes /\
    YouTubeScraper.min_length cfg <= d <= YouTubeScraper.max_length cfg /\
    YouTubeScraper.min_views cfg <= views /\
    YouTubeScraper.engagement_score video
      = Py.int_truediv likes (Z.max views 1) /\
    is_Some (YouTubeScraper.engagement_score video) /\
    PrimFloat.ltb (YouTubeScraper.score_of video)
      (PrimFloat.div (YouTubeScraper.min_likes_ratio cfg) (Py.float_of_Z 100))
    = false /\
    (YouTubeScraper.enable_copyright_check cfg = true ->
     exists t desc,
       YouTubeScraper.title video = Some t /\
       YouTubeScraper.description video = Some desc /\
       forall keyword, keyword ∈ YouTubeScraper.copyright_keywords ->
         YouTubeScraper.contains keyword (YouTubeScraper.str_lower cfg t)
         = false /\
         YouTubeScraper.contains keyword (YouTubeScraper.str_lower cfg desc)
         = false).


(** The hours of the records, each once, in the order of its first
    record. *)
Fixpoint hours_by_first_record (posts : list Post) : list Z :=
  match posts with
  | [] => []
  | p :: posts' =>
      hour (posted_at p)
      :: List.filter (fun h => negb (h =? hour (posted_at p)))
           (hours_by_first_record posts')
  end.

(** What the refresh job leaves under the video id of a post whose media
    the platform reports as [media], [before] being the record at the start:
    the reported counts when the views are an [int] and the three counts
    fit the columns; the record as it was when the views are None or a
    count does not fit. *)
Definition reported (media : InstagramPoster.MediaInfo)
    (before after : option Post) : Prop :=
  (forall v,
     InstagramPoster.views_of media = Some v ->
     int64 (InstagramPoster.like_count media) = true ->
     int64 (InstagramPoster.comment_count media) = true ->
     int64 v = true ->
     exists record,
       after = Some record /\
       likes record = InstagramPoster.like_count media /\
       comments record = InstagramPoster.comment_count media /\
       views record = v) /\
  (InstagramPoster.views_of media = None -> after = before) /\
  (forall v,
     InstagramPoster.views_of media = Some v ->
     int64 (InstagramPoster.like_count media)
     && int64 (InstagramPoster.comment_count media) && int64 v = false ->
     after = before).

(** A string of at most 4300 ASCII characters.  On these [int()] does not
    depend on the Unicode database nor on the limit on the number of
    digits. *)
Fixpoint ascii_only (s : string) : bool :=
  match s with
  | EmptyString => true
  | String c s' => (N_of_ascii c <? 128)%N && ascii_only s'
  end.

Definition plain (s : string) : Prop :=
  ascii_only s = true /\ Z.of_nat (String.length s) <= 4300.

End Spec.

(** ** Sample inputs *)

Module Sample.
Import Analytics.

(** The metrics dict with its three keys. *)
Definition metrics_of (l c v : Z) : gmap string Z :=
  <["likes" := l]> (<["comments" := c]> (<["views" := v]> ∅)).

Definition post_data (vid : string) : PostData :=
  {| pd_video_id := vid;
     pd_instagram_media_id := "media-" +:+ vid;
     pd_instagram_code := "code-" +:+ vid;
     pd_instagram_url := "https://www.instagram.com/reel/code-" +:+ vid +:+ "/";
     pd_youtube_title := "title " +:+ vid;
     pd_youtube_url := "https://www.youtube.com/watch?v=" +:+ vid;
     pd_caption := "caption";
     pd_hashtags := ["#viral"];
     pd_category := Some "motivational" |}.

(** Publish [vid] at time [t] and refresh its metrics at the same time. *)
Definition published (vid : string) (t : datetime) (l c v : Z) (db : Ledger)
    : Ledger :=
  (update_post_metrics vid (metrics_of l c v) t
     (track_post (post_data vid) t t db).1).1.

(** One record with 10 likes, 5 comments and 100 views. *)
Definition ledger_one : Ledger := Eval vm_compute in
  published "a" 1000 10 5 100 [].

(** Two records with the same rate, "b" published after "a". *)
Definition ledger_tie : Ledger := Eval vm_compute in
  published "b" 36000 1 1 40 (published "a" 32400 1 1 40 []).

(** Four records in four different hours with four different rates. *)
Definition ledger_four : Ledger := Eval vm_compute in
  published "d" 43200 8 0 40
    (published "c" 39600 6 0 40
       (published "b" 36000 4 0 40 (published "a" 32400 2 0 40 []))).

(** The candidates A (id 1) and B (id 2) of the end-to-end scenarios. *)
Definition video_a : Agent.Video :=
  {| Agent.v_id := "1"; Agent.v_title := "A";
     Agent.v_url := "https://www.youtube.com/watch?v=1" |}.

Definition video_b : Agent.Video :=
  {| Agent.v_id := "2"; Agent.v_title := "B";
     Agent.v_url := "https://www.youtube.com/watch?v=2" |}.

Definition media (k : nat) : InstagramPoster.Media :=
  {| InstagramPoster.media_id := "media-" +:+ pretty k;
     InstagramPoster.media_code := "code-" +:+ pretty k;
     InstagramPoster.media_taken_at := 5000 |}.

(** A platform on which every login and every upload succeeds. *)
Definition platform_ok : InstagramPoster.Platform :=
  {| InstagramPoster.credentials := true;
     InstagramPoster.login_outcome := fun _ => true;
     InstagramPoster.upload_outcome :=
       fun k => InstagramPoster.UploadOk (media k) |}.

(** A platform that signals [LoginRequired] on the first two uploads and
    accepts the third; every login succeeds. *)
Definition platform_reauth_twice : InstagramPoster.Platform :=
  {| InstagramPoster.credentials := true;
     InstagramPoster.login_outcome := fun _ => true;
     InstagramPoster.upload_outcome :=
       fun k => if (k <? 2)%nat then InstagramPoster.LoginRequired
                else InstagramPoster.UploadOk (media k) |}.

(** Collaborators that all succeed, for the given search result and
    platform. *)
Definition world (videos : list Agent.Video) (pf : InstagramPoster.Platform)
    : Agent.Collaborators :=
  {| Agent.search_videos := Py.Ret videos;
     Agent.download_video :=
       fun v => Py.Ret (Some ("data/videos/" +:+ Agent.v_id v +:+ ".mp4"));
     Agent.process_video :=
       fun _ vid => Py.Ret (Some ("data/processed/" +:+ vid +:+ "_edited.mp4"));
     Agent.generate_caption :=
       fun v => Py.Ret {| Agent.cd_caption := Agent.v_title v;
                          Agent.cd_hashtags := ["#viral"];
                          Agent.cd_full_caption := Agent.v_title v +:+ " #viral" |};
     Agent.platform := pf;
     Agent.clock := fun k => 1000 + Z.of_nat k;
     Agent.recursion_limit := 1000 |}.

Definition settings : Agent.Settings :=
  {| Agent.post_type := "reel";
     Agent.content_category := Some "motivational";
     Agent.cleanup_downloads := true |}.

(** A fresh agent on the ledger [db]: no client yet, nothing logged. *)
Definition fresh (db : Ledger) : Agent.State :=
  {| Agent.ledger := db;
     Agent.poster := {| InstagramPoster.client := false;
                        InstagramPoster.logins := 0;
                        InstagramPoster.uploads := 0 |};
     Agent.ticks := 0;
     Agent.trace := [] |}.

(** A poster that is logged in. *)
Definition logged_in : InstagramPoster.Poster :=
  {| InstagramPoster.client := true;
     InstagramPoster.logins := 1;
     InstagramPoster.uploads := 0 |}.

(** The ledger after A was published. *)
Definition ledger_a : Ledger := Eval vm_compute in
  published "1" 900 10 5 100 [].


(** A platform for which no credentials are configured. *)
Definition platform_no_credentials : InstagramPoster.Platform :=
  {| InstagramPoster.credentials := false;
     InstagramPoster.login_outcome := fun _ => true;
     InstagramPoster.upload_outcome :=
       fun k => InstagramPoster.UploadOk (media k) |}.

(** A platform that refuses every login and every upload. *)
Definition platform_login_refused : InstagramPoster.Platform :=
  {| InstagramPoster.credentials := true;
     InstagramPoster.login_outcome := fun _ => false;
     InstagramPoster.upload_outcome := fun _ => InstagramPoster.UploadError |}.

(** Every media object has 20 likes, 10 comments and 200 views. *)
Definition media_info_ok (media_id : string)
    : Py.PyResult InstagramPoster.MediaInfo :=
  Py.Ret {| InstagramPoster.info_id := media_id;
            InstagramPoster.info_code := "code";
            InstagramPoster.like_count := 20;
            InstagramPoster.comment_count := 10;
            InstagramPoster.view_count := InstagramPoster.IsInt 200;
            InstagramPoster.play_count := InstagramPoster.IsNone |}.

(** Every media object has 20 likes and 10 comments, a view count of 0 and
    a play count that is None. *)
Definition media_info_no_views (media_id : string)
    : Py.PyResult InstagramPoster.MediaInfo :=
  Py.Ret {| InstagramPoster.info_id := media_id;
            InstagramPoster.info_code := "code";
            InstagramPoster.like_count := 20;
            InstagramPoster.comment_count := 10;
            InstagramPoster.view_count := InstagramPoster.IsInt 0;
            InstagramPoster.play_count := InstagramPoster.IsNone |}.


(** Eleven records "p0" ... "p10", published one hour apart. *)
Definition ledger_eleven : Ledger := Eval vm_compute in
  fold_left
    (fun db k => published ("p" +:+ pretty k) (3600 * Z.of_nat k) 2 0 40 db)
    (seq 0 11) [].

(** An agent on the ledger [db] whose poster is logged in. *)
Definition logged_in_agent (db : Ledger) : Agent.State :=
  {| Agent.ledger := db;
     Agent.poster := logged_in;
     Agent.ticks := 0;
     Agent.trace := [] |}.

(** Search results: a suitable clip, a clip whose title names an official
    video, and a clip of unknown duration. *)
Definition clip (vid : string) (name : string) (d : option Z) (likes : Z)
    : YouTubeScraper.VideoInfo :=
  {| YouTubeScraper.id := vid;
     YouTubeScraper.title := Some name;
     YouTubeScraper.description := Some "";
     YouTubeScraper.duration := d;
     YouTubeScraper.view_count := Some 20000;
     YouTubeScraper.like_count := Some likes;
     YouTubeScraper.engagement_score := None |}.

Definition clip_good : YouTubeScraper.VideoInfo :=
  clip "g1" "Morning motivation" (Some 30) 1000.
Definition clip_better : YouTubeScraper.VideoInfo :=
  clip "g2" "Never give up" (Some 45) 5000.
Definition clip_official : YouTubeScraper.VideoInfo :=
  clip "o1" "Anthem (Official Video)" (Some 30) 1000.
Definition clip_unknown : YouTubeScraper.VideoInfo :=
  clip "u1" "Live stream" None 1000.

(** [str.lower] on the ASCII text of the samples. *)
Definition lower_char (c : ascii) : ascii :=
  let n := nat_of_ascii c in
  if ((65 <=? n) && (n <=? 90))%nat then ascii_of_nat (n + 32) else c.

Fixpoint lower (s : string) : string :=
  match s with
  | EmptyString => EmptyString
  | String c s' => String (lower_char c) (lower s')
  end.

(** The default configuration of the scraper, with a backend that knows two
    keywords. *)
Definition scraper : YouTubeScraper.Setup :=
  {| YouTubeScraper.min_length := 10;
     YouTubeScraper.max_length := 60;
     YouTubeScraper.min_views := 10000;
     YouTubeScraper.min_likes_ratio := 0x1.ccccccccccccdp-1%float; (* 0.9 *)
     YouTubeScraper.enable_copyright_check := true;
     YouTubeScraper.search :=
       fun keyword =>
         if String.eqb keyword "motivation"
         then Py.Ret [clip_good; clip_official; clip_better]
         else if String.eqb keyword "gym"
         then Py.Ret [clip_better; clip_unknown]
         else Py.Raise;
     YouTubeScraper.str_lower := lower |}.

End Sample.

(** * Properties *)

(** ** Comparison of floats

    The primitive comparisons are specified through [SFcompare]; on floats
    that are not NaN it is the lexicographic order of the ranks. *)

Lemma SFcompare_rank (f1 f2 : spec_float) :
  SFcompare f1 f2 =
  match FloatOrder.rank f1, FloatOrder.rank f2 with
  | Some a, Some b => Some (FloatOrder.lex3 a b)
  | _, _ => None
  end.
Proof.
  destruct f1 as [s1|s1| |s1 m1 e1], f2 as [s2|s2| |s2 m2 e2]; simpl;
    try reflexivity; try (destruct s1; try destruct s2; reflexivity);
    try (destruct s2; reflexivity).
  destruct s1, s2; simpl; try reflexivity.
  rewrite Z.compare_opp, (Z.compare_antisym e1 e2).
  destruct (e1 ?= e2); reflexivity.
Qed.

Section Facts.
Import FloatOrder.

Lemma lex3_Lt a b :
  lex3 a b = Lt <->
  (a.1.1 < b.1.1 \/ (a.1.1 = b.1.1 /\ (a.1.2 < b.1.2 \/ (a.1.2 = b.1.2 /\ a.2 < b.2)))).
Proof.
  destruct a as [[a1 a2] a3], b as [[b1 b2] b3]; simpl.
  destruct (Z.compare_spec a1 b1), (Z.compare_spec a2 b2), (Z.compare_spec a3 b3);
    split; intros; try discriminate; try reflexivity; lia.
Qed.

Lemma lex3_Eq a b : lex3 a b = Eq <-> a = b.
Proof.
  destruct a as [[a1 a2] a3], b as [[b1 b2] b3]; simpl.
  destruct (Z.compare_spec a1 b1), (Z.compare_spec a2 b2), (Z.compare_spec a3 b3);
    split; intros H'; try discriminate; try reflexivity;
    try (inversion H'; lia); congruence.
Qed.

Lemma lex3_antisym a b : lex3 b a = CompOpp (lex3 a b).
Proof.
  destruct a as [[a1 a2] a3], b as [[b1 b2] b3]; simpl.
  rewrite (Z.compare_antisym a1 b1), (Z.compare_antisym a2 b2),
    (Z.compare_antisym a3 b3).
  destruct (a1 ?= b1), (a2 ?= b2), (a3 ?= b3); reflexivity.
Qed.

Lemma lex3_not_Gt a b : lex3 a b <> Gt <-> ~ lex3 b a = Lt.
Proof.
  rewrite (lex3_antisym a b). destruct (lex3 a b); simpl; split; congruence.
Qed.

Lemma ltb_rank (x y : float) :
  PrimFloat.ltb x y = true <->
  exists a b, rank_of x = Some a /\ rank_of y = Some b /\ lex3 a b = Lt.
Proof.
  rewrite FloatAxioms.ltb_spec. unfold SFltb, rank_of. rewrite SFcompare_rank.
  destruct (rank (Prim2SF x)) as [a|], (rank (Prim2SF y)) as [b|];
    try (split; [discriminate | intros (?&?&?&?&?); discriminate]).
  split.
  - intros H. exists a, b. repeat split. destruct (lex3 a b); congruence.
  - intros (a'&b'&Ha&Hb&Hl). inversion Ha; inversion Hb; subst. now rewrite Hl.
Qed.

Lemma leb_rank (x y : float) :
  PrimFloat.leb x y = true <->
  exists a b, rank_of x = Some a /\ rank_of y = Some b /\ lex3 a b <> Gt.
Proof.
  rewrite FloatAxioms.leb_spec. unfold SFleb, rank_of. rewrite SFcompare_rank.
  destruct (rank (Prim2SF x)) as [a|], (rank (Prim2SF y)) as [b|];
    try (split; [discriminate | intros (?&?&?&?&?); discriminate]).
  split.
  - intros H. exists a, b. repeat split. destruct (lex3 a b); congruence.
  - intros (a'&b'&Ha&Hb&Hl). inversion Ha; inversion Hb; subst.
    destruct (lex3 a' b'); congruence.
Qed.

Lemma is_nan_rank (x : float) :
  PrimFloat.is_nan x = false <-> exists a, rank_of x = Some a.
Proof.
  unfold PrimFloat.is_nan. rewrite FloatAxioms.eqb_spec. unfold SFeqb, rank_of.
  rewrite SFcompare_rank.
  destruct (rank (Prim2SF x)) as [a|].
  - assert (lex3 a a = Eq) as -> by now apply lex3_Eq.
    split; eauto.
  - split; [discriminate | intros [? ?]; discriminate].
Qed.

End Facts.

Section Order.
Import FloatOrder.

Lemma float_ltb_asym (x y : float) :
  PrimFloat.ltb x y = true -> PrimFloat.ltb y x = false.
Proof.
  intros H. destruct (PrimFloat.ltb y x) eqn:E; [|reflexivity].
  apply ltb_rank in H as (a&b&Ha&Hb&Hab).
  apply ltb_rank in E as (b'&a'&Hb'&Ha'&Hba).
  rewrite Ha in Ha'. rewrite Hb in Hb'. inversion Ha'; inversion Hb'; subst.
  apply lex3_Lt in Hab, Hba. lia.
Qed.

Lemma float_ltb_leb (x y : float) :
  PrimFloat.ltb x y = true -> PrimFloat.leb x y = true.
Proof.
  intros H. apply ltb_rank in H as (a&b&Ha&Hb&Hab).
  apply leb_rank. exists a, b. repeat split; try assumption. congruence.
Qed.

Lemma float_not_ltb_leb (x y : float) :
  PrimFloat.is_nan x = false -> PrimFloat.is_nan y = false ->
  PrimFloat.ltb x y = false -> PrimFloat.leb y x = true.
Proof.
  intros [a Ha]%is_nan_rank [b Hb]%is_nan_rank H.
  apply leb_rank. exists b, a. repeat split; try assumption.
  apply lex3_not_Gt. intros Hlt.
  assert (PrimFloat.ltb x y = true) by (apply ltb_rank; eauto 6).
  congruence.
Qed.

Lemma float_leb_trans (x y z : float) :
  PrimFloat.leb x y = true -> PrimFloat.leb y z = true ->
  PrimFloat.leb x z = true.
Proof.
  intros (a&b&Ha&Hb&Hab)%leb_rank (b'&c&Hb'&Hc&Hbc)%leb_rank.
  rewrite Hb in Hb'. inversion Hb'; subst b'.
  apply leb_rank. exists a, c. repeat split; try assumption.
  apply lex3_not_Gt. apply lex3_not_Gt in Hab, Hbc.
  rewrite lex3_Lt in *. lia.
Qed.

Lemma float_eqb_not_ltb (x y c : float) :
  PrimFloat.eqb x c = true -> PrimFloat.eqb y c = true ->
  PrimFloat.ltb x y = false.
Proof.
  rewrite !FloatAxioms.eqb_spec, FloatAxioms.ltb_spec. unfold SFeqb, SFltb.
  rewrite !SFcompare_rank.
  destruct (rank (Prim2SF x)) as [a|], (rank (Prim2SF y)) as [b|],
    (rank (Prim2SF c)) as [d|]; try discriminate.
  intros Ha Hb.
  assert (a = d) by (apply lex3_Eq; destruct (lex3 a d); congruence).
  assert (b = d) by (apply lex3_Eq; destruct (lex3 b d); congruence).
  subst. assert (lex3 d d = Eq) as -> by now apply lex3_Eq. reflexivity.
Qed.

End Order.

(** ** The stable descending sort *)

Section SortedDesc.
Context {A : Type} (key : A -> float).

Lemma insert_desc_perm (x : A) (l : list A) :
  Permutation (Py.insert_desc key x l) (x :: l).
Proof.
  induction l as [|y l IH]; simpl; [reflexivity|].
  destruct (PrimFloat.ltb (key x) (key y)); [|reflexivity].
  rewrite IH. apply perm_swap.
Qed.

Lemma sorted_desc_perm (l : list A) : Permutation (Py.sorted_desc key l) l.
Proof.
  induction l as [|x l IH]; simpl; [reflexivity|].
  rewrite insert_desc_perm. now constructor.
Qed.

Lemma desc_trans (a b c : A) :
  Py.desc key a b -> Py.desc key b c -> Py.desc key a c.
Proof. unfold Py.desc. intros H1 H2. eapply float_leb_trans; eassumption. Qed.

Lemma insert_desc_sorted (x : A) (l : list A) :
  Py.not_nan key x -> Forall (Py.not_nan key) l ->
  StronglySorted (Py.desc key) l -> StronglySorted (Py.desc key) (Py.insert_desc key x l).
Proof.
  intros Hx Hl Hs. induction Hs as [|y l Hs IH Hy]; simpl.
  - repeat constructor.
  - inversion Hl as [|? ? Hny Hnl]; subst.
    destruct (PrimFloat.ltb (key x) (key y)) eqn:E.
    + constructor; [now apply IH|].
      eapply Permutation_Forall; [symmetry; apply insert_desc_perm|].
      constructor; [|assumption]. now apply float_ltb_leb.
    + assert (Py.desc key x y) as Hxy by now apply float_not_ltb_leb.
      constructor; [now constructor|].
      constructor; [assumption|].
      eapply Forall_impl; [exact Hy|]. intros z Hz. eapply desc_trans; eassumption.
Qed.

Lemma sorted_desc_sorted (l : list A) :
  Forall (Py.not_nan key) l -> StronglySorted (Py.desc key) (Py.sorted_desc key l).
Proof.
  induction 1 as [|x l Hx Hl IH]; simpl; [constructor|].
  apply insert_desc_sorted; try assumption.
  eapply Permutation_Forall; [symmetry; apply sorted_desc_perm|assumption].
Qed.

(** Whatever the keys are, no element of the sorted list is less than the
    one that follows it. *)
Lemma insert_desc_adjacent (x : A) (l : list A) :
  Sorted (Py.not_below key) l -> Sorted (Py.not_below key) (Py.insert_desc key x l).
Proof.
  induction l as [|y l IH]; intros Hs; simpl; [repeat constructor|].
  apply Sorted_inv in Hs as [Hs Hy].
  destruct (PrimFloat.ltb (key x) (key y)) eqn:E.
  - constructor; [now apply IH|].
    destruct l as [|z l]; simpl.
    + constructor. now apply float_ltb_asym.
    + destruct (PrimFloat.ltb (key x) (key z)).
      * constructor. now apply HdRel_inv in Hy.
      * constructor. now apply float_ltb_asym.
  - constructor; [now constructor|]. now constructor.
Qed.

Lemma sorted_desc_adjacent (l : list A) :
  Sorted (Py.not_below key) (Py.sorted_desc key l).
Proof.
  induction l as [|x l IH]; simpl; [constructor|].
  now apply insert_desc_adjacent.
Qed.

(** Elements whose keys compare equal keep their order. *)
Lemma insert_desc_stable (c : float) (x : A) (l : list A) :
  List.filter (fun a => PrimFloat.eqb (key a) c) (Py.insert_desc key x l) =
  List.filter (fun a => PrimFloat.eqb (key a) c) (x :: l).
Proof.
  induction l as [|y l IH]; [reflexivity|].
  simpl Py.insert_desc. destruct (PrimFloat.ltb (key x) (key y)) eqn:E;
    [|reflexivity].
  cbn [List.filter] in *. rewrite IH.
  destruct (PrimFloat.eqb (key x) c) eqn:Ex, (PrimFloat.eqb (key y) c) eqn:Ey;
    try reflexivity.
  rewrite (float_eqb_not_ltb _ _ _ Ex Ey) in E. discriminate.
Qed.

Lemma sorted_desc_stable (c : float) (l : list A) :
  List.filter (fun a => PrimFloat.eqb (key a) c) (Py.sorted_desc key l) =
  List.filter (fun a => PrimFloat.eqb (key a) c) l.
Proof.
  induction l as [|x l IH]; [reflexivity|].
  simpl Py.sorted_desc. rewrite insert_desc_stable. cbn [List.filter].
  now rewrite IH.
Qed.

End SortedDesc.

(** ** The ledger: metrics refresh *)

Section Refresh.
Import Analytics.

Lemma metrics_of_lookup (l c v : Z) :
  Sample.metrics_of l c v !! "likes" = Some l /\
  Sample.metrics_of l c v !! "comments" = Some c /\
  Sample.metrics_of l c v !! "views" = Some v.
Proof. unfold Sample.metrics_of. repeat split; by simplify_map_eq. Qed.

Lemma query_first_video_id (vid : string) (db : Ledger) (p : Post) :
  query_first vid db = Some p -> String.eqb (video_id p) vid = true.
Proof.
  unfold query_first. intros H. now apply find_some in H as [_ H].
Qed.

Lemma replace_first_found (vid : string) (p p' : Post) (db : Ledger) :
  query_first vid db = Some p -> video_id p' = video_id p ->
  query_first vid (replace_first vid p' db) = Some p'.
Proof.
  intros Hq Hid. pose proof (query_first_video_id vid db p Hq) as Hvid.
  rewrite <- Hid in Hvid. clear Hid. revert Hq. unfold query_first.
  induction db as [|q db IH]; simpl; [discriminate|].
  destruct (String.eqb (video_id q) vid) eqn:E; simpl.
  - intros _. now rewrite Hvid.
  - rewrite E. exact IH.
Qed.

Lemma replace_first_None (vid : string) (p' : Post) (db : Ledger) :
  query_first vid db = None -> replace_first vid p' db = db.
Proof.
  unfold query_first. induction db as [|q db IH]; simpl; [reflexivity|].
  destruct (String.eqb (video_id q) vid); [discriminate|].
  intros H. now rewrite IH.
Qed.

Lemma replace_first_other (vid vid' : string) (p p' : Post) (db : Ledger) :
  query_first vid db = Some p -> video_id p' = video_id p -> vid' <> vid ->
  query_first vid' (replace_first vid p' db) = query_first vid' db.
Proof.
  intros Hq Hid Hne. pose proof (query_first_video_id vid db p Hq) as Hvid.
  rewrite <- Hid in Hvid. clear Hq Hid. unfold query_first.
  induction db as [|q db IH]; simpl; [reflexivity|].
  destruct (String.eqb (video_id q) vid) eqn:E; simpl.
  - apply String.eqb_eq in E, Hvid.
    assert (String.eqb (video_id p') vid' = false) as ->
      by (apply String.eqb_neq; congruence).
    assert (String.eqb (video_id q) vid' = false) as ->
      by (apply String.eqb_neq; congruence).
    reflexivity.
  - now rewrite IH.
Qed.

Lemma replace_first_map {B : Type} (g : Post -> B) (vid : string)
    (p p' : Post) (db : Ledger) :
  query_first vid db = Some p -> g p' = g p ->
  map g (replace_first vid p' db) = map g db.
Proof.
  unfold query_first. induction db as [|q db IH]; simpl; [discriminate|].
  destruct (String.eqb (video_id q) vid); simpl.
  - intros [= ->] ->. reflexivity.
  - intros Hq Hg. now rewrite IH.
Qed.

Lemma replace_first_twice (vid : string) (p1 p2 : Post) (db : Ledger) :
  String.eqb (video_id p1) vid = true ->
  replace_first vid p2 (replace_first vid p1 db) = replace_first vid p2 db.
Proof.
  intros Hvid. induction db as [|q db IH]; simpl; [reflexivity|].
  destruct (String.eqb (video_id q) vid) eqn:E; simpl.
  - now rewrite Hvid.
  - now rewrite E, IH.
Qed.

(** What [refresh] writes: the three counts from the dict, the rate, the
    time stamp, and nothing else. *)
Lemma refresh_Ret (m : gmap string Z) (now : datetime) (p p' : Post) :
  refresh m now p = Py.Ret p' ->
  id p' = id p /\ video_id p' = video_id p /\
  instagram_media_id p' = instagram_media_id p /\
  posted_at p' = posted_at p /\
  likes p' = default (likes p) (m !! "likes") /\
  comments p' = default (comments p) (m !! "comments") /\
  views p' = default (views p) (m !! "views") /\
  last_updated p' = now /\
  (if 0 <? views p' then engagement (likes p') (comments p') (views p')
   else Some (engagement_rate p)) = Some (engagement_rate p').
Proof.
  unfold refresh, new_rate.
  destruct (if 0 <? default (views p) (m !! "views") then _ else _)
    as [rate'|] eqn:E; [|discriminate].
  intros [= <-]. cbn [id video_id instagram_media_id posted_at likes comments
                      views last_updated engagement_rate].
  repeat split. exact E.
Qed.

(** Whether [refresh] raises, and what it writes up to the time stamp, does
    not depend on the clock. *)
Lemma refresh_time (m : gmap string Z) (t1 t2 : datetime) (p : Post) :
  match refresh m t1 p, refresh m t2 p with
  | Py.Ret p1, Py.Ret p2 =>
      Spec.without_last_updated p1 = Spec.without_last_updated p2 /\
      fits p1 = fits p2
  | Py.Raise, Py.Raise => True
  | _, _ => False
  end.
Proof.
  unfold refresh, new_rate.
  destruct (if 0 <? default (views p) (m !! "views") then _ else _);
    [split; reflexivity|exact I].
Qed.

(** A second refresh with the same metrics overwrites what the first one
    wrote with the same values, up to the time stamp. *)
Lemma refresh_refresh (m : gmap string Z) (t1 t2 : datetime) (p p1 : Post) :
  refresh m t1 p = Py.Ret p1 -> refresh m t2 p1 = refresh m t2 p.
Proof.
  unfold refresh, new_rate.
  destruct (if 0 <? default (views p) (m !! "views") then _ else _)
    as [rate'|] eqn:E; [|discriminate].
  intros [= <-]. cbn [id video_id instagram_media_id instagram_code
                      instagram_url youtube_title youtube_url caption hashtags
                      category posted_at likes comments views engagement_rate].
  destruct (m !! "likes") as [l|], (m !! "comments") as [c|],
    (m !! "views") as [v|]; cbn [from_option Datatypes.id] in *;
    destruct (0 <? _); try rewrite E; try reflexivity;
    injection E as <-; reflexivity.
Qed.

Lemma replace_first_map2 {B : Type} (g : Post -> B) (vid : string)
    (p1 p2 : Post) (db : Ledger) :
  g p1 = g p2 ->
  map g (replace_first vid p1 db) = map g (replace_first vid p2 db).
Proof.
  intros Hg. induction db as [|q db IH]; simpl; [reflexivity|].
  destruct (String.eqb (video_id q) vid); simpl; congruence.
Qed.

(** The time of the call shows in [last_updated] only. *)
Lemma update_post_metrics_time (vid : string) (m : gmap string Z)
    (t1 t2 : datetime) (db : Ledger) :
  (update_post_metrics vid m t1 db).2 = (update_post_metrics vid m t2 db).2 /\
  map Spec.without_last_updated (update_post_metrics vid m t1 db).1
  = map Spec.without_last_updated (update_post_metrics vid m t2 db).1.
Proof.
  unfold update_post_metrics.
  destruct (query_first vid db) as [p|]; [|split; reflexivity].
  pose proof (refresh_time m t1 t2 p) as Ht.
  destruct (refresh m t1 p) as [p1|], (refresh m t2 p) as [p2|];
    try contradiction; [|split; reflexivity].
  destruct Ht as [Hw <-].
  destruct (fits p1); [|split; reflexivity].
  split; [reflexivity|]. now apply replace_first_map2.
Qed.

(** The two ways [update_post_metrics] ends. *)
Lemma update_post_metrics_cases (vid : string) (m : gmap string Z)
    (now : datetime) (db : Ledger) :
  update_post_metrics vid m now db = (db, false) \/
  exists p p',
    query_first vid db = Some p /\ refresh m now p = Py.Ret p' /\
    fits p' = true /\
    update_post_metrics vid m now db = (replace_first vid p' db, true).
Proof.
  unfold update_post_metrics.
  destruct (query_first vid db) as [p|]; [|now left].
  destruct (refresh m now p) as [p'|] eqn:E; [|now left].
  destruct (fits p') eqn:Ef; [|now left].
  right. now exists p, p'.
Qed.

(** A refresh keeps the rows, their order and their identity. *)
Lemma update_post_metrics_keeps (vid : string) (m : gmap string Z)
    (now : datetime) (db : Ledger) :
  let db' := (update_post_metrics vid m now db).1 in
  map video_id db' = map video_id db /\
  map instagram_media_id db' = map instagram_media_id db /\
  map posted_at db' = map posted_at db /\
  length db' = length db /\
  (forall vid', vid' <> vid -> get_post vid' db' = get_post vid' db).
Proof.
  destruct (update_post_metrics_cases vid m now db)
    as [-> | (p & p' & Hq & Hr & _ & ->)]; cbn [fst]; [repeat split|].
  apply refresh_Ret in Hr as (_ & Hv & Hm & Hp & _).
  split; [now apply (replace_first_map video_id vid p)|].
  split; [now apply (replace_first_map instagram_media_id vid p)|].
  split; [now apply (replace_first_map posted_at vid p)|].
  split.
  - rewrite <- (length_map video_id), <- (length_map video_id db).
    f_equal. now apply (replace_first_map video_id vid p).
  - intros vid' Hne. unfold get_post.
    now apply (replace_first_other vid vid' p).
Qed.

(** Sums and quotients of 64-bit values stay far below the overflow of the
    division. *)
Lemma int_truediv_in_range (a b : Z) :
  0 < b -> Z.abs a < 36893488147419103232 ->
  Py.int_truediv a b = Some (Py.int_quotient a b).
Proof.
  intros Hb Ha. unfold Py.int_truediv.
  destruct (Z.eqb_spec b 0); [lia|].
  assert (36893488147419103232 <= Py.float_overflow) as Hbig
    by (apply Z.leb_le; vm_compute; reflexivity).
  destruct (Z.leb_spec (Py.float_overflow * Z.abs b) (Z.abs a)) as [Hle|];
    [|reflexivity].
  exfalso. assert (Py.float_overflow * 1 <= Py.float_overflow * Z.abs b)
    by (apply Z.mul_le_mono_nonneg_l; lia).
  lia.
Qed.

Lemma int64_range (z : Z) :
  int64 z = true <-> - 9223372036854775808 <= z < 9223372036854775808.
Proof.
  unfold int64. change (2 ^ 63) with 9223372036854775808.
  rewrite andb_true_iff, Z.leb_le, Z.ltb_lt. tauto.
Qed.

(** A refresh with a count that does not fit its column is rolled back. *)
Lemma update_post_metrics_out_of_range (vid : string) (m : gmap string Z)
    (l c v : Z) (now : datetime) (db : Ledger) :
  m !! "likes" = Some l -> m !! "comments" = Some c -> m !! "views" = Some v ->
  int64 l && int64 c && int64 v = false ->
  update_post_metrics vid m now db = (db, false).
Proof.
  intros Hl Hc Hv Hout. unfold update_post_metrics.
  destruct (query_first vid db) as [p|]; [|reflexivity].
  destruct (refresh m now p) as [p'|] eqn:Hr; [|reflexivity].
  apply refresh_Ret in Hr as (_ & _ & _ & _ & Hl' & Hc' & Hv' & _).
  rewrite Hl in Hl'. rewrite Hc in Hc'. rewrite Hv in Hv'.
  cbn [from_option Datatypes.id] in Hl', Hc', Hv'.
  unfold fits. now rewrite Hl', Hc', Hv', Hout.
Qed.

(** A refresh with counts that fit is committed. *)
Lemma update_post_metrics_in_range (vid : string) (m : gmap string Z)
    (l c v : Z) (now : datetime) (db : Ledger) (p : Post) :
  m !! "likes" = Some l -> m !! "comments" = Some c -> m !! "views" = Some v ->
  int64 l = true -> int64 c = true -> int64 v = true ->
  query_first vid db = Some p ->
  exists p',
    update_post_metrics vid m now db = (replace_first vid p' db, true) /\
    query_first vid (replace_first vid p' db) = Some p' /\
    likes p' = l /\ comments p' = c /\ views p' = v /\
    (if 0 <? v then engagement l c v else Some (engagement_rate p))
    = Some (engagement_rate p').
Proof.
  intros Hl Hc Hv Il Ic Iv Hp.
  apply int64_range in Il, Ic, Iv.
  assert (exists p', refresh m now p = Py.Ret p') as [p' Hr].
  { unfold refresh, new_rate. rewrite Hl, Hc, Hv.
    cbn [from_option Datatypes.id].
    destruct (0 <? v) eqn:E; [|eauto].
    apply Z.ltb_lt in E. unfold engagement.
    rewrite int_truediv_in_range by lia. cbn [option_map]. eauto. }
  pose proof (refresh_Ret _ _ _ _ Hr)
    as (_ & Hvid & _ & _ & Hl' & Hc' & Hv' & _ & Hrate).
  rewrite Hl in Hl'. rewrite Hc in Hc'. rewrite Hv in Hv'.
  cbn [from_option Datatypes.id] in Hl', Hc', Hv'.
  rewrite Hl', Hc', Hv' in Hrate.
  assert (fits p' = true) as Hfits.
  { unfold fits. rewrite Hl', Hc', Hv'.
    rewrite !andb_true_iff, !int64_range. lia. }
  exists p'. unfold update_post_metrics. rewrite Hp, Hr, Hfits.
  split; [reflexivity|].
  split; [now apply (replace_first_found vid p)|].
  repeat split; assumption.
Qed.

End Refresh.

(** C4, as stated, fails: a refresh that reports no views leaves the rate
    of the earlier refresh in place (15.0), where the formula with
    max(views, 1) gives 1500.0 for the stored likes, comments and views. *)
Lemma C4_stale_rate_when_no_views :
  exists p db',
    Analytics.get_post "a" Sample.ledger_one = Some p /\
    Analytics.update_post_metrics "a" (Sample.metrics_of 10 5 0) 2000
      Sample.ledger_one = (db', true) /\
    exists p',
      Analytics.get_post "a" db' = Some p' /\
      Analytics.likes p' = 10 /\ Analytics.comments p' = 5 /\
      Analytics.views p' = 0 /\
      Analytics.engagement_rate p' = 15%float /\
      Spec.spec_engagement_rate 10 5 0 = Some 1500%float.
Proof.
  do 2 eexists. split; [reflexivity|]. split; [by vm_compute|].
  eexists. split; [reflexivity|]. repeat split.
Qed.

(** C4, amended: a refresh of an existing record with likes, comments and
    views that fit the 64-bit columns stores the three values; when views
    is positive the stored rate is (likes + comments) / views * 100, the
    quotient correctly rounded, which is the formula of the claim, and
    otherwise the rate keeps the value it had.  When one of the three
    values does not fit, the refresh is rolled back: the call returns False
    and the ledger is as it was. *)
Theorem C4_refresh_engagement_rate (db : Analytics.Ledger) (vid : string)
    (p : Analytics.Post) (l c v : Z) (now : Analytics.datetime) :
  Analytics.get_post vid db = Some p ->
  let r := Analytics.update_post_metrics vid (Sample.metrics_of l c v) now db in
  (Analytics.int64 l = true -> Analytics.int64 c = true ->
   Analytics.int64 v = true ->
   exists p',
     r.2 = true /\
     Analytics.get_post vid r.1 = Some p' /\
     Analytics.likes p' = l /\ Analytics.comments p' = c /\
     Analytics.views p' = v /\
     (0 < v ->
      Spec.spec_engagement_rate l c v = Some (Analytics.engagement_rate p') /\
      Analytics.engagement_rate p'
      = PrimFloat.mul (Py.int_quotient (l + c) v) (Py.float_of_Z 100)) /\
     (v <= 0 ->
      Analytics.engagement_rate p' = Analytics.engagement_rate p)) /\
  (Analytics.int64 l && Analytics.int64 c && Analytics.int64 v = false ->
   r = (db, false)).
Proof.
  intros Hp r. unfold Analytics.get_post in *.
  destruct (metrics_of_lookup l c v) as (Hl & Hc & Hv).
  split.
  - intros Il Ic Iv.
    destruct (update_post_metrics_in_range vid (Sample.metrics_of l c v)
                l c v now db p Hl Hc Hv Il Ic Iv Hp)
      as (p' & Hu & Hq & Hl' & Hc' & Hv' & Hrate).
    exists p'. unfold r. rewrite Hu. cbn [fst snd].
    split; [reflexivity|]. split; [exact Hq|].
    split; [exact Hl'|]. split; [exact Hc'|]. split; [exact Hv'|].
    apply int64_range in Il, Ic, Iv. split.
    + intros Hpos. pose proof Hpos as Hltb. apply Z.ltb_lt in Hltb.
      rewrite Hltb in Hrate. split.
      * unfold Spec.spec_engagement_rate.
        rewrite Z.max_l by lia. exact Hrate.
      * unfold Analytics.engagement in Hrate.
        rewrite int_truediv_in_range in Hrate by lia.
        now injection Hrate as <-.
    + intros Hle. apply Z.ltb_ge in Hle. rewrite Hle in Hrate.
      now injection Hrate as <-.
  - intros Hout. unfold r.
    now apply (update_post_metrics_out_of_range vid _ l c v).
Qed.

(** Scenario 6: likes=10, comments=5, views=100 stores the rate 15.0; a
    count of likes of 2^63 is refused. *)
Lemma C4_refresh_engagement_rate_witness :
  (exists p',
     Analytics.get_post "a"
       (Analytics.update_post_metrics "a" (Sample.metrics_of 10 5 100) 2000
          Sample.ledger_one).1 = Some p' /\
     Analytics.engagement_rate p' = 15%float) /\
  Analytics.update_post_metrics "a" (Sample.metrics_of (2 ^ 63) 5 100) 2000
    Sample.ledger_one = (Sample.ledger_one, false).
Proof.
  destruct (Analytics.get_post "a" Sample.ledger_one) as [p|] eqn:E;
    [|vm_compute in E; discriminate].
  split.
  - destruct (C4_refresh_engagement_rate Sample.ledger_one "a" p 10 5 100 2000 E)
      as [Hin _].
    destruct (Hin eq_refl eq_refl eq_refl)
      as (p' & _ & Hg & _ & _ & _ & Hr & _).
    exists p'. split; [exact Hg|].
    destruct (Hr eq_refl) as [_ ->]. reflexivity.
  - now apply (C4_refresh_engagement_rate Sample.ledger_one "a" p (2 ^ 63) 5 100
                 2000 E).
Defined.

(** C9, as stated, fails: the second of two identical refreshes stamps the
    record with the time of the second call, so the stored state differs
    from the state after the first call. *)
Lemma C9_second_refresh_changes_last_updated :
  let m := Sample.metrics_of 10 5 100 in
  let db1 := (Analytics.update_post_metrics "a" m 2000 Sample.ledger_one).1 in
  let db2 := (Analytics.update_post_metrics "a" m 3000 db1).1 in
  db2 <> db1.
Proof.
  intros m db1 db2 H.
  apply (f_equal (map Analytics.last_updated)) in H.
  vm_compute in H. discriminate.
Qed.

(** C9, amended: two refreshes in succession with identical metrics leave
    every field of every record but [last_updated] as the first refresh left
    it (likes, comments, views and the rate included), and leave the ledger
    in the state that one refresh at the time of the second call produces. *)
Theorem C9_refresh_idempotent (db : Analytics.Ledger) (vid : string)
    (m : gmap string Z) (t1 t2 : Analytics.datetime) :
  let r1 := Analytics.update_post_metrics vid m t1 db in
  let r2 := Analytics.update_post_metrics vid m t2 r1.1 in
  r2.2 = r1.2 /\
  map Spec.without_last_updated r2.1 = map Spec.without_last_updated r1.1 /\
  r2 = Analytics.update_post_metrics vid m t2 db.
Proof.
  intros r1 r2.
  assert (r2 = Analytics.update_post_metrics vid m t2 db) as H2.
  { unfold r2, r1.
    destruct (update_post_metrics_cases vid m t1 db)
      as [-> | (p & p1 & Hq & Hr & Hf & ->)]; [reflexivity|].
    cbn [fst]. unfold Analytics.update_post_metrics.
    pose proof (refresh_Ret _ _ _ _ Hr) as (_ & Hvid & _).
    rewrite (replace_first_found vid p p1 db Hq Hvid), Hq.
    rewrite (refresh_refresh m t1 t2 p p1 Hr).
    pose proof (refresh_time m t1 t2 p) as Ht. rewrite Hr in Ht.
    destruct (Analytics.refresh m t2 p) as [p2|]; [|contradiction].
    destruct Ht as [_ Hfits]. rewrite <- Hfits, Hf.
    rewrite replace_first_twice; [reflexivity|].
    rewrite Hvid. now apply (query_first_video_id vid db). }
  rewrite H2. destruct (update_post_metrics_time vid m t2 t1 db) as [Hb Hm].
  unfold r1. repeat split; assumption.
Qed.

(** ** The ledger: queries *)

Lemma StronglySorted_app_l {A : Type} (R : A -> A -> Prop) (l1 l2 : list A) :
  StronglySorted R (l1 ++ l2) -> StronglySorted R l1.
Proof.
  induction l1 as [|x l1 IH]; simpl; [constructor|].
  intros H. inversion H as [|? ? Hs Hf]; subst.
  constructor; [now apply IH|].
  apply Forall_app in Hf. tauto.
Qed.

Lemma sql_limit_prefix {A : Type} (n : Z) (rows : list A) :
  exists rest, rows = Analytics.sql_limit n rows ++ rest.
Proof.
  unfold Analytics.sql_limit. destruct (n <? 0).
  - exists []. now rewrite app_nil_r.
  - exists (skipn (Z.to_nat n) rows). now rewrite firstn_skipn.
Qed.





(** C8 at the empty ledger: the count, the three sums and the mean rate are
    zero, but the three per-post means are not in the structure; no ledger
    makes the query divide by zero (the handler's empty dict is never
    returned), and on a ledger with records the per-post means are there. *)
Theorem C8_statistics_of_empty_ledger :
  let stats := Analytics.get_statistics [] in
  stats !! "total_posts" = Some (Analytics.SInt 0) /\
  stats !! "total_likes" = Some (Analytics.SInt 0) /\
  stats !! "total_comments" = Some (Analytics.SInt 0) /\
  stats !! "total_views" = Some (Analytics.SInt 0) /\
  stats !! "avg_engagement_rate" = Some (Analytics.SInt 0) /\
  stats !! "avg_likes_per_post" = None /\
  stats !! "avg_comments_per_post" = None /\
  stats !! "avg_views_per_post" = None /\
  (forall db, Analytics.get_statistics db <> ∅) /\
  (forall db, db <> [] ->
     is_Some (Analytics.get_statistics db !! "avg_likes_per_post") /\
     is_Some (Analytics.get_statistics db !! "avg_comments_per_post") /\
     is_Some (Analytics.get_statistics db !! "avg_views_per_post")).
Proof.
  cbv zeta. do 8 (split; [by vm_compute|]).
  assert (forall (p : Analytics.Post) db,
            (Z.of_nat (length (p :: db)) =? 0) = false)
    as Hn by (intros; apply Z.eqb_neq; simpl; lia).
  split.
  - intros [|p db]; unfold Analytics.get_statistics.
    + apply insert_non_empty.
    + unfold Py.float_div_int, Analytics.column_mean. rewrite Hn.
      apply insert_non_empty.
  - intros [|p db] Hdb; [congruence|].
    unfold Analytics.get_statistics, Py.float_div_int, Analytics.column_mean.
    rewrite Hn. repeat split; by simplify_map_eq.
Qed.

(** ** The ledger: best posting times *)

Section Hours.
Import Analytics.

Lemma entry_of_hour_append (h h0 : Z) (r0 : float) (d : list (Z * list float)) :
  Spec.entry_of_hour h (dict_append h0 r0 d) =
  if h =? h0 then Some (default [] (Spec.entry_of_hour h d) ++ [r0])
  else Spec.entry_of_hour h d.
Proof.
  unfold Spec.entry_of_hour.
  induction d as [|[h' rs] d IH]; simpl.
  - rewrite (Z.eqb_sym h0 h). now destruct (h =? h0).
  - destruct (Z.eqb_spec h' h0) as [->|E1]; simpl.
    + rewrite (Z.eqb_sym h0 h). now destruct (h =? h0).
    + destruct (Z.eqb_spec h' h) as [->|E2]; simpl; [|exact IH].
      destruct (Z.eqb_spec h h0); [congruence|reflexivity].
Qed.

Lemma dict_append_keys (h0 : Z) (r0 : float) (d : list (Z * list float)) :
  map fst (dict_append h0 r0 d) =
  if decide (h0 ∈ map fst d) then map fst d else map fst d ++ [h0].
Proof.
  induction d as [|[h' rs] d IH]; simpl; [reflexivity|].
  destruct (h' =? h0) eqn:E; simpl.
  - apply Z.eqb_eq in E. subst h'.
    rewrite decide_True by (left). reflexivity.
  - apply Z.eqb_neq in E. rewrite IH.
    destruct (decide (h0 ∈ map fst d)) as [Hin|Hin].
    + rewrite decide_True by (now right). reflexivity.
    + rewrite decide_False; [reflexivity|].
      intros [Heq|H]%elem_of_cons; [congruence|contradiction].
Qed.

Lemma dict_append_NoDup (h0 : Z) (r0 : float) (d : list (Z * list float)) :
  NoDup (map fst d) -> NoDup (map fst (dict_append h0 r0 d)).
Proof.
  intros H. rewrite dict_append_keys.
  destruct (decide (h0 ∈ map fst d)) as [Hin|Hin]; [assumption|].
  apply NoDup_app. split; [assumption|]. split.
  - intros x Hx [->|[]%elem_of_nil]%elem_of_cons. contradiction.
  - apply NoDup_singleton.
Qed.

Lemma hour_engagement_snoc (ps : list Post) (p : Post) :
  hour_engagement (ps ++ [p]) =
  dict_append (hour (posted_at p)) (engagement_rate p) (hour_engagement ps).
Proof. unfold hour_engagement. now rewrite fold_left_app. Qed.

Lemma rates_of_hour_snoc (h : Z) (ps : list Post) (p : Post) :
  Spec.rates_of_hour h (ps ++ [p]) =
  Spec.rates_of_hour h ps ++
  (if hour (posted_at p) =? h then [engagement_rate p] else []).
Proof.
  unfold Spec.rates_of_hour. rewrite List.filter_app, map_app. simpl.
  now destruct (hour (posted_at p) =? h).
Qed.

(** The dict holds, for each hour, the rates of the posts of that hour. *)
Lemma hour_engagement_entry (h : Z) (ps : list Post) :
  Spec.entry_of_hour h (hour_engagement ps) =
  match Spec.rates_of_hour h ps with
  | [] => None
  | rs => Some rs
  end.
Proof.
  induction ps as [|p ps IH] using rev_ind; [reflexivity|].
  rewrite hour_engagement_snoc, entry_of_hour_append, rates_of_hour_snoc, IH.
  rewrite (Z.eqb_sym h).
  destruct (hour (posted_at p) =? h).
  - destruct (Spec.rates_of_hour h ps); reflexivity.
  - now rewrite app_nil_r.
Qed.

Lemma hour_engagement_NoDup (ps : list Post) :
  NoDup (map fst (hour_engagement ps)).
Proof.
  induction ps as [|p ps IH] using rev_ind; [constructor|].
  rewrite hour_engagement_snoc. now apply dict_append_NoDup.
Qed.

Lemma entry_of_hour_elem (h : Z) (rs : list float) (d : list (Z * list float)) :
  NoDup (map fst d) -> (h, rs) ∈ d -> Spec.entry_of_hour h d = Some rs.
Proof.
  unfold Spec.entry_of_hour.
  induction d as [|[h' rs'] d IH]; simpl; [intros _ []%elem_of_nil|].
  intros [Hnotin Hnd]%NoDup_cons [Heq|Hin]%elem_of_cons.
  - injection Heq as <- <-. now rewrite Z.eqb_refl.
  - destruct (h' =? h) eqn:E; [|now apply IH].
    apply Z.eqb_eq in E. subst h'. exfalso. apply Hnotin.
    apply list_elem_of_fmap. now exists (h, rs).
Qed.

Lemma entry_of_hour_key (h : Z) (d : list (Z * list float)) :
  h ∈ map fst d <-> is_Some (Spec.entry_of_hour h d).
Proof.
  unfold Spec.entry_of_hour.
  induction d as [|[h' rs'] d IH]; simpl.
  - split; [intros []%elem_of_nil | intros [? [=]]].
  - destruct (h' =? h) eqn:E.
    + apply Z.eqb_eq in E. subst. split; [eauto | intros _; left].
    + apply Z.eqb_neq in E. rewrite <- IH. rewrite elem_of_cons.
      split; [intros [?|?]; [congruence|assumption] | now right].
Qed.

Lemma rates_of_hour_nonempty (h : Z) (ps : list Post) :
  Spec.rates_of_hour h ps <> [] <->
  exists p, p ∈ ps /\ hour (posted_at p) = h.
Proof.
  unfold Spec.rates_of_hour.
  induction ps as [|p ps IH]; simpl.
  - split; [congruence | intros (p & []%elem_of_nil & _)].
  - destruct (hour (posted_at p) =? h) eqn:E; simpl.
    + apply Z.eqb_eq in E. split; [|discriminate].
      intros _. exists p. split; [left|assumption].
    + apply Z.eqb_neq in E. rewrite IH. split.
      * intros (q & Hq & Hh). exists q. split; [now right|assumption].
      * intros (q & [->|Hq]%elem_of_cons & Hh); [congruence|eauto].
Qed.

Lemma hours_by_first_record_elem (h : Z) (ps : list Post) :
  h ∈ Spec.hours_by_first_record ps <->
  exists p, p ∈ ps /\ hour (posted_at p) = h.
Proof.
  induction ps as [|q ps IH]; cbn [Spec.hours_by_first_record].
  - split; [intros []%elem_of_nil | intros (p & []%elem_of_nil & _)].
  - rewrite elem_of_cons, list_elem_of_In, filter_In, <- list_elem_of_In, IH.
    rewrite negb_true_iff, Z.eqb_neq. split.
    + intros [-> | [(p & Hp & Hh) _]]; [exists q; split; [left|reflexivity]|].
      exists p. split; [now right|assumption].
    + intros (p & [->|Hp]%elem_of_cons & Hh); [now left|].
      destruct (decide (h = hour (posted_at q))) as [->|Hne]; [now left|].
      right. split; [|assumption]. now exists p.
Qed.

Lemma hours_by_first_record_snoc (ps : list Post) (p : Post) :
  Spec.hours_by_first_record (ps ++ [p]) =
  if decide (hour (posted_at p) ∈ Spec.hours_by_first_record ps)
  then Spec.hours_by_first_record ps
  else Spec.hours_by_first_record ps ++ [hour (posted_at p)].
Proof.
  set (h := hour (posted_at p)).
  induction ps as [|q ps IH]; cbn [app Spec.hours_by_first_record].
  - rewrite decide_False by (intros []%elem_of_nil). reflexivity.
  - rewrite IH. set (hq := hour (posted_at q)).
    set (keep := fun h0 : Z => negb (h0 =? hq)).
    destruct (decide (h ∈ Spec.hours_by_first_record ps)) as [Hin|Hnot].
    + rewrite decide_True; [reflexivity|].
      destruct (decide (h = hq)) as [->|Hne]; [left|]. right.
      apply list_elem_of_In, filter_In. split; [now apply list_elem_of_In|].
      unfold keep. now rewrite negb_true_iff, Z.eqb_neq.
    + rewrite List.filter_app. cbn [List.filter]. unfold keep at 2.
      destruct (Z.eqb_spec h hq) as [->|Hne]; cbn [negb].
      * rewrite app_nil_r. rewrite decide_True by left. reflexivity.
      * rewrite decide_False; [reflexivity|].
        intros [?|Hin]%elem_of_cons; [contradiction|].
        apply list_elem_of_In, filter_In in Hin as [Hin _].
        now apply Hnot, list_elem_of_In.
Qed.

(** The dict lists the hours in the order of their first record. *)
Lemma hour_engagement_keys (ps : list Post) :
  map fst (hour_engagement ps) = Spec.hours_by_first_record ps.
Proof.
  induction ps as [|p ps IH] using rev_ind; [reflexivity|].
  rewrite hour_engagement_snoc, dict_append_keys, hours_by_first_record_snoc.
  now rewrite IH.
Qed.

End Hours.

(** C6, as stated, fails.  With two qualifying records of equal rate in the
    hours 9 and 10 the query returns both hours although neither mean is
    greater than the other, so the order is not strict; and with records in
    four hours it returns three of them. *)
Lemma C6_hours_not_strictly_descending :
  ~ Spec.hours_strictly_descending Sample.ledger_tie
      (Analytics.get_best_posting_times 2 Sample.ledger_tie) /\
  Analytics.get_best_posting_times 4 Sample.ledger_four
    = ["12:00"; "11:00"; "10:00"] /\
  Spec.rates_of_hour 9 (Analytics.qualifying Sample.ledger_four) <> [].
Proof.
  split; [|split; [by vm_compute | by vm_compute]].
  intros H. specialize (H 0%nat 9 10 eq_refl eq_refl).
  vm_compute in H. discriminate.
Qed.

(** C6, amended: with fewer than [min_posts] qualifying records the query
    returns the empty sequence; otherwise it returns, as "HH:00" strings, at
    most the three first hours of [best_hours].  [best_hours] lists every
    hour of a qualifying record once with the mean rate of the qualifying
    records of that hour; hours whose means compare equal stand in the
    order of their first record; no mean in the list is less than the
    mean that follows it; and no mean being NaN, the list is in descending
    (not strictly descending) order of the mean throughout. *)
Theorem C6_best_posting_times (db : Analytics.Ledger) (min_posts : Z) :
  let q := Analytics.qualifying db in
  let result := Analytics.get_best_posting_times min_posts db in
  (Z.of_nat (length q) < min_posts -> result = []) /\
  (min_posts <= Z.of_nat (length q) ->
     result = map (fun hm => Py.format_02d hm.1 +:+ ":00")
                  (firstn 3 (Analytics.best_hours db))) /\
  (length result <= 3)%nat /\
  Permutation (Analytics.best_hours db) (Analytics.hour_avg q) /\
  map fst (Analytics.hour_avg q) = Spec.hours_by_first_record q /\
  NoDup (map fst (Analytics.hour_avg q)) /\
  (forall h, h ∈ map fst (Analytics.hour_avg q) <->
             exists p, p ∈ q /\ Analytics.hour (Analytics.posted_at p) = h) /\
  (forall h m, (h, m) ∈ Analytics.hour_avg q -> m = Spec.mean_of_hour db h) /\
  (forall c : float,
     List.filter (fun hm => PrimFloat.eqb hm.2 c) (Analytics.best_hours db) =
     List.filter (fun hm => PrimFloat.eqb hm.2 c) (Analytics.hour_avg q)) /\
  Sorted (Py.not_below snd) (Analytics.best_hours db) /\
  (Forall (Py.not_nan snd) (Analytics.hour_avg q) ->
   StronglySorted (Py.desc snd) (Analytics.best_hours db)).
Proof.
  intros q result.
  assert (map fst (Analytics.hour_avg q) = map fst (Analytics.hour_engagement q))
    as Hkeys.
  { unfold Analytics.hour_avg. rewrite map_map. reflexivity. }
  split; [|split; [|split; [|split; [|split; [|split; [|split;
    [|split; [|split; [|split]]]]]]]]].
  - intros Hlt. unfold result, Analytics.get_best_posting_times.
    fold q. apply Z.ltb_lt in Hlt. now rewrite Hlt.
  - intros Hge. unfold result, Analytics.get_best_posting_times.
    fold q. apply Z.ltb_ge in Hge. now rewrite Hge.
  - unfold result, Analytics.get_best_posting_times, Py.slice_to.
    destruct (_ <? _); simpl; [lia|].
    rewrite length_map, length_firstn. lia.
  - apply sorted_desc_perm.
  - rewrite Hkeys. apply hour_engagement_keys.
  - rewrite Hkeys. apply hour_engagement_NoDup.
  - intros h. rewrite Hkeys, entry_of_hour_key, hour_engagement_entry.
    rewrite <- rates_of_hour_nonempty.
    destruct (Spec.rates_of_hour h q); split;
      try congruence; try (intros [? [=]]); eauto.
  - intros h m Hin. unfold Analytics.hour_avg in Hin.
    apply list_elem_of_fmap in Hin as ([h' rs] & [= -> ->] & Hin).
    apply entry_of_hour_elem in Hin; [|apply hour_engagement_NoDup].
    rewrite hour_engagement_entry in Hin. unfold Spec.mean_of_hour. fold q.
    simpl. destruct (Spec.rates_of_hour h' q); congruence.
  - intros c. apply (sorted_desc_stable snd).
  - apply (sorted_desc_adjacent snd).
  - intros Hnan. now apply sorted_desc_sorted.
Qed.

Lemma C6_best_posting_times_witness :
  Analytics.get_best_posting_times 4 Sample.ledger_four
    = ["12:00"; "11:00"; "10:00"] /\
  Analytics.get_best_posting_times 5 Sample.ledger_four = [] /\
  StronglySorted (Py.desc snd) (Analytics.best_hours Sample.ledger_four) /\
  map fst (Analytics.best_hours Sample.ledger_tie) = [9; 10].
Proof.
  destruct (C6_best_posting_times Sample.ledger_four 4)
    as (_ & Hsome & _ & _ & _ & _ & _ & _ & _ & _ & Hsorted).
  destruct (C6_best_posting_times Sample.ledger_four 5) as (Hnone & _).
  split; [|split; [|split]].
  - rewrite Hsome; [by vm_compute|]. vm_compute. discriminate.
  - apply Hnone. vm_compute. reflexivity.
  - apply Hsorted. repeat constructor.
  - by vm_compute.
Defined.

(** ** The pipeline *)

Section Cycle.
Import Agent.
Variable w : Collaborators.
Variable cfg : Settings.

Lemma publish_call (pf : InstagramPoster.Platform) (depth : nat)
    (p : InstagramPoster.Poster) :
  (if String.eqb (post_type cfg) "reel"
   then InstagramPoster.post_reel pf depth p
   else InstagramPoster.post_video pf depth p)
  = InstagramPoster.post pf (Spec.post_kind cfg) depth p.
Proof.
  unfold Spec.post_kind. now destruct (String.eqb (post_type cfg) "reel").
Qed.

(** The three shapes of a cycle: it ends before the publisher is called; the
    publisher is called and yields no post identifier; the publisher yields
    one and the record is tracked. *)
Lemma run_once_cases (test_mode : bool) (st : State) :
  let r := run_once w cfg test_mode st in
  (r.1 = st /\ (r.2 = true -> test_mode = true)) \/
  (test_mode = false /\
   exists p' res,
     InstagramPoster.post (platform w) (Spec.post_kind cfg)
       (recursion_limit w) (poster st) = (p', res) /\
     (forall info, res <> Py.Ret (Some info)) /\
     r = ({| ledger := ledger st; poster := p'; ticks := ticks st;
             trace := trace st ++ [EvPublish res] |}, false)) \/
  (test_mode = false /\
   exists p' info video cd,
     InstagramPoster.post (platform w) (Spec.post_kind cfg)
       (recursion_limit w) (poster st) = (p', Py.Ret (Some info)) /\
     r = ({| ledger :=
               (Analytics.track_post (Spec.post_data_of cfg video cd info)
                  (clock w (ticks st)) (clock w (S (ticks st)))
                  (ledger st)).1;
             poster := p';
             ticks := S (S (ticks st));
             trace := trace st ++ [EvPublish (Py.Ret (Some info));
                                   EvTrack (Spec.post_data_of cfg video cd info)] |},
          true)).
Proof.
  unfold run_once, run_once_body, bind, lift, gets, ret. cbv zeta.
  destruct (search_videos w) as [[|v0 vs]|]; cbv beta iota;
    try (left; split; [reflexivity|discriminate]).
  destruct (_get_unposted_video (v0 :: vs) (ledger st)) as [video|];
    cbv beta iota; try (left; split; [reflexivity|discriminate]).
  destruct (download_video w video) as [downloaded|]; cbv beta iota;
    try (left; split; [reflexivity|discriminate]).
  destruct (truthy downloaded) as [video_path|]; cbv beta iota;
    try (left; split; [reflexivity|discriminate]).
  destruct (process_video w video_path (v_id video)) as [processed|];
    cbv beta iota; try (left; split; [reflexivity|discriminate]).
  destruct (truthy processed) as [edited_path|]; cbv beta iota;
    try (left; split; [reflexivity|discriminate]).
  destruct (generate_caption w video) as [cd|]; cbv beta iota;
    try (left; split; [reflexivity|discriminate]).
  destruct test_mode; cbv beta iota; [left; split; reflexivity|].
  unfold publish. rewrite publish_call.
  destruct (InstagramPoster.post (platform w) _ (recursion_limit w) (poster st))
    as [p' [[info|]|]] eqn:Epost; cbv beta iota.
  - right; right. split; [reflexivity|]. exists p', info, video, cd.
    split; [reflexivity|].
    unfold track, _cleanup_files, ret. cbn [ledger poster ticks trace].
    fold (Spec.post_data_of cfg video cd info).
    destruct (Analytics.track_post (Spec.post_data_of cfg video cd info) _ _ (ledger st))
      as [db' ok]. cbn [fst].
    destruct (cleanup_downloads cfg); rewrite <- app_assoc; reflexivity.
  - right; left. split; [reflexivity|]. exists p', (Py.Ret None).
    repeat split; congruence.
  - right; left. split; [reflexivity|]. exists p', Py.Raise.
    repeat split; congruence.
Qed.


End Cycle.

(** C1: in every cycle, [track_post] is called only directly after the
    publish call of the same cycle has returned a post identifier, with that
    identifier; and a cycle in which no publish call returns an identifier
    (the call returns None or raises, or an earlier stage ends the cycle)
    leaves the ledger as it was. *)
Theorem C1_record_only_after_publish (w : Agent.Collaborators)
    (cfg : Agent.Settings) (test_mode : bool) (st : Agent.State) :
  let r := Agent.run_once w cfg test_mode st in
  exists events,
    Agent.trace r.1 = Agent.trace st ++ events /\
    (forall pre pd post,
       events = pre ++ Agent.EvTrack pd :: post ->
       exists pre' info,
         pre = pre' ++ [Agent.EvPublish (Py.Ret (Some info))] /\
         Analytics.pd_instagram_media_id pd = InstagramPoster.pi_id info) /\
    ((forall info, Agent.EvPublish (Py.Ret (Some info)) ∉ events) ->
     Agent.ledger r.1 = Agent.ledger st).
Proof.
  intros r.
  destruct (run_once_cases w cfg test_mode st)
    as [[Hst _] | [(_ & p' & res & _ & Hres & Hr)
                  | (_ & p' & info & video & cd & _ & Hr)]];
    fold r in Hst || fold r in Hr.
  - exists []. rewrite Hst, app_nil_r. split; [reflexivity|]. split.
    + intros [|? ?] ? ?; discriminate.
    + reflexivity.
  - exists [Agent.EvPublish res]. rewrite Hr. split; [reflexivity|]. split.
    + intros [|? [|? ?]] ? ?; discriminate.
    + reflexivity.
  - exists [Agent.EvPublish (Py.Ret (Some info));
            Agent.EvTrack (Spec.post_data_of cfg video cd info)].
    rewrite Hr. split; [reflexivity|]. split.
    + intros [|e [|? [|? ?]]] pd post; try discriminate.
      intros [= <- <- _]. exists [], info. split; reflexivity.
    + intros Hno. exfalso. apply (Hno info). left.
Qed.




(** ** The publish call and its re-authentication *)

Section Reauth.
Import InstagramPoster.
Variable pf : Platform.
Variable kind : PostType.

(** One round: a logged-in poster whose upload signals [LoginRequired] logs
    in again and, if that succeeds, starts over one frame deeper. *)
Lemma post_login_required (depth : nat) (st : Poster) :
  credentials pf = true -> client st = true ->
  upload_outcome pf (uploads st) = LoginRequired ->
  post pf kind (S depth) st =
  let st' := {| client := true; logins := S (logins st);
                uploads := S (uploads st) |} in
  if login_outcome pf (logins st) then post pf kind depth st'
  else (st', Py.Ret None).
Proof.
  intros Hcred Hclient Hup. simpl. rewrite Hclient. simpl. rewrite Hup.
  unfold login. rewrite Hcred. simpl. reflexivity.
Qed.

Lemma post_other_outcome (depth : nat) (st : Poster) :
  client st = true ->
  upload_outcome pf (uploads st) <> LoginRequired ->
  post pf kind (S depth) st =
  (count_upload st,
   Py.Ret (Spec.result_of_outcome kind (upload_outcome pf (uploads st)))).
Proof.
  intros Hclient Hup. simpl. rewrite Hclient. simpl.
  destruct (upload_outcome pf (uploads st)); [reflexivity|congruence|reflexivity].
Qed.

(** [k] rounds of re-authentication bring the poster [k] logins and [k]
    uploads further and [k] frames deeper. *)
Lemma post_rounds (k depth : nat) (st : Poster) :
  credentials pf = true -> client st = true ->
  (forall i, (i < k)%nat ->
     upload_outcome pf (uploads st + i) = LoginRequired /\
     login_outcome pf (logins st + i) = true) ->
  post pf kind (k + depth) st =
  post pf kind depth
    {| client := true; logins := logins st + k; uploads := uploads st + k |}.
Proof.
  intros Hcred. revert st. induction k as [|k IH]; intros st Hclient Hsig.
  - simpl. rewrite !Nat.add_0_r. destruct st; simpl in *. now subst.
  - destruct (Hsig 0%nat ltac:(lia)) as [Hup Hlog].
    rewrite Nat.add_0_r in Hup, Hlog.
    change (S k + depth)%nat with (S (k + depth)).
    rewrite post_login_required by assumption. cbv zeta. rewrite Hlog.
    rewrite IH; [|reflexivity|].
    + simpl. now rewrite !Nat.add_succ_r.
    + intros i Hi. simpl. rewrite <- !Nat.add_succ_r. apply Hsig. lia.
Qed.

End Reauth.

Lemma run_once_without_identifier (w : Agent.Collaborators)
    (cfg : Agent.Settings) (st : Agent.State) :
  (forall info,
     (InstagramPoster.post (Agent.platform w) (Spec.post_kind cfg)
        (Agent.recursion_limit w) (Agent.poster st)).2
     <> Py.Ret (Some info)) ->
  (Agent.run_once w cfg false st).2 = false /\
  Agent.ledger (Agent.run_once w cfg false st).1 = Agent.ledger st.
Proof.
  intros Hno.
  destruct (run_once_cases w cfg false st)
    as [[Hst Htm] | [(_ & p' & res & _ & _ & Hc)
                    | (_ & p' & info & video & cd & Hpost & _)]].
  - rewrite Hst. split; [|reflexivity].
    destruct (Agent.run_once w cfg false st).2; [|reflexivity].
    now specialize (Htm eq_refl).
  - rewrite Hc. split; reflexivity.
  - exfalso. apply (Hno info). now rewrite Hpost.
Qed.

(** C2, as stated, fails: on a platform that signals [LoginRequired] on the
    first two publish calls and accepts the third, a logged-in poster logs
    in twice more and makes three publish calls; the cycle of a fresh agent
    ends with success and a new record. *)
Lemma C2_second_signal_is_retried_again :
  ~ Spec.retry_bounded_to_one Sample.platform_reauth_twice
      InstagramPoster.Reel 1000 Sample.logged_in /\
  let c := Agent.run_once
             (Sample.world [Sample.video_a] Sample.platform_reauth_twice)
             Sample.settings false (Sample.fresh []) in
  c.2 = true /\
  length (Agent.ledger c.1) = 1%nat /\
  InstagramPoster.uploads (Agent.poster c.1) = 3%nat.
Proof.
  split; [|by vm_compute].
  intros H. destruct (H eq_refl eq_refl eq_refl) as (Hlogins & _).
  vm_compute in Hlogins. discriminate.
Qed.

(** C2, amended: while the platform answers each publish call with
    [LoginRequired] and each login succeeds, the invocation logs in again
    and calls publish again, once per signal and with no bound other than
    the recursion limit: after [k] such rounds it has made [k] re-logins and
    [k] retries.  It ends with the first publish call that does not signal
    [LoginRequired], whose result it returns, or with the first login that
    fails, returning no identifier.  Whenever it yields no identifier the
    cycle ends as an error and the ledger is unchanged. *)
Theorem C2_reauthentication_rounds (w : Agent.Collaborators)
    (cfg : Agent.Settings) (st : Agent.State) (k : nat) :
  let pf := Agent.platform w in
  let p := Agent.poster st in
  let kind := Spec.post_kind cfg in
  InstagramPoster.credentials pf = true ->
  InstagramPoster.client p = true ->
  (k < Agent.recursion_limit w)%nat ->
  (forall i, (i < k)%nat ->
     InstagramPoster.upload_outcome pf (InstagramPoster.uploads p + i)
       = InstagramPoster.LoginRequired /\
     InstagramPoster.login_outcome pf (InstagramPoster.logins p + i) = true) ->
  let o := InstagramPoster.upload_outcome pf (InstagramPoster.uploads p + k) in
  let r := InstagramPoster.post pf kind (Agent.recursion_limit w) p in
  let c := Agent.run_once w cfg false st in
  (o <> InstagramPoster.LoginRequired ->
   InstagramPoster.logins r.1 = (InstagramPoster.logins p + k)%nat /\
   InstagramPoster.uploads r.1 = (InstagramPoster.uploads p + k + 1)%nat /\
   r.2 = Py.Ret (Spec.result_of_outcome kind o)) /\
  (o = InstagramPoster.LoginRequired ->
   InstagramPoster.login_outcome pf (InstagramPoster.logins p + k) = false ->
   InstagramPoster.logins r.1 = (InstagramPoster.logins p + k + 1)%nat /\
   InstagramPoster.uploads r.1 = (InstagramPoster.uploads p + k + 1)%nat /\
   r.2 = Py.Ret None) /\
  ((forall info, r.2 <> Py.Ret (Some info)) ->
   c.2 = false /\ Agent.ledger c.1 = Agent.ledger st).
Proof.
  intros pf p kind Hcred Hclient Hdepth Hsig o r c.
  assert (exists d, Agent.recursion_limit w = (k + S d)%nat) as [d Hd]
    by (exists (Agent.recursion_limit w - k - 1)%nat; lia).
  assert (r = InstagramPoster.post pf kind (S d)
                {| InstagramPoster.client := true;
                   InstagramPoster.logins := InstagramPoster.logins p + k;
                   InstagramPoster.uploads := InstagramPoster.uploads p + k |})
    as Hr.
  { unfold r. rewrite Hd. now apply post_rounds. }
  split; [|split].
  - intros Ho. rewrite Hr.
    rewrite post_other_outcome by (try reflexivity; exact Ho).
    simpl. repeat split; lia.
  - intros Ho Hfail. rewrite Hr.
    rewrite post_login_required by (try reflexivity; assumption).
    cbv zeta. cbn [InstagramPoster.logins]. rewrite Hfail.
    simpl. repeat split; lia.
  - apply run_once_without_identifier.
Qed.

(** Three publish calls and two re-logins when the signal comes twice. *)
Lemma C2_reauthentication_rounds_witness :
  let st := {| Agent.ledger := []; Agent.poster := Sample.logged_in;
               Agent.ticks := 0; Agent.trace := [] |} in
  let r := InstagramPoster.post Sample.platform_reauth_twice
             InstagramPoster.Reel 1000 Sample.logged_in in
  InstagramPoster.logins r.1 = 3%nat /\
  InstagramPoster.uploads r.1 = 3%nat /\
  r.2 = Py.Ret (Some (InstagramPoster.post_info InstagramPoster.Reel
                        (Sample.media 2))).
Proof.
  intros st r.
  destruct (C2_reauthentication_rounds
              (Sample.world [Sample.video_a] Sample.platform_reauth_twice)
              Sample.settings st 2 eq_refl eq_refl) as (H & _ & _).
  - simpl. lia.
  - intros [|[|i]] Hi; [split; reflexivity | split; reflexivity | lia].
  - apply H. discriminate.
Defined.

(** ** Selection of the candidate *)

Lemma find_first {A : Type} (f : A -> bool) (l : list A) :
  match List.find f l with
  | Some x =>
      exists pre post,
        l = pre ++ x :: post /\ Forall (fun y => f y = false) pre /\ f x = true
  | None => Forall (fun y => f y = false) l
  end.
Proof.
  induction l as [|y l IH]; simpl; [constructor|].
  destruct (f y) eqn:E.
  - exists [], l. repeat split; [constructor|assumption].
  - destruct (List.find f l) as [x|].
    + destruct IH as (pre & post & -> & Hpre & Hx).
      exists (y :: pre), post. repeat split; [now constructor|assumption].
    + now constructor.
Qed.

Lemma track_post_new (pd : Analytics.PostData) (t1 t2 : Analytics.datetime)
    (db : Analytics.Ledger) :
  Analytics.get_post (Analytics.pd_video_id pd) db = None ->
  exists record,
    Analytics.track_post pd t1 t2 db = (db ++ [record], true) /\
    Analytics.video_id record = Analytics.pd_video_id pd /\
    Analytics.instagram_media_id record = Analytics.pd_instagram_media_id pd /\
    Analytics.posted_at record = t1.
Proof.
  unfold Analytics.get_post, Analytics.track_post. intros ->.
  eexists. split; [reflexivity|]. repeat split.
Qed.

(** C5: the selection scans the ranked sequence in order and selects the
    first candidate without a record in the ledger (none if all have one);
    when the first candidate has a record and the second has none, the cycle
    selects the second, and once it is published the ledger has gained
    exactly one record, the one of that candidate. *)
Theorem C5_select_first_unposted (w : Agent.Collaborators)
    (cfg : Agent.Settings) (st : Agent.State) (videos : list Agent.Video) :
  Agent.search_videos w = Py.Ret videos ->
  let db := Agent.ledger st in
  let has_record v := is_Some (Analytics.get_post (Agent.v_id v) db) in
  match Agent._get_unposted_video videos db with
  | Some video =>
      (exists pre post,
         videos = pre ++ video :: post /\
         Forall has_record pre /\ ~ has_record video) /\
      (forall a b rest, videos = a :: b :: rest ->
         has_record a -> ~ has_record b -> video = b) /\
      (forall path edited cd p' info,
         Agent.download_video w video = Py.Ret (Some path) -> path <> "" ->
         Agent.process_video w path (Agent.v_id video) = Py.Ret (Some edited) ->
         edited <> "" ->
         Agent.generate_caption w video = Py.Ret cd ->
         InstagramPoster.post (Agent.platform w) (Spec.post_kind cfg)
           (Agent.recursion_limit w) (Agent.poster st)
           = (p', Py.Ret (Some info)) ->
         let c := Agent.run_once w cfg false st in
         c.2 = true /\
         exists record,
           Agent.ledger c.1 = db ++ [record] /\
           Analytics.video_id record = Agent.v_id video /\
           Analytics.instagram_media_id record = InstagramPoster.pi_id info)
  | None => Forall has_record videos
  end.
Proof.
  intros Hsearch db has_record.
  assert (forall v, (match Analytics.get_post (Agent.v_id v) db with
                     | None => true | Some _ => false end) = false
                    <-> has_record v) as Hrec.
  { intros v. unfold has_record.
    destruct (Analytics.get_post (Agent.v_id v) db); split;
      try discriminate; eauto. intros [? [=]]. }
  pose proof (find_first
                (fun video => match Analytics.get_post (Agent.v_id video) db with
                              | None => true | Some _ => false end) videos)
    as Hfind.
  unfold Agent._get_unposted_video. fold db.
  destruct (List.find _ videos) as [video|] eqn:Efind.
  - destruct Hfind as (pre & post & Hvideos & Hpre & Hvideo).
    assert (~ has_record video) as Hnot
      by (intros H%Hrec; congruence).
    split; [|split].
    + exists pre, post. repeat split; try assumption.
      eapply Forall_impl; [exact Hpre|]. intros v Hv. now apply Hrec.
    + intros a b rest Hab Ha Hb. rewrite Hab in Efind. simpl in Efind.
      apply Hrec in Ha. rewrite Ha in Efind.
      destruct (Analytics.get_post (Agent.v_id b) db) eqn:Eb;
        [exfalso; apply Hb; unfold has_record; rewrite Eb; eauto|].
      congruence.
    + intros path edited cd p' info Hdl Hpath Hproc Hedited Hcap Hpost.
      assert (Analytics.get_post (Agent.v_id video) db = None) as Hnone.
      { destruct (Analytics.get_post (Agent.v_id video) db) eqn:E;
          [discriminate|reflexivity]. }
      destruct (track_post_new (Spec.post_data_of cfg video cd info)
                  (Agent.clock w (Agent.ticks st))
                  (Agent.clock w (S (Agent.ticks st))) db Hnone)
        as (record & Htrack & Hvid & Hmedia & _).
      unfold Agent.run_once, Agent.run_once_body, Agent.bind, Agent.lift,
        Agent.gets, Agent.ret.
      rewrite Hsearch. destruct videos as [|v0 vs]; [discriminate|].
      cbv beta iota zeta. unfold Agent._get_unposted_video. fold db.
      rewrite Efind. cbv beta iota. rewrite Hdl. cbv beta iota.
      assert (Agent.truthy (Some path) = Some path) as ->
        by (destruct path; [congruence|reflexivity]).
      cbv beta iota. rewrite Hproc. cbv beta iota.
      assert (Agent.truthy (Some edited) = Some edited) as ->
        by (destruct edited; [congruence|reflexivity]).
      cbv beta iota. rewrite Hcap. cbv beta iota.
      unfold Agent.publish. rewrite publish_call, Hpost.
      cbv beta iota. unfold Agent.track. cbn [Agent.ledger Agent.ticks].
      fold db. fold (Spec.post_data_of cfg video cd info). rewrite Htrack.
      unfold Agent._cleanup_files, Agent.ret.
      destruct (Agent.cleanup_downloads cfg); cbn [fst snd Agent.ledger];
        (split; [reflexivity|]); exists record; auto.
  - eapply Forall_impl; [exact Hfind|]. intros v Hv. now apply Hrec.
Qed.

(** Scenario 2: the ledger contains source id 1, discovery returns A (id 1)
    and B (id 2); B is selected and published and the ledger ends with two
    records. *)
Lemma C5_select_first_unposted_witness :
  let w := Sample.world [Sample.video_a; Sample.video_b] Sample.platform_ok in
  let st := Sample.fresh Sample.ledger_a in
  Agent._get_unposted_video [Sample.video_a; Sample.video_b] Sample.ledger_a
    = Some Sample.video_b /\
  (Agent.run_once w Sample.settings false st).2 = true /\
  map Analytics.video_id
    (Agent.ledger (Agent.run_once w Sample.settings false st).1) = ["1"; "2"].
Proof.
  intros w st.
  pose proof (C5_select_first_unposted w Sample.settings st
                [Sample.video_a; Sample.video_b] eq_refl) as H.
  cbv zeta in H.
  destruct (Agent._get_unposted_video [Sample.video_a; Sample.video_b]
              (Agent.ledger st)) as [video|] eqn:E;
    [|vm_compute in E; discriminate].
  destruct H as (_ & Hsecond & Hrun).
  assert (video = Sample.video_b) as ->.
  { apply (Hsecond Sample.video_a Sample.video_b [] eq_refl).
    - vm_compute. eauto.
    - vm_compute. intros [? [=]]. }
  split; [exact E|].
  edestruct (Hrun "data/videos/2.mp4" "data/processed/2_edited.mp4")
    as (Hok & record & Hledger & Hvid & _);
    [reflexivity|discriminate|reflexivity|discriminate|reflexivity|reflexivity|].
  split; [exact Hok|].
  rewrite Hledger, map_app. simpl. rewrite Hvid. reflexivity.
Defined.

(** ** The scheduler *)

Section Schedule.
Import Scheduler.

Lemma CronTrigger_Ret (h m : Z) (trigger : Cron) :
  CronTrigger h m = Py.Ret trigger ->
  0 <= h <= 23 /\ 0 <= m <= 59 /\
  trigger = {| cron_hour := h; cron_minute := m |}.
Proof.
  unfold CronTrigger.
  destruct ((0 <=? h) && (h <=? 23) && (0 <=? m) && (m <=? 59)) eqn:E;
    [|discriminate].
  intros [= <-]. repeat split; lia.
Qed.


Lemma schedule_post_daily (post_time_str : string) (jobs : gmap string Cron) :
  Spec.accepted post_time_str ->
  schedule_post "daily" post_time_str jobs =
  (<[daily_job_id (_parse_time post_time_str).1 (_parse_time post_time_str).2
     := {| cron_hour := (_parse_time post_time_str).1;
           cron_minute := (_parse_time post_time_str).2 |}]> jobs,
   Py.Ret tt).
Proof.
  intros [trigger Ht]. unfold schedule_post.
  destruct (_parse_time post_time_str) as [h m]. simpl in *.
  rewrite Ht. apply CronTrigger_Ret in Ht as (_ & _ & ->). reflexivity.
Qed.



Lemma schedule_posts_daily_ret (ts : list string) (jobs : gmap string Cron) :
  Forall Spec.accepted ts ->
  (schedule_posts "daily" ts jobs).2 = Py.Ret tt.
Proof.
  intros Hall. revert jobs.
  induction Hall as [|t ts Ht Hts IH]; intros jobs; [reflexivity|].
  cbn [schedule_posts]. rewrite (schedule_post_daily t jobs Ht). apply IH.
Qed.

End Schedule.




(** * Further properties of the code *)

(** ** The ledger: recording and refreshing *)

Section LedgerWrites.
Import Analytics.

Lemma query_first_app (vid : string) (db1 db2 : Ledger) :
  query_first vid (db1 ++ db2) =
  match query_first vid db1 with
  | Some p => Some p
  | None => query_first vid db2
  end.
Proof.
  unfold query_first. induction db1 as [|q db1 IH]; simpl; [reflexivity|].
  now destruct (String.eqb (video_id q) vid).
Qed.

Lemma query_first_None (vid : string) (db : Ledger) :
  query_first vid db = None <-> vid ∉ map video_id db.
Proof.
  unfold query_first. induction db as [|q db IH]; simpl.
  - split; [intros _ []%elem_of_nil | reflexivity].
  - destruct (String.eqb_spec (video_id q) vid) as [<-|Hne].
    + split; [discriminate|]. intros H. exfalso. apply H. left.
    + rewrite IH. rewrite not_elem_of_cons. split; [auto | tauto].
Qed.

End LedgerWrites.

(** X1: recording a publish whose video has no record succeeds, and the
    record is then found under its video id with the data it was given, the
    two time stamps and zeroed metrics; lookups of other ids are unchanged. *)
Theorem track_post_then_get_post (pd : Analytics.PostData)
    (t1 t2 : Analytics.datetime) (db : Analytics.Ledger) :
  Analytics.get_post (Analytics.pd_video_id pd) db = None ->
  let r := Analytics.track_post pd t1 t2 db in
  r.2 = true /\
  (exists record,
     Analytics.get_post (Analytics.pd_video_id pd) r.1 = Some record /\
     Analytics.video_id record = Analytics.pd_video_id pd /\
     Analytics.instagram_media_id record = Analytics.pd_instagram_media_id pd /\
     Analytics.instagram_url record = Analytics.pd_instagram_url pd /\
     Analytics.hashtags record = Analytics.pd_hashtags pd /\
     Analytics.posted_at record = t1 /\
     Analytics.last_updated record = t2 /\
     Analytics.likes record = 0 /\ Analytics.comments record = 0 /\
     Analytics.views record = 0 /\
     Analytics.engagement_rate record = PrimFloat.zero) /\
  (forall vid, vid <> Analytics.pd_video_id pd ->
     Analytics.get_post vid r.1 = Analytics.get_post vid db).
Proof.
  intros Hnone. unfold Analytics.get_post in *.
  unfold Analytics.track_post. rewrite Hnone. cbn [fst snd].
  split; [reflexivity|]. split.
  - eexists. split.
    + rewrite query_first_app, Hnone. unfold Analytics.query_first. simpl.
      now rewrite String.eqb_refl.
    + repeat split.
  - intros vid Hne. rewrite query_first_app.
    destruct (Analytics.query_first vid db); [reflexivity|].
    unfold Analytics.query_first. simpl.
    destruct (String.eqb_spec (Analytics.pd_video_id pd) vid);
      [congruence|reflexivity].
Qed.

Lemma track_post_then_get_post_witness :
  (Analytics.track_post (Sample.post_data "b") 10 11 Sample.ledger_one).2
    = true /\
  option_map Analytics.posted_at
    (Analytics.get_post "b"
       (Analytics.track_post (Sample.post_data "b") 10 11 Sample.ledger_one).1)
    = Some 10.
Proof.
  destruct (track_post_then_get_post (Sample.post_data "b") 10 11
              Sample.ledger_one eq_refl)
    as (Hok & (record & Hget & _ & _ & _ & _ & Hposted & _) & _).
  split; [exact Hok|].
  cbn [Analytics.pd_video_id Sample.post_data] in Hget.
  rewrite Hget. simpl. now rewrite Hposted.
Defined.

(** X2: the ledger refuses a second record for a video id: [track_post]
    then returns False and leaves the ledger as it was. *)
Theorem track_post_duplicate_refused (pd : Analytics.PostData)
    (t1 t2 : Analytics.datetime) (db : Analytics.Ledger) :
  is_Some (Analytics.get_post (Analytics.pd_video_id pd) db) ->
  Analytics.track_post pd t1 t2 db = (db, false).
Proof.
  intros [p Hp]. unfold Analytics.get_post in Hp.
  unfold Analytics.track_post. now rewrite Hp.
Qed.

Lemma track_post_duplicate_refused_witness :
  Analytics.track_post (Sample.post_data "a") 10 11 Sample.ledger_one
  = (Sample.ledger_one, false).
Proof.
  apply track_post_duplicate_refused. vm_compute. eauto.
Defined.

(** X3: no two records ever share a video id: when the ids of the ledger
    are pairwise distinct they still are after [track_post] and after
    [update_post_metrics], whatever the arguments. *)
Theorem ledger_ids_stay_unique (db : Analytics.Ledger) :
  NoDup (map Analytics.video_id db) ->
  (forall pd t1 t2,
     NoDup (map Analytics.video_id (Analytics.track_post pd t1 t2 db).1)) /\
  (forall vid metrics now,
     NoDup (map Analytics.video_id
              (Analytics.update_post_metrics vid metrics now db).1)).
Proof.
  intros Hnd. split.
  - intros pd t1 t2. unfold Analytics.track_post.
    destruct (Analytics.query_first (Analytics.pd_video_id pd) db) eqn:E;
      cbn [fst]; [exact Hnd|].
    rewrite map_app. apply NoDup_app. split; [exact Hnd|]. split.
    + intros x Hx [->|[]%elem_of_nil]%elem_of_cons.
      now apply query_first_None in E.
    + apply NoDup_singleton.
  - intros vid metrics now.
    destruct (update_post_metrics_cases vid metrics now db)
      as [-> | (p & p' & Hq & Hr & _ & ->)]; cbn [fst]; [exact Hnd|].
    apply refresh_Ret in Hr as (_ & Hvid & _).
    now rewrite (replace_first_map Analytics.video_id vid p p' db Hq Hvid).
Qed.

Lemma ledger_ids_stay_unique_witness :
  NoDup (map Analytics.video_id
           (Analytics.track_post (Sample.post_data "a") 10 11
              Sample.ledger_four).1).
Proof.
  destruct (ledger_ids_stay_unique Sample.ledger_four) as [Htrack _].
  - apply (bool_decide_unpack _). vm_compute. reflexivity.
  - apply Htrack.
Defined.

(** X4: a metrics refresh for a video id without a record returns False and
    changes nothing. *)
Theorem update_post_metrics_unknown_id (vid : string) (metrics : gmap string Z)
    (now : Analytics.datetime) (db : Analytics.Ledger) :
  Analytics.get_post vid db = None ->
  Analytics.update_post_metrics vid metrics now db = (db, false).
Proof.
  intros Hnone. unfold Analytics.get_post in Hnone.
  unfold Analytics.update_post_metrics. now rewrite Hnone.
Qed.

Lemma update_post_metrics_unknown_id_witness :
  Analytics.update_post_metrics "zz" (Sample.metrics_of 1 2 3) 50
    Sample.ledger_one = (Sample.ledger_one, false).
Proof. now apply update_post_metrics_unknown_id. Defined.

(** X5: a metrics refresh never adds, removes or reorders records and never
    touches the identity of one: the video ids, the platform ids and the
    publication times of the ledger are as before, and so is every record
    looked up under another video id. *)
Theorem update_post_metrics_keeps_identity (vid : string)
    (metrics : gmap string Z) (now : Analytics.datetime)
    (db : Analytics.Ledger) :
  let db' := (Analytics.update_post_metrics vid metrics now db).1 in
  map Analytics.video_id db' = map Analytics.video_id db /\
  map Analytics.instagram_media_id db' = map Analytics.instagram_media_id db /\
  map Analytics.posted_at db' = map Analytics.posted_at db /\
  length db' = length db /\
  (forall vid', vid' <> vid ->
     Analytics.get_post vid' db' = Analytics.get_post vid' db).
Proof.
  destruct (update_post_metrics_cases vid metrics now db)
    as [-> | (p & p' & Hq & Hr & _ & ->)]; cbn [fst]; [repeat split|].
  apply refresh_Ret in Hr as (_ & Hv & Hm & Hp & _).
  assert (forall (B : Type) (g : Analytics.Post -> B),
            g p' = g p ->
            map g (Analytics.replace_first vid p' db) = map g db) as Hmap
    by (intros B g; now apply replace_first_map).
  split; [now apply Hmap|]. split; [now apply Hmap|].
  split; [now apply Hmap|]. split.
  - rewrite <- (length_map Analytics.video_id),
      <- (length_map Analytics.video_id db). f_equal. now apply Hmap.
  - intros vid' Hne. unfold Analytics.get_post.
    now apply (replace_first_other vid vid' p).
Qed.

(** ** The ledger: further queries *)

Section SortedDescZ.
Context {A : Type} (key : A -> Z).

Lemma insert_desc_Z_perm (x : A) (l : list A) :
  Permutation (Py.insert_desc_Z key x l) (x :: l).
Proof.
  induction l as [|y l IH]; simpl; [reflexivity|].
  destruct (key x <? key y); [|reflexivity].
  rewrite IH. apply perm_swap.
Qed.

Lemma sorted_desc_Z_perm (l : list A) : Permutation (Py.sorted_desc_Z key l) l.
Proof.
  induction l as [|x l IH]; simpl; [reflexivity|].
  rewrite insert_desc_Z_perm. now constructor.
Qed.



End SortedDescZ.


(** The dict [hashtag_data] counts the uses of each tag. *)
Section Hashtags.
Import Analytics.

Lemma hashtag_data_uses (posts : list Post) :
  hashtag_data posts =
  fold_left (fun d u => hashtag_add u.1 u.2 d) (Spec.tag_uses posts) [].
Proof.
  unfold hashtag_data, Spec.tag_uses. generalize (@nil (string * (Z * float))).
  induction posts as [|p posts IH]; intros d; simpl; [reflexivity|].
  rewrite fold_left_app, IH. f_equal.
  clear. revert d. induction (hashtags p) as [|t ts IH]; intros d; simpl;
    [reflexivity|apply IH].
Qed.

Lemma hashtag_add_count (tag t : string) (r : float)
    (d : list (string * (Z * float))) :
  Spec.count_of t (hashtag_add tag r d) =
  Spec.count_of t d + (if String.eqb tag t then 1 else 0).
Proof.
  unfold Spec.count_of. induction d as [|[t' [c tot]] d IH]; simpl.
  - destruct (String.eqb tag t); reflexivity.
  - destruct (String.eqb_spec t' tag) as [->|Hne]; simpl.
    + destruct (String.eqb tag t); simpl; lia.
    + destruct (String.eqb_spec t' t) as [->|Hne']; simpl.
      * destruct (String.eqb_spec tag t); [congruence|lia].
      * exact IH.
Qed.

Lemma hashtag_add_keys (tag : string) (r : float)
    (d : list (string * (Z * float))) :
  map fst (hashtag_add tag r d) =
  if decide (tag ∈ map fst d) then map fst d else map fst d ++ [tag].
Proof.
  induction d as [|[t' [c tot]] d IH]; simpl; [reflexivity|].
  destruct (String.eqb_spec t' tag) as [->|Hne]; simpl.
  - rewrite decide_True by left. reflexivity.
  - rewrite IH. destruct (decide (tag ∈ map fst d)) as [Hin|Hin].
    + rewrite decide_True by (now right). reflexivity.
    + rewrite decide_False; [reflexivity|].
      intros [Heq|H]%elem_of_cons; [congruence|contradiction].
Qed.

Lemma hashtag_fold_count (t : string) (us : list (string * float))
    (d : list (string * (Z * float))) :
  Spec.count_of t (fold_left (fun d u => hashtag_add u.1 u.2 d) us d) =
  Spec.count_of t d +
  Z.of_nat (length (List.filter (fun u => String.eqb u.1 t) us)).
Proof.
  revert d. induction us as [|[tag r] us IH]; intros d; simpl; [lia|].
  rewrite IH, hashtag_add_count.
  destruct (String.eqb tag t); simpl; lia.
Qed.

Lemma hashtag_fold_NoDup (us : list (string * float))
    (d : list (string * (Z * float))) :
  NoDup (map fst d) ->
  NoDup (map fst (fold_left (fun d u => hashtag_add u.1 u.2 d) us d)).
Proof.
  revert d. induction us as [|[tag r] us IH]; intros d Hd; simpl; [exact Hd|].
  apply IH. rewrite hashtag_add_keys.
  destruct (decide (tag ∈ map fst d)) as [Hin|Hin]; [exact Hd|].
  apply NoDup_app. split; [exact Hd|]. split.
  - intros x Hx [->|[]%elem_of_nil]%elem_of_cons. contradiction.
  - apply NoDup_singleton.
Qed.

Lemma count_of_elem (t : string) (c : Z) (tot : float)
    (d : list (string * (Z * float))) :
  NoDup (map fst d) -> (t, (c, tot)) ∈ d -> Spec.count_of t d = c.
Proof.
  unfold Spec.count_of.
  induction d as [|[t' [c' tot']] d IH]; simpl; [intros _ []%elem_of_nil|].
  intros [Hnotin Hnd]%NoDup_cons [Heq|Hin]%elem_of_cons.
  - injection Heq as <- <- <-. now rewrite String.eqb_refl.
  - destruct (String.eqb_spec t' t) as [->|Hne]; [|now apply IH].
    exfalso. apply Hnotin. apply list_elem_of_fmap. now exists (t, (c, tot)).
Qed.

End Hashtags.

Lemma slice_to_Z_sublist {A : Type} (n : Z) (l : list A) :
  Py.slice_to_Z n l `sublist_of` l.
Proof. unfold Py.slice_to_Z. destruct (n <? 0); apply sublist_take. Qed.

Lemma hashtag_avg_keys (d : list (string * (Z * float))) :
  map fst (Analytics.hashtag_avg d) `sublist_of` map fst d.
Proof.
  unfold Analytics.hashtag_avg.
  induction d as [|[t [c tot]] d IH]; simpl; [constructor|].
  destruct (3 <=? c); simpl; [now apply sublist_skip|now apply sublist_cons].
Qed.

Lemma hashtag_avg_elem (t : string) (d : list (string * (Z * float))) :
  t ∈ map fst (Analytics.hashtag_avg d) ->
  exists c tot, (t, (c, tot)) ∈ d /\ 3 <= c.
Proof.
  unfold Analytics.hashtag_avg.
  induction d as [|[t' [c tot]] d IH]; simpl; [intros []%elem_of_nil|].
  destruct (Z.leb_spec 3 c) as [Hc|Hc]; simpl.
  - intros [->|Hin]%elem_of_cons.
    + exists c, tot. split; [left|exact Hc].
    + destruct (IH Hin) as (c' & tot' & Hin' & Hc').
      exists c', tot'. split; [now right|exact Hc'].
  - intros Hin. destruct (IH Hin) as (c' & tot' & Hin' & Hc').
    exists c', tot'. split; [now right|exact Hc'].
Qed.

(** X7: every tag that [get_best_hashtags] returns is used at least three
    times by the records with a positive rate; no tag is returned twice, a
    limit that is not negative bounds the number of tags, and without such
    records nothing is returned. *)
Theorem get_best_hashtags_used_three_times (limit : Z)
    (db : Analytics.Ledger) :
  let result := Analytics.get_best_hashtags limit db in
  (forall t, t ∈ result -> (3 <= Spec.uses_of t db)%nat) /\
  NoDup result /\
  (0 <= limit -> (length result <= Z.to_nat limit)%nat) /\
  (Analytics.qualifying db = [] -> result = []).
Proof.
  intros result.
  set (d := Analytics.hashtag_data (Analytics.qualifying db)).
  set (best := Py.sorted_desc snd (Analytics.hashtag_avg d)).
  assert (result `sublist_of` map fst best) as Hsub.
  { unfold result, Analytics.get_best_hashtags. fold d. fold best.
    destruct (Analytics.qualifying db); [apply sublist_nil_l|].
    apply fmap_sublist, slice_to_Z_sublist. }
  assert (Permutation (map fst best) (map fst (Analytics.hashtag_avg d)))
    as Hperm by (apply Permutation_map, sorted_desc_perm).
  assert (NoDup (map fst d)) as Hnd.
  { unfold d. rewrite hashtag_data_uses.
    apply hashtag_fold_NoDup. constructor. }
  split; [|split; [|split]].
  - intros t Ht.
    assert (t ∈ map fst (Analytics.hashtag_avg d)) as Hin.
    { rewrite <- Hperm. eapply elem_of_sublist; eassumption. }
    apply hashtag_avg_elem in Hin as (c & tot & Hin & Hc).
    apply (count_of_elem t c tot d Hnd) in Hin.
    unfold d in Hin. rewrite hashtag_data_uses, hashtag_fold_count in Hin.
    unfold Spec.uses_of. unfold Spec.count_of in Hin. simpl in Hin. lia.
  - eapply sublist_NoDup; [|exact Hsub]. rewrite Hperm.
    eapply sublist_NoDup; [exact Hnd|apply hashtag_avg_keys].
  - intros Hlimit. unfold result, Analytics.get_best_hashtags.
    destruct (Analytics.qualifying db); [simpl; lia|].
    rewrite length_map. unfold Py.slice_to_Z.
    destruct (Z.ltb_spec limit 0); [lia|]. rewrite length_firstn. lia.
  - intros Hq. unfold result, Analytics.get_best_hashtags. now rewrite Hq.
Qed.

Lemma get_best_hashtags_used_three_times_witness :
  Analytics.get_best_hashtags 10 Sample.ledger_four = ["#viral"] /\
  (3 <= Spec.uses_of "#viral" Sample.ledger_four)%nat /\
  Analytics.get_best_hashtags 10 Sample.ledger_tie = [].
Proof.
  destruct (get_best_hashtags_used_three_times 10 Sample.ledger_four)
    as (Huses & _).
  split; [reflexivity|]. split; [|reflexivity].
  apply Huses. left.
Defined.

(** X8: recording a publish for a video without a record raises the
    [total_posts] of the statistics by one and leaves the three totals as
    they were. *)
Theorem statistics_after_track_post (pd : Analytics.PostData)
    (t1 t2 : Analytics.datetime) (db : Analytics.Ledger) :
  Analytics.get_post (Analytics.pd_video_id pd) db = None ->
  let stats := Analytics.get_statistics db in
  let stats' :=
    Analytics.get_statistics (Analytics.track_post pd t1 t2 db).1 in
  exists n likes comments views,
    stats !! "total_posts" = Some (Analytics.SInt n) /\
    stats' !! "total_posts" = Some (Analytics.SInt (n + 1)) /\
    stats !! "total_likes" = Some (Analytics.SInt likes) /\
    stats' !! "total_likes" = Some (Analytics.SInt likes) /\
    stats !! "total_comments" = Some (Analytics.SInt comments) /\
    stats' !! "total_comments" = Some (Analytics.SInt comments) /\
    stats !! "total_views" = Some (Analytics.SInt views) /\
    stats' !! "total_views" = Some (Analytics.SInt views).
Proof.
  intros Hnone. unfold Analytics.get_post in Hnone.
  unfold Analytics.track_post. rewrite Hnone. cbn [fst].
  set (post := Analytics.mkPost _ _ _ _ _ _ _ _ _ _ _ _ _ _ _ _).
  assert (forall f : Analytics.Post -> Z, f post = 0 ->
            Py.sum_int (map f (db ++ [post])) = Py.sum_int (map f db)) as Hsum.
  { intros f Hf. unfold Py.sum_int. rewrite map_app, fold_left_app. simpl.
    rewrite Hf. lia. }
  assert (forall l : Analytics.Ledger,
            l <> [] ->
            Analytics.get_statistics l !! "total_posts"
              = Some (Analytics.SInt (Z.of_nat (length l))) /\
            Analytics.get_statistics l !! "total_likes"
              = Some (Analytics.SInt (Py.sum_int (map Analytics.likes l))) /\
            Analytics.get_statistics l !! "total_comments"
              = Some (Analytics.SInt (Py.sum_int (map Analytics.comments l))) /\
            Analytics.get_statistics l !! "total_views"
              = Some (Analytics.SInt (Py.sum_int (map Analytics.views l))))
    as Hstats.
  { intros [|p l] Hl; [congruence|].
    unfold Analytics.get_statistics, Py.float_div_int, Analytics.column_mean.
    assert ((Z.of_nat (length (p :: l)) =? 0) = false) as ->
      by (apply Z.eqb_neq; simpl; lia).
    repeat split; by simplify_map_eq. }
  destruct (Hstats (db ++ [post])) as (H1 & H2 & H3 & H4);
    [now destruct db|].
  exists (Z.of_nat (length db)), (Py.sum_int (map Analytics.likes db)),
    (Py.sum_int (map Analytics.comments db)),
    (Py.sum_int (map Analytics.views db)).
  rewrite H1, H2, H3, H4, !Hsum by reflexivity.
  rewrite length_app. simpl.
  replace (Z.of_nat (length db + 1)) with (Z.of_nat (length db) + 1) by lia.
  destruct db as [|p l].
  - repeat split; by vm_compute.
  - destruct (Hstats (p :: l)) as (G1 & G2 & G3 & G4); [discriminate|].
    rewrite G1, G2, G3, G4. repeat split.
Qed.

Lemma statistics_after_track_post_witness :
  Analytics.get_statistics Sample.ledger_one !! "total_posts"
    = Some (Analytics.SInt 1) /\
  Analytics.get_statistics
    (Analytics.track_post (Sample.post_data "b") 10 11 Sample.ledger_one).1
    !! "total_posts" = Some (Analytics.SInt 2).
Proof.
  destruct (statistics_after_track_post (Sample.post_data "b") 10 11
              Sample.ledger_one eq_refl)
    as (n & l & c & v & H1 & H2 & _).
  assert (n = 1) as -> by (vm_compute in H1; congruence).
  split; assumption.
Defined.

(** ** The publishing client *)

Section PosterFacts.
Import InstagramPoster.
Variable pf : Platform.
Variable kind : PostType.

(** What [post] does to the counters of a poster with a client, and where
    its results come from. *)
Lemma post_logged_in (depth : nat) (st : Poster) :
  client st = true ->
  let r := post pf kind depth st in
  (uploads st <= uploads r.1 <= uploads st + depth)%nat /\
  (logins st <= logins r.1 <= logins st + depth)%nat /\
  (r.2 = Py.Raise -> uploads r.1 = (uploads st + depth)%nat) /\
  (forall info, r.2 = Py.Ret (Some info) ->
     exists m, (uploads st < uploads r.1)%nat /\
               upload_outcome pf (uploads r.1 - 1) = UploadOk m /\
               info = post_info kind m).
Proof.
  revert st. induction depth as [|depth IH]; intros st Hclient.
  - simpl. repeat split; try lia. discriminate.
  - cbn [post]. rewrite Hclient. cbn [negb].
    destruct (upload_outcome pf (uploads st)) as [m| |] eqn:Eo; cbv zeta.
    + simpl. repeat split; try lia; try discriminate.
      intros info [= <-]. exists m. rewrite Nat.sub_0_r, Eo.
      repeat split. lia.
    + unfold login. destruct (credentials pf); simpl.
      * destruct (login_outcome pf (logins st)).
        -- specialize (IH {| client := true; logins := S (logins st);
                             uploads := S (uploads st) |} eq_refl).
           cbv zeta in IH. simpl in IH.
           destruct IH as (I1 & I2 & I3 & I4).
           split; [lia|]. split; [lia|]. split.
           ++ intros HR. rewrite (I3 HR). lia.
           ++ intros info Hi. destruct (I4 info Hi) as (m & Hlt & Hm & ->).
              exists m. repeat split; [lia|exact Hm].
        -- simpl. repeat split; try lia; discriminate.
      * simpl. repeat split; try lia; discriminate.
    + simpl. repeat split; try lia; discriminate.
Qed.

(** A poster without a client logs in first; when that succeeds it goes on
    as a poster with a client does. *)
Lemma post_first_login (depth : nat) (st : Poster) :
  client st = false ->
  post pf kind (S depth) st =
  if credentials pf then
    if login_outcome pf (logins st) then
      post pf kind (S depth)
        {| client := true; logins := S (logins st); uploads := uploads st |}
    else ({| client := true; logins := S (logins st); uploads := uploads st |},
          Py.Ret None)
  else (st, Py.Ret None).
Proof.
  intros Hclient. cbn [post]. rewrite Hclient. unfold login at 1.
  destruct (credentials pf); [|reflexivity]. cbn [negb].
  destruct (login_outcome pf (logins st)); reflexivity.
Qed.

End PosterFacts.

(** X9: a post identifier that the publish operation returns is never made
    up: it is the identifier of the media object that the last upload call
    of the invocation returned, and at least one upload call was made. *)
Theorem post_identifier_comes_from_upload (pf : InstagramPoster.Platform)
    (kind : InstagramPoster.PostType) (depth : nat)
    (st : InstagramPoster.Poster) (info : InstagramPoster.PostInfo) :
  (InstagramPoster.post pf kind depth st).2 = Py.Ret (Some info) ->
  let st' := (InstagramPoster.post pf kind depth st).1 in
  exists m,
    (InstagramPoster.uploads st < InstagramPoster.uploads st')%nat /\
    InstagramPoster.upload_outcome pf (InstagramPoster.uploads st' - 1)
      = InstagramPoster.UploadOk m /\
    info = InstagramPoster.post_info kind m.
Proof.
  destruct (InstagramPoster.client st) eqn:Ec.
  - intros H. now apply (post_logged_in pf kind depth st Ec).
  - destruct depth as [|depth]; [discriminate|].
    rewrite (post_first_login pf kind depth st Ec).
    destruct (InstagramPoster.credentials pf); [|discriminate].
    destruct (InstagramPoster.login_outcome pf _); [|discriminate].
    intros H.
    now apply (post_logged_in pf kind (S depth)
                 {| InstagramPoster.client := true;
                    InstagramPoster.logins := S (InstagramPoster.logins st);
                    InstagramPoster.uploads := InstagramPoster.uploads st |}
                 eq_refl).
Qed.

Lemma post_identifier_comes_from_upload_witness :
  exists m,
    InstagramPoster.upload_outcome Sample.platform_reauth_twice 2
      = InstagramPoster.UploadOk m /\
    (InstagramPoster.post Sample.platform_reauth_twice InstagramPoster.Reel
       1000 Sample.logged_in).2
    = Py.Ret (Some (InstagramPoster.post_info InstagramPoster.Reel m)).
Proof.
  destruct (InstagramPoster.post Sample.platform_reauth_twice
              InstagramPoster.Reel 1000 Sample.logged_in) as [st' res] eqn:E.
  assert (exists info, res = Py.Ret (Some info)) as [info ->]
    by (vm_compute in E; injection E as _ <-; eauto).
  pose proof (post_identifier_comes_from_upload Sample.platform_reauth_twice
                InstagramPoster.Reel 1000 Sample.logged_in info) as H.
  rewrite E in H. destruct (H eq_refl) as (m & _ & Hm & ->).
  assert (InstagramPoster.uploads st' = 3%nat) as Hu
    by (vm_compute in E; injection E as <- _; reflexivity).
  cbn [fst] in Hm. rewrite Hu in Hm. exists m. split; [exact Hm|reflexivity].
Defined.

(** X10: one invocation of the publish operation makes at most as many
    upload calls as the recursion depth it is given and at most one login
    more than that; it raises only when every one of these upload calls
    signalled that a login is required. *)
Theorem post_calls_bounded_by_depth (pf : InstagramPoster.Platform)
    (kind : InstagramPoster.PostType) (depth : nat)
    (st : InstagramPoster.Poster) :
  let r := InstagramPoster.post pf kind depth st in
  (InstagramPoster.uploads st <= InstagramPoster.uploads r.1
   <= InstagramPoster.uploads st + depth)%nat /\
  (InstagramPoster.logins st <= InstagramPoster.logins r.1
   <= InstagramPoster.logins st + depth + 1)%nat /\
  (r.2 = Py.Raise ->
   InstagramPoster.uploads r.1 = (InstagramPoster.uploads st + depth)%nat).
Proof.
  destruct (InstagramPoster.client st) eqn:Ec.
  - destruct (post_logged_in pf kind depth st Ec) as (H1 & H2 & H3 & _).
    cbv zeta. repeat split; try lia. exact H3.
  - destruct depth as [|depth]; [simpl; repeat split; lia|].
    rewrite (post_first_login pf kind depth st Ec).
    destruct (InstagramPoster.credentials pf);
      [|simpl; repeat split; try lia; discriminate].
    destruct (InstagramPoster.login_outcome pf _);
      [|simpl; repeat split; try lia; discriminate].
    destruct (post_logged_in pf kind (S depth)
                {| InstagramPoster.client := true;
                   InstagramPoster.logins := S (InstagramPoster.logins st);
                   InstagramPoster.uploads := InstagramPoster.uploads st |}
                eq_refl) as (H1 & H2 & H3 & _).
    cbv zeta in *. simpl in *. repeat split; try lia. exact H3.
Qed.

(** X11: without configured credentials a poster that has no client never
    reaches the platform: [login] fails, publishing and the metrics query
    return None, and the poster is as it was. *)
Theorem no_credentials_no_platform_call (pf : InstagramPoster.Platform)
    (kind : InstagramPoster.PostType) (depth : nat)
    (media_info : string -> Py.PyResult InstagramPoster.MediaInfo)
    (media_id : string) (st : InstagramPoster.Poster) :
  InstagramPoster.credentials pf = false ->
  InstagramPoster.client st = false ->
  InstagramPoster.login pf st = (st, false) /\
  InstagramPoster.post pf kind (S depth) st = (st, Py.Ret None) /\
  InstagramPoster.get_media_info pf media_info media_id st = (st, None).
Proof.
  intros Hcred Hclient. split; [|split].
  - unfold InstagramPoster.login. now rewrite Hcred.
  - rewrite (post_first_login pf kind depth st Hclient). now rewrite Hcred.
  - unfold InstagramPoster.get_media_info, InstagramPoster.login.
    now rewrite Hclient, Hcred.
Qed.

(** X12: a login that the platform refuses still leaves a client on the
    poster, so the next publish call does not log in again: it goes straight
    to the upload, and unless that signals that a login is required the
    number of logins stays as it is. *)
Theorem failed_login_is_not_repeated (pf : InstagramPoster.Platform)
    (kind : InstagramPoster.PostType) (d1 d2 : nat)
    (st : InstagramPoster.Poster) :
  InstagramPoster.credentials pf = true ->
  InstagramPoster.client st = false ->
  InstagramPoster.login_outcome pf (InstagramPoster.logins st) = false ->
  InstagramPoster.upload_outcome pf (InstagramPoster.uploads st)
    <> InstagramPoster.LoginRequired ->
  let r1 := InstagramPoster.post pf kind (S d1) st in
  let r2 := InstagramPoster.post pf kind (S d2) r1.1 in
  r1.2 = Py.Ret None /\
  InstagramPoster.client r1.1 = true /\
  InstagramPoster.uploads r1.1 = InstagramPoster.uploads st /\
  InstagramPoster.logins r2.1 = S (InstagramPoster.logins st) /\
  InstagramPoster.uploads r2.1 = S (InstagramPoster.uploads st) /\
  r2.2 = Py.Ret (Spec.result_of_outcome kind
                   (InstagramPoster.upload_outcome pf
                      (InstagramPoster.uploads st))).
Proof.
  intros Hcred Hclient Hlogin Hup r1 r2.
  assert (r1 = ({| InstagramPoster.client := true;
                   InstagramPoster.logins := S (InstagramPoster.logins st);
                   InstagramPoster.uploads := InstagramPoster.uploads st |},
                Py.Ret None)) as Hr1.
  { unfold r1. rewrite (post_first_login pf kind d1 st Hclient).
    now rewrite Hcred, Hlogin. }
  unfold r2. rewrite Hr1. cbn [fst snd].
  rewrite post_other_outcome by (try reflexivity; exact Hup).
  repeat split.
Qed.

Lemma no_credentials_no_platform_call_witness :
  InstagramPoster.post Sample.platform_no_credentials InstagramPoster.Reel
    1000 (Agent.poster (Sample.fresh []))
  = (Agent.poster (Sample.fresh []), Py.Ret None).
Proof.
  now apply (no_credentials_no_platform_call Sample.platform_no_credentials
               InstagramPoster.Reel 999 Sample.media_info_ok "m"
               (Agent.poster (Sample.fresh [])) eq_refl eq_refl).
Defined.

Lemma failed_login_is_not_repeated_witness :
  let p := Agent.poster (Sample.fresh []) in
  let r1 := InstagramPoster.post Sample.platform_login_refused
              InstagramPoster.Reel 1000 p in
  let r2 := InstagramPoster.post Sample.platform_login_refused
              InstagramPoster.Reel 1000 r1.1 in
  InstagramPoster.logins r2.1 = 1%nat /\ InstagramPoster.uploads r2.1 = 1%nat.
Proof.
  intros p r1 r2.
  destruct (failed_login_is_not_repeated Sample.platform_login_refused
              InstagramPoster.Reel 999 999 p eq_refl eq_refl eq_refl)
    as (_ & _ & _ & Hl & Hu & _); [discriminate|].
  split; assumption.
Defined.

(** ** The pipeline over several cycles *)

(** X13: a cycle in test mode changes nothing: the ledger, the poster and
    the log of calls are as before, whatever the collaborators answer; the
    metrics refresh in test mode changes nothing either. *)
Theorem test_mode_changes_nothing (w : Agent.Collaborators)
    (cfg : Agent.Settings)
    (media_info : string -> Py.PyResult InstagramPoster.MediaInfo)
    (st : Agent.State) :
  (Agent.run_once w cfg true st).1 = st /\
  Agent.update_analytics w media_info true st = st.
Proof.
  split; [|reflexivity].
  destruct (run_once_cases w cfg true st)
    as [[Hst _] | [(Ht & _) | (Ht & _)]];
    [exact Hst|discriminate|discriminate].
Qed.

(** X14: a cycle never removes or rewrites a record: the ledger after the
    cycle is the ledger before it followed by at most one new record, the
    new record is for a video that had none, and the video ids stay
    pairwise distinct. *)
Theorem run_once_appends_at_most_one (w : Agent.Collaborators)
    (cfg : Agent.Settings) (test_mode : bool) (st : Agent.State) :
  let st' := (Agent.run_once w cfg test_mode st).1 in
  exists new,
    Agent.ledger st' = Agent.ledger st ++ new /\
    (length new <= 1)%nat /\
    (forall record, record ∈ new ->
       Analytics.get_post (Analytics.video_id record) (Agent.ledger st)
       = None) /\
    (NoDup (map Analytics.video_id (Agent.ledger st)) ->
     NoDup (map Analytics.video_id (Agent.ledger st'))).
Proof.
  destruct (run_once_cases w cfg test_mode st)
    as [[Hst _] | [(_ & p' & res & _ & _ & Hr)
                  | (_ & p' & info & video & cd & _ & Hr)]]; cbv zeta.
  - rewrite Hst. exists []. rewrite app_nil_r. repeat split; auto.
    intros ? []%elem_of_nil.
  - rewrite Hr. exists []. cbn [fst Agent.ledger]. rewrite app_nil_r.
    repeat split; auto. intros ? []%elem_of_nil.
  - rewrite Hr. cbn [fst Agent.ledger].
    set (pd := Spec.post_data_of cfg video cd info).
    assert (exists new,
              (Analytics.track_post pd (Agent.clock w (Agent.ticks st))
                 (Agent.clock w (S (Agent.ticks st))) (Agent.ledger st)).1
              = Agent.ledger st ++ new /\
              (length new <= 1)%nat /\
              (forall record, record ∈ new ->
                 Analytics.get_post (Analytics.video_id record)
                   (Agent.ledger st) = None)) as (new & Hnew & Hlen & Hrec).
    { unfold Analytics.track_post, Analytics.get_post.
      destruct (Analytics.query_first (Analytics.pd_video_id pd)
                  (Agent.ledger st)) eqn:E; cbn [fst].
      - exists []. rewrite app_nil_r. repeat split; auto.
        intros ? []%elem_of_nil.
      - eexists [_]. repeat split; auto.
        intros record [->|[]%elem_of_nil]%elem_of_cons. exact E. }
    exists new. repeat split; try assumption.
    intros Hnd. now apply ledger_ids_stay_unique.
Qed.

(** What a cycle logs for the ledger: nothing, with the ledger unchanged, or
    the id of one video that had no record, with the record appended. *)
Lemma run_once_tracked (w : Agent.Collaborators) (cfg : Agent.Settings)
    (test_mode : bool) (st : Agent.State) :
  let st' := (Agent.run_once w cfg test_mode st).1 in
  exists events,
    Agent.trace st' = Agent.trace st ++ events /\
    ((Spec.tracked_ids events = [] /\ Agent.ledger st' = Agent.ledger st) \/
     (exists record,
        Spec.tracked_ids events = [Analytics.video_id record] /\
        Analytics.get_post (Analytics.video_id record) (Agent.ledger st)
          = None /\
        Agent.ledger st' = Agent.ledger st ++ [record])).
Proof.
  cbv zeta.
  assert (Agent.trace st = Agent.trace st ++ []) as Hnil
    by now rewrite app_nil_r.
  unfold Agent.run_once, Agent.run_once_body, Agent.bind, Agent.lift,
    Agent.gets, Agent.ret.
  destruct (Agent.search_videos w) as [[|v0 vs]|]; cbv beta iota;
    try (exists []; split; [exact Hnil|left; split; reflexivity]).
  destruct (Agent._get_unposted_video (v0 :: vs) (Agent.ledger st))
    as [video|] eqn:Efind; cbv beta iota;
    try (exists []; split; [exact Hnil|left; split; reflexivity]).
  destruct (Agent.download_video w video) as [downloaded|]; cbv beta iota;
    try (exists []; split; [exact Hnil|left; split; reflexivity]).
  destruct (Agent.truthy downloaded) as [video_path|]; cbv beta iota;
    try (exists []; split; [exact Hnil|left; split; reflexivity]).
  destruct (Agent.process_video w video_path (Agent.v_id video))
    as [processed|]; cbv beta iota;
    try (exists []; split; [exact Hnil|left; split; reflexivity]).
  destruct (Agent.truthy processed) as [edited_path|]; cbv beta iota;
    try (exists []; split; [exact Hnil|left; split; reflexivity]).
  destruct (Agent.generate_caption w video) as [cd|]; cbv beta iota;
    try (exists []; split; [exact Hnil|left; split; reflexivity]).
  destruct test_mode; cbv beta iota;
    [exists []; split; [exact Hnil|left; split; reflexivity]|].
  unfold Agent.publish. rewrite publish_call.
  destruct (InstagramPoster.post (Agent.platform w) _ (Agent.recursion_limit w)
              (Agent.poster st)) as [p' [[info|]|]]; cbv beta iota;
    try (eexists [_]; split; [reflexivity|left; split; reflexivity]).
  assert (Analytics.get_post (Agent.v_id video) (Agent.ledger st) = None)
    as Hnone.
  { unfold Agent._get_unposted_video in Efind.
    apply find_some in Efind as [_ Hf].
    now destruct (Analytics.get_post (Agent.v_id video) (Agent.ledger st)). }
  fold (Spec.post_data_of cfg video cd info).
  destruct (track_post_new (Spec.post_data_of cfg video cd info)
              (Agent.clock w (Agent.ticks st))
              (Agent.clock w (S (Agent.ticks st))) (Agent.ledger st) Hnone)
    as (record & Htrack & Hvid & _).
  unfold Agent.track, Agent._cleanup_files, Agent.ret.
  cbn [Agent.ledger Agent.poster Agent.ticks Agent.trace]. rewrite Htrack.
  exists [Agent.EvPublish (Py.Ret (Some info));
          Agent.EvTrack (Spec.post_data_of cfg video cd info)].
  split.
  - destruct (Agent.cleanup_downloads cfg); cbn [fst Agent.trace];
      now rewrite <- app_assoc.
  - right. exists record. rewrite Hvid.
    split; [reflexivity|]. split; [exact Hnone|].
    destruct (Agent.cleanup_downloads cfg); reflexivity.
Qed.

(** X15: a cycle records only a video that had no record when the cycle
    began, and the video has a record afterwards; hence over any run of
    cycles, whatever the collaborators answer in each, no video id is
    recorded twice. *)
Theorem no_video_recorded_twice
    (cycles : list (Agent.Collaborators * Agent.Settings * bool))
    (st : Agent.State) :
  NoDup (Spec.tracked_ids (Agent.trace st)) ->
  (forall vid, vid ∈ Spec.tracked_ids (Agent.trace st) ->
     is_Some (Analytics.get_post vid (Agent.ledger st))) ->
  let st' := Spec.run_cycles cycles st in
  NoDup (Spec.tracked_ids (Agent.trace st')) /\
  (forall vid, vid ∈ Spec.tracked_ids (Agent.trace st') ->
     is_Some (Analytics.get_post vid (Agent.ledger st'))).
Proof.
  revert st. induction cycles as [|[[w cfg] tm] cycles IH]; intros st Hnd Hin;
    [split; assumption|].
  cbn [Spec.run_cycles fold_left fst snd].
  destruct (run_once_tracked w cfg tm st)
    as (events & Htrace & [[Hnone Hledger] | (record & Hone & Hnew & Hledger)]);
    cbv zeta in *.
  - apply IH; rewrite Htrace; unfold Spec.tracked_ids in *;
      rewrite flat_map_app, Hnone, app_nil_r; [exact Hnd|].
    intros vid Hvid. rewrite Hledger. now apply Hin.
  - apply IH; rewrite Htrace; unfold Spec.tracked_ids in *;
      rewrite flat_map_app, Hone.
    + apply NoDup_app. split; [exact Hnd|]. split; [|apply NoDup_singleton].
      intros vid Hvid [->|[]%elem_of_nil]%elem_of_cons.
      destruct (Hin _ Hvid) as [p Hp]. congruence.
    + intros vid [Hvid|[->|[]%elem_of_nil]%elem_of_cons]%elem_of_app;
        rewrite Hledger; unfold Analytics.get_post in *;
        rewrite query_first_app.
      * destruct (Hin _ Hvid) as [p Hp]. rewrite Hp. eauto.
      * rewrite Hnew. unfold Analytics.query_first. simpl.
        rewrite String.eqb_refl. eauto.
Qed.

Lemma no_video_recorded_twice_witness :
  let w := Sample.world [Sample.video_a; Sample.video_b] Sample.platform_ok in
  let cycle := (w, Sample.settings, false) in
  Spec.tracked_ids
    (Agent.trace (Spec.run_cycles [cycle; cycle; cycle] (Sample.fresh [])))
  = ["1"; "2"] /\
  NoDup (Spec.tracked_ids
           (Agent.trace
              (Spec.run_cycles [cycle; cycle; cycle] (Sample.fresh [])))).
Proof.
  intros w cycle. split; [by vm_compute|].
  apply (no_video_recorded_twice [cycle; cycle; cycle] (Sample.fresh [])).
  - constructor.
  - intros vid []%elem_of_nil.
Defined.

(** ** The metrics refresh job *)

Section RefreshJob.
Import Agent.
Variable w : Collaborators.
Variable media_info : string -> Py.PyResult InstagramPoster.MediaInfo.

Lemma get_media_info_uploads (media_id : string)
    (p : InstagramPoster.Poster) :
  InstagramPoster.uploads
    (InstagramPoster.get_media_info (platform w) media_info media_id p).1
  = InstagramPoster.uploads p.
Proof.
  unfold InstagramPoster.get_media_info, InstagramPoster.login.
  destruct (InstagramPoster.client p); simpl.
  - destruct (media_info media_id); reflexivity.
  - destruct (InstagramPoster.credentials (platform w)); simpl;
      [|reflexivity].
    destruct (InstagramPoster.login_outcome _ _); simpl; [|reflexivity].
    destruct (media_info media_id); reflexivity.
Qed.

(** The call of [update_post_metrics] of a round keeps the rows, their
    order and their identity, whatever the platform reported. *)
Lemma update_post_metrics_reported_keeps (vid : string) (l c : Z)
    (v : option Z) (now : Analytics.datetime) (db : Analytics.Ledger) :
  let db' := (Analytics.update_post_metrics_reported vid l c v now db).1.1 in
  map Analytics.video_id db' = map Analytics.video_id db /\
  map Analytics.instagram_media_id db' = map Analytics.instagram_media_id db /\
  map Analytics.posted_at db' = map Analytics.posted_at db /\
  (forall vid', vid' <> vid ->
     Analytics.get_post vid' db' = Analytics.get_post vid' db).
Proof.
  unfold Analytics.update_post_metrics_reported.
  destruct v as [v|]; cbn [fst]; [|repeat split].
  destruct (update_post_metrics_keeps vid
              (<["likes" := l]> (<["comments" := c]> (<["views" := v]> ∅)))
              now db) as (H1 & H2 & H3 & _ & H5).
  repeat split; assumption.
Qed.

(** One round refreshes at most the record of the post it is given. *)
Lemma update_analytics_post_spec (st : State) (post : Analytics.Post) :
  let st' := update_analytics_post w media_info st post in
  map Analytics.video_id (ledger st') = map Analytics.video_id (ledger st) /\
  map Analytics.instagram_media_id (ledger st')
    = map Analytics.instagram_media_id (ledger st) /\
  map Analytics.posted_at (ledger st') = map Analytics.posted_at (ledger st) /\
  InstagramPoster.uploads (poster st') = InstagramPoster.uploads (poster st) /\
  trace st' = trace st /\
  (forall vid, vid <> Analytics.video_id post ->
     Analytics.get_post vid (ledger st') = Analytics.get_post vid (ledger st)).
Proof.
  unfold update_analytics_post.
  destruct (Analytics.instagram_media_id post) as [|c media_id] eqn:Eid;
    [repeat split|].
  pose proof (get_media_info_uploads (String c media_id) (poster st)) as Hup.
  destruct (InstagramPoster.get_media_info (platform w) media_info
              (String c media_id) (poster st)) as [poster' [m|]];
    cbn [fst] in Hup; [|repeat split; exact Hup].
  pose proof (update_post_metrics_reported_keeps (Analytics.video_id post)
                (InstagramPoster.m_likes m) (InstagramPoster.m_comments m)
                (InstagramPoster.m_views m) (clock w (ticks st))
                (ledger st)) as Hkeep.
  destruct (Analytics.update_post_metrics_reported _ _ _ _ _ (ledger st))
    as [[db' found] clock_read].
  cbv zeta in Hkeep. cbn [fst] in Hkeep.
  destruct Hkeep as (H1 & H2 & H3 & H5).
  cbn [ledger poster trace]. repeat split; assumption.
Qed.

Lemma update_analytics_fold (posts : list Analytics.Post) (st : State) :
  let st' := fold_left (update_analytics_post w media_info) posts st in
  map Analytics.video_id (ledger st') = map Analytics.video_id (ledger st) /\
  map Analytics.instagram_media_id (ledger st')
    = map Analytics.instagram_media_id (ledger st) /\
  map Analytics.posted_at (ledger st') = map Analytics.posted_at (ledger st) /\
  InstagramPoster.uploads (poster st') = InstagramPoster.uploads (poster st) /\
  trace st' = trace st /\
  (forall vid, vid ∉ map Analytics.video_id posts ->
     Analytics.get_post vid (ledger st') = Analytics.get_post vid (ledger st)).
Proof.
  revert st. induction posts as [|post posts IH]; intros st;
    [repeat split|].
  cbn [fold_left].
  destruct (update_analytics_post_spec st post) as (A1 & A2 & A3 & A4 & A5 & A6).
  destruct (IH (update_analytics_post w media_info st post))
    as (B1 & B2 & B3 & B4 & B5 & B6).
  cbv zeta in *.
  split; [congruence|]. split; [congruence|]. split; [congruence|].
  split; [congruence|]. split; [congruence|].
  intros vid Hvid. cbn [map] in Hvid. apply not_elem_of_cons in Hvid as [Hne Hnot].
  rewrite B6 by exact Hnot. now apply A6.
Qed.

End RefreshJob.

(** X16: the metrics refresh job never publishes and never touches the
    identity of a record: it makes no upload call and logs nothing, and the
    video ids, the platform media ids and the publication times of the
    ledger are as before, in the same order. *)
Theorem update_analytics_keeps_records (w : Agent.Collaborators)
    (media_info : string -> Py.PyResult InstagramPoster.MediaInfo)
    (test_mode : bool) (st : Agent.State) :
  let st' := Agent.update_analytics w media_info test_mode st in
  map Analytics.video_id (Agent.ledger st')
    = map Analytics.video_id (Agent.ledger st) /\
  map Analytics.instagram_media_id (Agent.ledger st')
    = map Analytics.instagram_media_id (Agent.ledger st) /\
  map Analytics.posted_at (Agent.ledger st')
    = map Analytics.posted_at (Agent.ledger st) /\
  InstagramPoster.uploads (Agent.poster st')
    = InstagramPoster.uploads (Agent.poster st) /\
  Agent.trace st' = Agent.trace st.
Proof.
  unfold Agent.update_analytics. destruct test_mode; [repeat split|].
  destruct (update_analytics_fold w media_info
              (Analytics.get_all_posts 10 (Agent.ledger st)) st)
    as (H1 & H2 & H3 & H4 & H5 & _).
  repeat split; assumption.
Qed.

(** X17: the metrics refresh job works on the ten most recent posts only:
    a record whose video id is not among them is left exactly as it was. *)
Theorem update_analytics_only_recent (w : Agent.Collaborators)
    (media_info : string -> Py.PyResult InstagramPoster.MediaInfo)
    (test_mode : bool) (st : Agent.State) (vid : string) :
  vid ∉ map Analytics.video_id
          (Analytics.get_all_posts 10 (Agent.ledger st)) ->
  Analytics.get_post vid
    (Agent.ledger (Agent.update_analytics w media_info test_mode st))
  = Analytics.get_post vid (Agent.ledger st).
Proof.
  intros Hvid. unfold Agent.update_analytics.
  destruct test_mode; [reflexivity|].
  now apply update_analytics_fold.
Qed.

Section RefreshJobValues.
Import Agent.
Variable w : Collaborators.
Variable media_info : string -> Py.PyResult InstagramPoster.MediaInfo.

Lemma query_first_elem (p : Analytics.Post) (db : Analytics.Ledger) :
  p ∈ db -> is_Some (Analytics.query_first (Analytics.video_id p) db).
Proof.
  unfold Analytics.query_first.
  induction db as [|q db IH]; simpl; [intros []%elem_of_nil|].
  intros [->|Hin]%elem_of_cons.
  - rewrite String.eqb_refl. eauto.
  - destruct (String.eqb _ _); eauto.
Qed.

Lemma update_analytics_post_stores (st : State) (post : Analytics.Post)
    (media : InstagramPoster.MediaInfo) :
  InstagramPoster.client (poster st) = true ->
  Analytics.instagram_media_id post <> "" ->
  media_info (Analytics.instagram_media_id post) = Py.Ret media ->
  is_Some (Analytics.get_post (Analytics.video_id post) (ledger st)) ->
  Spec.reported media
    (Analytics.get_post (Analytics.video_id post) (ledger st))
    (Analytics.get_post (Analytics.video_id post)
       (ledger (update_analytics_post w media_info st post))).
Proof.
  intros Hclient Hid Hmedia [p Hp]. unfold update_analytics_post.
  destruct (Analytics.instagram_media_id post) as [|c media_id] eqn:Eid;
    [congruence|].
  unfold InstagramPoster.get_media_info. rewrite Hclient, Hmedia.
  cbn [negb InstagramPoster.m_likes InstagramPoster.m_comments
       InstagramPoster.m_views].
  unfold Analytics.update_post_metrics_reported, Analytics.get_post in *.
  split; [|split].
  - intros v Hviews Il Ic Iv. rewrite Hviews. cbn [ledger].
    set (m := <["likes" := _]> _).
    assert (m !! "likes" = Some (InstagramPoster.like_count media) /\
            m !! "comments" = Some (InstagramPoster.comment_count media) /\
            m !! "views" = Some v) as (Hl & Hc & Hv)
      by (unfold m; repeat split; by simplify_map_eq).
    destruct (update_post_metrics_in_range (Analytics.video_id post) m
                _ _ v (clock w (ticks st)) (ledger st) p Hl Hc Hv Il Ic Iv Hp)
      as (p' & -> & Hq & Hl' & Hc' & Hv' & _).
    exists p'. repeat split; assumption.
  - intros ->. reflexivity.
  - intros v Hviews Hout. rewrite Hviews. cbn [ledger].
    set (m := <["likes" := _]> _).
    assert (m !! "likes" = Some (InstagramPoster.like_count media) /\
            m !! "comments" = Some (InstagramPoster.comment_count media) /\
            m !! "views" = Some v) as (Hl & Hc & Hv)
      by (unfold m; repeat split; by simplify_map_eq).
    now rewrite (update_post_metrics_out_of_range (Analytics.video_id post) m
                   _ _ v (clock w (ticks st)) (ledger st) Hl Hc Hv Hout).
Qed.

Lemma update_analytics_post_client (st : State) (post : Analytics.Post) :
  InstagramPoster.client (poster st) = true ->
  poster (update_analytics_post w media_info st post) = poster st.
Proof.
  intros Hclient. unfold update_analytics_post.
  destruct (Analytics.instagram_media_id post) as [|c media_id];
    [reflexivity|].
  unfold InstagramPoster.get_media_info. rewrite Hclient. cbn [negb].
  destruct (media_info (String c media_id)); [|reflexivity].
  destruct (Analytics.update_post_metrics_reported _ _ _ _ _ _) as [[? ?] ?].
  reflexivity.
Qed.

Lemma update_analytics_fold_stores (posts : list Analytics.Post) (st : State)
    (post : Analytics.Post) (media : InstagramPoster.MediaInfo) :
  InstagramPoster.client (poster st) = true ->
  NoDup (map Analytics.video_id posts) ->
  post ∈ posts ->
  Analytics.instagram_media_id post <> "" ->
  media_info (Analytics.instagram_media_id post) = Py.Ret media ->
  is_Some (Analytics.get_post (Analytics.video_id post) (ledger st)) ->
  Spec.reported media
    (Analytics.get_post (Analytics.video_id post) (ledger st))
    (Analytics.get_post (Analytics.video_id post)
       (ledger (fold_left (update_analytics_post w media_info) posts st))).
Proof.
  intros Hclient Hnd Hin Hid Hmedia. revert st Hclient.
  induction posts as [|q posts IH]; intros st Hclient Hsome;
    [now apply elem_of_nil in Hin|].
  cbn [map] in Hnd. apply NoDup_cons in Hnd as [Hq Hnd].
  cbn [fold_left]. apply elem_of_cons in Hin as [->|Hin].
  - destruct (update_analytics_fold w media_info posts
                (update_analytics_post w media_info st q))
      as (_ & _ & _ & _ & _ & Hother).
    rewrite Hother by exact Hq.
    now apply update_analytics_post_stores.
  - destruct (update_analytics_post_spec w media_info st q)
      as (_ & _ & _ & _ & _ & Hother).
    assert (Analytics.video_id post <> Analytics.video_id q) as Hne.
    { intros Heq. apply Hq. rewrite <- Heq.
      apply list_elem_of_fmap. now exists post. }
    rewrite <- (Hother _ Hne). apply IH; try assumption.
    + now rewrite update_analytics_post_client.
    + now rewrite (Hother _ Hne).
Qed.

End RefreshJobValues.

(** X18: after the metrics refresh job of a logged-in agent, each of the
    ten most recent records with a media id whose media the platform
    reports holds the reported likes and comments and the reported views
    (the play count when the view count is missing, None or zero), when
    the views are an [int] and the three counts fit the 64-bit columns.
    When the reported views are None (a view count that is missing, None
    or zero with a play count that is None), or when a count does not fit
    its column, the refresh of that record is rolled back and the record
    is as it was. *)
Theorem update_analytics_stores_reported_metrics (w : Agent.Collaborators)
    (media_info : string -> Py.PyResult InstagramPoster.MediaInfo)
    (st : Agent.State) (post : Analytics.Post)
    (media : InstagramPoster.MediaInfo) :
  InstagramPoster.client (Agent.poster st) = true ->
  NoDup (map Analytics.video_id (Agent.ledger st)) ->
  post ∈ Analytics.get_all_posts 10 (Agent.ledger st) ->
  Analytics.instagram_media_id post <> "" ->
  media_info (Analytics.instagram_media_id post) = Py.Ret media ->
  let before :=
    Analytics.get_post (Analytics.video_id post) (Agent.ledger st) in
  let after :=
    Analytics.get_post (Analytics.video_id post)
      (Agent.ledger (Agent.update_analytics w media_info false st)) in
  (forall v,
     InstagramPoster.views_of media = Some v ->
     Analytics.int64 (InstagramPoster.like_count media) = true ->
     Analytics.int64 (InstagramPoster.comment_count media) = true ->
     Analytics.int64 v = true ->
     exists record,
       after = Some record /\
       Analytics.likes record = InstagramPoster.like_count media /\
       Analytics.comments record = InstagramPoster.comment_count media /\
       Analytics.views record = v) /\
  (InstagramPoster.views_of media = None -> after = before) /\
  (forall v,
     InstagramPoster.views_of media = Some v ->
     Analytics.int64 (InstagramPoster.like_count media)
     && Analytics.int64 (InstagramPoster.comment_count media)
     && Analytics.int64 v = false ->
     after = before).
Proof.
  intros Hclient Hnd Hin Hid Hmedia.
  destruct (sql_limit_prefix 10
              (Py.sorted_desc_Z Analytics.posted_at (Agent.ledger st)))
    as [rest Hrest].
  assert (Permutation
            (Analytics.get_all_posts 10 (Agent.ledger st) ++ rest)
            (Agent.ledger st)) as Hperm
    by (unfold Analytics.get_all_posts; rewrite <- Hrest;
        apply sorted_desc_Z_perm).
  unfold Agent.update_analytics.
  apply update_analytics_fold_stores; try assumption.
  - assert (NoDup (map Analytics.video_id
                     (Analytics.get_all_posts 10 (Agent.ledger st) ++ rest)))
      as Hall by (rewrite Hperm; exact Hnd).
    rewrite map_app in Hall. now apply NoDup_app in Hall as [? _].
  - apply query_first_elem. rewrite <- Hperm. apply elem_of_app. now left.
Qed.

Lemma update_analytics_only_recent_witness :
  let st := Sample.logged_in_agent Sample.ledger_eleven in
  Analytics.get_post "p0"
    (Agent.ledger
       (Agent.update_analytics (Sample.world [] Sample.platform_ok)
          Sample.media_info_ok false st))
  = Analytics.get_post "p0" (Agent.ledger st).
Proof.
  intros st.
  refine (update_analytics_only_recent (Sample.world [] Sample.platform_ok)
            Sample.media_info_ok false st "p0" _).
  apply (bool_decide_unpack _). vm_compute. reflexivity.
Defined.

Lemma update_analytics_stores_reported_metrics_witness :
  let st := Sample.logged_in_agent Sample.ledger_one in
  exists post record,
    Analytics.get_all_posts 10 Sample.ledger_one = [post] /\
    Analytics.get_post (Analytics.video_id post)
      (Agent.ledger
         (Agent.update_analytics (Sample.world [] Sample.platform_ok)
            Sample.media_info_ok false st))
    = Some record /\
    Analytics.likes record = 20 /\ Analytics.comments record = 10 /\
    Analytics.views record = 200 /\
    Analytics.get_post (Analytics.video_id post)
      (Agent.ledger
         (Agent.update_analytics (Sample.world [] Sample.platform_ok)
            Sample.media_info_no_views false st))
    = Analytics.get_post (Analytics.video_id post) Sample.ledger_one.
Proof.
  intros st.
  destruct (Analytics.get_all_posts 10 Sample.ledger_one) as [|post [|? ?]]
    eqn:E; try (vm_compute in E; discriminate).
  assert (Analytics.instagram_media_id post = "media-a") as Hmid
    by (vm_compute in E; injection E as <-; reflexivity).
  assert (NoDup (map Analytics.video_id (Agent.ledger st))) as Hnd
    by (apply (bool_decide_unpack _); vm_compute; reflexivity).
  assert (post ∈ Analytics.get_all_posts 10 (Agent.ledger st)) as Hin
    by (change (Agent.ledger st) with Sample.ledger_one; rewrite E; left).
  assert (Analytics.instagram_media_id post <> "") as Hne
    by (rewrite Hmid; discriminate).
  destruct (update_analytics_stores_reported_metrics
              (Sample.world [] Sample.platform_ok) Sample.media_info_ok
              st post
              {| InstagramPoster.info_id := "media-a";
                 InstagramPoster.info_code := "code";
                 InstagramPoster.like_count := 20;
                 InstagramPoster.comment_count := 10;
                 InstagramPoster.view_count := InstagramPoster.IsInt 200;
                 InstagramPoster.play_count := InstagramPoster.IsNone |}
              eq_refl Hnd Hin Hne)
    as (Hstored & _ & _); [rewrite Hmid; reflexivity|].
  destruct (Hstored 200 eq_refl eq_refl eq_refl eq_refl)
    as (record & Hget & Hvals).
  destruct (update_analytics_stores_reported_metrics
              (Sample.world [] Sample.platform_ok) Sample.media_info_no_views
              st post
              {| InstagramPoster.info_id := "media-a";
                 InstagramPoster.info_code := "code";
                 InstagramPoster.like_count := 20;
                 InstagramPoster.comment_count := 10;
                 InstagramPoster.view_count := InstagramPoster.IsInt 0;
                 InstagramPoster.play_count := InstagramPoster.IsNone |}
              eq_refl Hnd Hin Hne)
    as (_ & Hkept & _); [rewrite Hmid; reflexivity|].
  exists post, record. split; [reflexivity|]. split; [exact Hget|].
  destruct Hvals as (H1 & H2 & H3).
  split; [exact H1|]. split; [exact H2|]. split; [exact H3|].
  exact (Hkept eq_refl).
Defined.

(** ** The scheduler: further properties *)

Section ScheduleMore.
Import Scheduler.

Lemma split_colon_aux_length (cur s : string) :
  length (split_colon_aux cur s) = S (Spec.colons s).
Proof.
  revert cur. induction s as [|c s IH]; intros cur; simpl; [reflexivity|].
  destruct (Ascii.eqb c ":"); simpl; now rewrite IH.
Qed.

Lemma in_range_times (h m : Z) :
  0 <= h <= 23 -> 0 <= m <= 59 -> In h (seqZ 0 24) /\ In m (seqZ 0 60).
Proof.
  intros Hh Hm. split; apply list_elem_of_In, elem_of_seqZ; lia.
Qed.

Lemma times_parse_back (h m : Z) :
  0 <= h <= 23 -> 0 <= m <= 59 ->
  _parse_time (Spec.hh_mm h m) = (h, m) /\
  _parse_time (pretty h +:+ ":" +:+ pretty m) = (h, m).
Proof.
  intros Hh Hm. destruct (in_range_times h m Hh Hm) as [Hinh Hinm].
  assert (Spec.times_parse_back = true) as Hall by (vm_compute; reflexivity).
  unfold Spec.times_parse_back in Hall. rewrite forallb_forall in Hall.
  specialize (Hall h Hinh). rewrite forallb_forall in Hall.
  specialize (Hall m Hinm). apply andb_true_iff in Hall as [H1 H2].
  apply bool_decide_eq_true in H1, H2. now split.
Qed.

Lemma daily_job_id_decodes (h m : Z) :
  0 <= h <= 23 -> 0 <= m <= 59 ->
  Spec.time_of_job_id (daily_job_id h m) = Some (h, m).
Proof.
  intros Hh Hm. destruct (in_range_times h m Hh Hm) as [Hinh Hinm].
  assert (Spec.job_ids_decode = true) as Hall by (vm_compute; reflexivity).
  unfold Spec.job_ids_decode in Hall. rewrite forallb_forall in Hall.
  specialize (Hall h Hinh). rewrite forallb_forall in Hall.
  specialize (Hall m Hinm). now apply bool_decide_eq_true in Hall.
Qed.

End ScheduleMore.

(** X19: a time of the day written HH:MM, zero padded or not, is parsed to
    its hour and minute, and the daily schedule registers for it a job that
    fires at that time, under the id made of the hour and the minute. *)
Theorem well_formed_time_is_scheduled (h m : Z)
    (jobs : gmap string Scheduler.Cron) :
  0 <= h <= 23 -> 0 <= m <= 59 ->
  Scheduler._parse_time (Spec.hh_mm h m) = (h, m) /\
  Scheduler._parse_time (pretty h +:+ ":" +:+ pretty m) = (h, m) /\
  Scheduler.schedule_posts "daily" [Spec.hh_mm h m] jobs =
  (<[Scheduler.daily_job_id h m :=
       {| Scheduler.cron_hour := h; Scheduler.cron_minute := m |}]> jobs,
   Py.Ret tt).
Proof.
  intros Hh Hm. destruct (times_parse_back h m Hh Hm) as [Hp1 Hp2].
  split; [exact Hp1|]. split; [exact Hp2|].
  cbn [Scheduler.schedule_posts].
  rewrite schedule_post_daily; [now rewrite Hp1|].
  unfold Spec.accepted, Scheduler.CronTrigger. rewrite Hp1. cbn [fst snd].
  assert ((0 <=? h) && (h <=? 23) && (0 <=? m) && (m <=? 59) = true) as ->
    by lia.
  eauto.
Qed.

Lemma well_formed_time_is_scheduled_witness :
  Scheduler._parse_time "07:05" = (7, 5) /\
  (Scheduler.schedule_posts "daily" ["07:05"] ∅).1 !! "daily_post_7_5"
  = Some {| Scheduler.cron_hour := 7; Scheduler.cron_minute := 5 |}.
Proof.
  destruct (well_formed_time_is_scheduled 7 5 ∅) as (H1 & _ & H3);
    [lia|lia|].
  split; [exact H1|].
  change ["07:05"] with [Spec.hh_mm 7 5]. rewrite H3. cbn [fst].
  apply lookup_insert_eq.
Defined.

(** X20: a post time with no colon or with more than one, such as a time
    with seconds, is replaced by 19:00 whatever its digits are. *)
Theorem time_without_single_colon_defaults (time_str : string) :
  Spec.colons time_str <> 1%nat ->
  Scheduler._parse_time time_str = (19, 0).
Proof.
  intros Hc. unfold Scheduler._parse_time, Scheduler.parse_hh_mm.
  pose proof (split_colon_aux_length "" time_str) as Hlen.
  fold (Scheduler.split_colon time_str) in Hlen.
  destruct (Scheduler.split_colon time_str) as [|a [|b [|c l]]];
    try reflexivity.
  simpl in Hlen. congruence.
Qed.

Lemma time_without_single_colon_defaults_witness :
  Scheduler._parse_time "08:30:00" = (19, 0) /\
  Scheduler._parse_time "0830" = (19, 0).
Proof.
  split; apply time_without_single_colon_defaults; vm_compute; discriminate.
Defined.

(** X21: with the frequency twice_daily the configured post times are not
    looked at: as soon as there is one, the jobs morning_post at 9:00 and
    evening_post at 19:00 are registered and nothing else, even when a time
    is malformed or out of range; with no post time nothing is registered. *)
Theorem twice_daily_ignores_post_times (post_times : list string)
    (jobs : gmap string Scheduler.Cron) :
  Scheduler.schedule_posts "twice_daily" post_times jobs =
  match post_times with
  | [] => (jobs, Py.Ret tt)
  | _ :: _ =>
      (<["evening_post" := Spec.seven_pm]>
         (<["morning_post" :=
              {| Scheduler.cron_hour := 9; Scheduler.cron_minute := 0 |}]>
            jobs),
       Py.Ret tt)
  end.
Proof.
  destruct post_times as [|t ts]; [reflexivity|].
  assert (forall t jobs,
            Scheduler.schedule_post "twice_daily" t jobs =
            (<["evening_post" := Spec.seven_pm]>
               (<["morning_post" :=
                    {| Scheduler.cron_hour := 9;
                       Scheduler.cron_minute := 0 |}]> jobs),
             Py.Ret tt)) as Hstep.
  { intros t' jobs'. unfold Scheduler.schedule_post.
    destruct (Scheduler._parse_time t'). reflexivity. }
  cbn [Scheduler.schedule_posts]. rewrite Hstep.
  set (jobs1 := <["evening_post" := _]> _).
  assert (forall ts, Scheduler.schedule_posts "twice_daily" ts jobs1
                     = (jobs1, Py.Ret tt)) as Hrest.
  { clear ts. intros ts. induction ts as [|t' ts IH]; [reflexivity|].
    cbn [Scheduler.schedule_posts]. rewrite Hstep.
    replace (<["evening_post" := Spec.seven_pm]>
               (<["morning_post" := _]> jobs1)) with jobs1; [exact IH|].
    unfold jobs1. apply map_eq. intros k. rewrite !lookup_insert.
    repeat case_decide; congruence. }
  apply Hrest.
Qed.

(** X22: a frequency other than daily and twice_daily is not reported: the
    call returns normally and registers nothing. *)
Theorem unknown_frequency_schedules_nothing (frequency : string)
    (post_times : list string) (jobs : gmap string Scheduler.Cron) :
  frequency <> "daily" -> frequency <> "twice_daily" ->
  Scheduler.schedule_posts frequency post_times jobs = (jobs, Py.Ret tt).
Proof.
  intros Hd Ht. induction post_times as [|t ts IH]; [reflexivity|].
  cbn [Scheduler.schedule_posts]. unfold Scheduler.schedule_post.
  destruct (Scheduler._parse_time t).
  destruct (String.eqb_spec frequency "daily"); [congruence|].
  destruct (String.eqb_spec frequency "twice_daily"); [congruence|].
  exact IH.
Qed.

Lemma unknown_frequency_schedules_nothing_witness :
  Scheduler.schedule_posts "weekly" ["09:00"; "19:00"] ∅ = (∅, Py.Ret tt).
Proof.
  apply unknown_frequency_schedules_nothing; discriminate.
Defined.

Section Registration.
Import Scheduler.

Lemma accepted_in_range (t : string) :
  Spec.accepted t ->
  0 <= (_parse_time t).1 <= 23 /\ 0 <= (_parse_time t).2 <= 59.
Proof. intros [trigger Ht]. apply CronTrigger_Ret in Ht. tauto. Qed.

Lemma same_job_id_same_trigger (t1 t2 : string) :
  Spec.accepted t1 -> Spec.accepted t2 ->
  Spec.job_id_of t1 = Spec.job_id_of t2 -> Spec.trigger_of t1 = Spec.trigger_of t2.
Proof.
  intros [Hh1 Hm1]%accepted_in_range [Hh2 Hm2]%accepted_in_range Hid.
  pose proof (daily_job_id_decodes _ _ Hh1 Hm1) as D1.
  pose proof (daily_job_id_decodes _ _ Hh2 Hm2) as D2.
  unfold Spec.job_id_of in Hid. rewrite Hid, D2 in D1.
  injection D1 as E1 E2. unfold Spec.trigger_of. now rewrite E1, E2.
Qed.



(** After the daily schedule, each of its entries finds its trigger under
    its job id. *)
Lemma schedule_posts_daily_lookup (ts : list string) (jobs : gmap string Cron)
    (t : string) :
  Forall Spec.accepted ts -> Spec.accepted t ->
  jobs !! Spec.job_id_of t = Some (Spec.trigger_of t) \/ t ∈ ts ->
  (schedule_posts "daily" ts jobs).1 !! Spec.job_id_of t = Some (Spec.trigger_of t).
Proof.
  intros Hall Ht. revert jobs.
  induction Hall as [|a ts Ha Hts IH]; intros jobs Hor.
  - destruct Hor as [H|[]%elem_of_nil]. exact H.
  - cbn [schedule_posts]. rewrite (schedule_post_daily a jobs Ha).
    apply IH. fold (Spec.job_id_of a) (Spec.trigger_of a).
    destruct (decide (Spec.job_id_of a = Spec.job_id_of t)) as [Heq|Hne].
    + left. rewrite Heq, lookup_insert_eq.
      f_equal. now apply same_job_id_same_trigger.
    + rewrite lookup_insert_ne by exact Hne.
      destruct Hor as [H|[->|Hin]%elem_of_cons]; [now left|congruence|now right].
Qed.

Lemma schedule_posts_daily_fixed (ts : list string) (jobs : gmap string Cron) :
  Forall Spec.accepted ts ->
  (forall t, t ∈ ts -> jobs !! Spec.job_id_of t = Some (Spec.trigger_of t)) ->
  schedule_posts "daily" ts jobs = (jobs, Py.Ret tt).
Proof.
  intros Hall. induction Hall as [|a ts Ha Hts IH]; intros Hjobs;
    [reflexivity|].
  cbn [schedule_posts]. rewrite (schedule_post_daily a jobs Ha).
  fold (Spec.job_id_of a) (Spec.trigger_of a).
  rewrite insert_id by (apply Hjobs; left).
  apply IH. intros t Hin. apply Hjobs. now right.
Qed.

End Registration.



(** X24: registering the daily schedule is idempotent: when every post time
    is a string of ASCII characters that the trigger accepts, each entry's
    job is in the job store with the trigger of its time, and running the
    same schedule again leaves the job store as it is. *)
Theorem daily_schedule_is_idempotent (post_times : list string)
    (jobs : gmap string Scheduler.Cron) :
  Forall Spec.plain post_times ->
  Forall Spec.accepted post_times ->
  let r := Scheduler.schedule_posts "daily" post_times jobs in
  r.2 = Py.Ret tt /\
  (forall t, t ∈ post_times ->
     r.1 !! Spec.job_id_of t = Some (Spec.trigger_of t)) /\
  Scheduler.schedule_posts "daily" post_times r.1 = r.
Proof.
  intros _ Hall r.
  assert (r.2 = Py.Ret tt) as Hret by now apply schedule_posts_daily_ret.
  assert (forall t, t ∈ post_times -> r.1 !! Spec.job_id_of t = Some (Spec.trigger_of t))
    as Hlook.
  { intros t Hin. apply schedule_posts_daily_lookup; [exact Hall| |now right].
    rewrite Forall_forall in Hall. now apply Hall. }
  split; [exact Hret|]. split; [exact Hlook|].
  rewrite (schedule_posts_daily_fixed post_times r.1 Hall Hlook).
  destruct r as [jobs' res]. cbn [fst snd] in *. now rewrite Hret.
Qed.

Lemma daily_schedule_is_idempotent_witness :
  let r := Scheduler.schedule_posts "daily" ["09:00"; "9:00"; "21:30"] ∅ in
  Scheduler.schedule_posts "daily" ["09:00"; "9:00"; "21:30"] r.1 = r /\
  size r.1 = 2%nat.
Proof.
  intros r. split; [|by vm_compute].
  apply (daily_schedule_is_idempotent ["09:00"; "9:00"; "21:30"] ∅).
  - repeat constructor; vm_compute; discriminate.
  - repeat constructor; eexists; reflexivity.
Defined.

(** ** The configuration *)

Section ConfigFacts.
Import Config.

Lemma string_app_empty (s : string) : s +:+ "" = s.
Proof.
  induction s as [|c s IH]; [reflexivity|].
  change (String c (s +:+ "") = String c s). now rewrite IH.
Qed.

Lemma string_app_char (s k : string) (c : ascii) :
  (s +:+ String c "") +:+ k = s +:+ String c k.
Proof.
  induction s as [|a s IH]; [reflexivity|].
  change (String a ((s +:+ String c "") +:+ k) = String a (s +:+ String c k)).
  now rewrite IH.
Qed.

Lemma split_dot_aux_dotless (cur k : string) :
  Spec.dotless k = true -> split_dot_aux cur k = [cur +:+ k].
Proof.
  revert cur. induction k as [|c k IH]; intros cur; simpl.
  - intros _. now rewrite string_app_empty.
  - destruct (Ascii.eqb c "."); simpl; [discriminate|].
    intros Hk. rewrite IH by exact Hk. now rewrite string_app_char.
Qed.

Lemma split_dot_aux_app (cur k rest : string) :
  Spec.dotless k = true ->
  split_dot_aux cur (k +:+ "." +:+ rest) = (cur +:+ k) :: split_dot_aux "" rest.
Proof.
  revert cur. induction k as [|c k IH]; intros cur; simpl.
  - intros _. now rewrite string_app_empty.
  - destruct (Ascii.eqb c "."); simpl; [discriminate|].
    intros Hk. rewrite IH by exact Hk. now rewrite string_app_char.
Qed.

(** Splitting the dotted path of keys without dots gives the keys back. *)
Lemma split_dot_dotted (keys : list string) :
  keys <> [] -> Forall (fun k => Spec.dotless k = true) keys ->
  split_dot (Spec.dotted keys) = keys.
Proof.
  unfold split_dot. induction keys as [|k keys IH]; [congruence|].
  intros _ Hall. apply Forall_cons in Hall as [Hk Hall].
  destruct keys as [|k' keys].
  - simpl. now rewrite split_dot_aux_dotless.
  - change (Spec.dotted (k :: k' :: keys))
      with (k +:+ "." +:+ Spec.dotted (k' :: keys)).
    rewrite split_dot_aux_app by exact Hk.
    rewrite IH by (congruence || exact Hall). reflexivity.
Qed.

Lemma get_keys_default_or_value (keys : list string) (value default : Yaml) :
  value <> YNull ->
  get_keys keys value default = default \/
  get_keys keys value default <> YNull.
Proof.
  revert value. induction keys as [|key keys IH]; intros value Hv; simpl;
    [now right|].
  destruct value; try (now left).
  destruct (dict_get key items) eqn:E; try (now left);
    apply IH; discriminate.
Qed.

End ConfigFacts.

Lemma split_dot_nonempty (s : string) :
  exists k ks, Config.split_dot s = k :: ks.
Proof.
  unfold Config.split_dot. generalize "" as cur.
  induction s as [|c s IH]; intros cur; simpl; [eauto|].
  destruct (Ascii.eqb c "."); [eauto|apply IH].
Qed.

Lemma string_length_app_char (s : string) (c : ascii) :
  String.length (s +:+ String c "") = S (String.length s).
Proof.
  induction s as [|a s IH]; [reflexivity|].
  change (S (String.length (s +:+ String c "")) = S (S (String.length s))).
  now rewrite IH.
Qed.

Lemma split_dot_aux_head (cur k : string) :
  Spec.dotless k = false ->
  exists h t,
    Config.split_dot_aux cur k = h :: t /\
    (String.length h < String.length cur + String.length k)%nat.
Proof.
  revert cur. induction k as [|c k IH]; intros cur; simpl; [discriminate|].
  destruct (Ascii.eqb c "."); simpl.
  - intros _. exists cur, (Config.split_dot_aux "" k). split; [reflexivity|lia].
  - intros Hk. destruct (IH (cur +:+ String c "") Hk) as (h & t & Hs & Hlen).
    exists h, t. split; [exact Hs|].
    rewrite string_length_app_char in Hlen. lia.
Qed.

(** X25: a value stored under a path of keys is read back by the dotted
    path, whatever the default, provided it is not null and no key has a dot
    in its name; values that are false, zero or empty are read back too. *)
Theorem config_get_reads_nested_value (keys : list string) (v default : Config.Yaml) :
  keys <> [] -> Forall (fun k => Spec.dotless k = true) keys ->
  v <> Config.YNull ->
  Config.get (Spec.nested keys v) (Spec.dotted keys) default = v.
Proof.
  intros Hne Hall Hv. unfold Config.get.
  rewrite split_dot_dotted by assumption. clear Hne Hall.
  induction keys as [|k keys IH]; [reflexivity|].
  cbn [Spec.nested Config.get_keys Config.dict_get].
  rewrite String.eqb_refl.
  destruct (Spec.nested keys v) eqn:E; try exact IH.
  destruct keys; simpl in E; [congruence|discriminate].
Qed.

Lemma config_get_reads_nested_value_witness :
  Config.get
    (Config.YDict
       [("advanced", Config.YDict [("cleanup_downloads", Config.YBool false)])])
    "advanced.cleanup_downloads" (Config.YBool true)
  = Config.YBool false.
Proof.
  apply (config_get_reads_nested_value ["advanced"; "cleanup_downloads"]
           (Config.YBool false) (Config.YBool true)).
  - discriminate.
  - repeat constructor.
  - discriminate.
Defined.

(** X26: [get] answers the default or a value that is not null: with a
    default that is not null the caller never receives None, whatever the
    file holds and whatever the path is. *)
Theorem config_get_default_or_value (config_data : Config.Yaml)
    (key_path : string) (default : Config.Yaml) :
  Config.get config_data key_path default = default \/
  Config.get config_data key_path default <> Config.YNull.
Proof.
  unfold Config.get.
  destruct (split_dot_nonempty key_path) as (k & ks & ->).
  cbn [Config.get_keys].
  destruct config_data; try (now left).
  destruct (Config.dict_get k items) eqn:E; try (now left);
    apply get_keys_default_or_value; discriminate.
Qed.

(** X27: [get] cannot tell a key that is set to null from a key that is
    missing, and cannot read a key whose name has a dot in it: in both cases
    it answers the default. *)
Theorem config_get_null_and_dotted_keys (keys : list string) (k : string)
    (v default : Config.Yaml) :
  (keys <> [] -> Forall (fun k => Spec.dotless k = true) keys ->
   Config.get (Spec.nested keys Config.YNull) (Spec.dotted keys) default
   = default) /\
  (Spec.dotless k = false ->
   Config.get (Config.YDict [(k, v)]) k default = default).
Proof.
  split.
  - intros Hne Hall. unfold Config.get.
    rewrite split_dot_dotted by assumption. clear Hall.
    destruct keys as [|key keys]; [congruence|]. clear Hne.
    revert key. induction keys as [|key' keys IH]; intros key;
      cbn [Spec.nested Config.get_keys Config.dict_get];
      rewrite String.eqb_refl; [reflexivity|].
    apply IH.
  - intros Hk. unfold Config.get, Config.split_dot.
    destruct (split_dot_aux_head "" k Hk) as (h & t & -> & Hlen).
    cbn [Config.get_keys Config.dict_get].
    destruct (String.eqb_spec k h) as [->|Hne]; [simpl in Hlen; lia|].
    reflexivity.
Qed.

Lemma config_get_null_and_dotted_keys_witness :
  Config.get (Config.YDict [("schedule", Config.YDict [("timezone", Config.YNull)])])
    "schedule.timezone" (Config.YStr "UTC") = Config.YStr "UTC" /\
  Config.get (Config.YDict [("schedule.timezone", Config.YStr "CET")])
    "schedule.timezone" (Config.YStr "UTC") = Config.YStr "UTC".
Proof.
  destruct (config_get_null_and_dotted_keys ["schedule"; "timezone"]
              "schedule.timezone" (Config.YStr "CET") (Config.YStr "UTC"))
    as [Hnull Hdot].
  split.
  - apply Hnull; [discriminate|repeat constructor].
  - apply Hdot. reflexivity.
Defined.

(** ** Discovery *)

Section ScraperFacts.
Import YouTubeScraper.
Variable cfg : Setup.

Lemma _check_copyright_indicators_false (video : VideoInfo) :
  _check_copyright_indicators cfg video = Py.Ret false ->
  enable_copyright_check cfg = true ->
  exists t desc,
    title video = Some t /\ description video = Some desc /\
    forall keyword, keyword ∈ copyright_keywords ->
      contains keyword (str_lower cfg t) = false /\
      contains keyword (str_lower cfg desc) = false.
Proof.
  unfold _check_copyright_indicators. generalize copyright_keywords as ks.
  intros ks Hc Hcheck. rewrite Hcheck in Hc. simpl negb in Hc. cbv iota in Hc.
  destruct (title video) as [t|]; [|discriminate].
  destruct (description video) as [desc|]; [|discriminate].
  exists t, desc. split; [reflexivity|]. split; [reflexivity|].
  intros keyword Hin. apply orb_false_iff.
  apply not_true_iff_false. intros Hk.
  assert (existsb
            (fun keyword =>
               contains keyword (str_lower cfg t)
               || contains keyword (str_lower cfg desc))
            ks = true) as Hex.
  { apply existsb_exists. exists keyword.
    split; [now apply list_elem_of_In|exact Hk]. }
  rewrite Hex in Hc. discriminate.
Qed.

Lemma filter_video_kept (video video' : VideoInfo) :
  filter_video cfg video = Py.Ret (Some video') ->
  Spec.suitable cfg video' /\ id video' = id video.
Proof.
  unfold filter_video.
  destruct (duration video) as [d|] eqn:Ed; [|discriminate].
  destruct ((d <? min_length cfg) || (max_length cfg <? d)) eqn:Erange;
    [discriminate|].
  destruct (view_count video) as [views|] eqn:Ev; [|discriminate].
  destruct (views <? min_views cfg) eqn:Eviews; [discriminate|].
  destruct (like_count video) as [likes|] eqn:El; [|discriminate].
  destruct (Py.int_truediv likes (Z.max views 1)) as [score|] eqn:Escore;
    [|discriminate].
  cbv zeta.
  destruct (PrimFloat.ltb _ _) eqn:Eratio; [discriminate|].
  destruct (_check_copyright_indicators cfg _) as [[|]|] eqn:Ec;
    try discriminate.
  intros [= <-]. split; [|reflexivity].
  apply orb_false_iff in Erange as [Hlo Hhi].
  exists d, views, likes.
  split; [exact Ed|]. split; [exact Ev|]. split; [exact El|].
  split; [lia|]. split; [lia|].
  split; [cbn [set_score engagement_score]; now rewrite Escore|].
  split; [cbn [set_score engagement_score]; eauto|].
  split; [exact Eratio|].
  intros Hcheck. exact (_check_copyright_indicators_false _ Ec Hcheck).
Qed.

Lemma _filter_videos_kept (videos kept : list VideoInfo) :
  _filter_videos cfg videos = Py.Ret kept ->
  Forall (Spec.suitable cfg) kept /\
  map id kept `sublist_of` map id videos.
Proof.
  revert kept. induction videos as [|video videos IH]; intros kept; simpl.
  - intros [= <-]. split; constructor.
  - destruct (filter_video cfg video) as [k|] eqn:Ek; [|discriminate].
    destruct (_filter_videos cfg videos) as [filtered|]; [|discriminate].
    destruct (IH filtered eq_refl) as [Hall Hsub].
    intros [= <-]. destruct k as [video'|].
    + destruct (filter_video_kept video video' Ek) as [Hs Hid].
      split; [now constructor|]. simpl. rewrite Hid. now apply sublist_skip.
    + split; [exact Hall|]. now apply sublist_cons.
Qed.

Lemma _filter_videos_unknown_duration (videos : list VideoInfo)
    (video : VideoInfo) :
  video ∈ videos -> duration video = None ->
  _filter_videos cfg videos = Py.Raise.
Proof.
  intros Hin Hd. induction videos as [|v videos IH];
    [now apply elem_of_nil in Hin|].
  simpl. apply elem_of_cons in Hin as [<-|Hin].
  - unfold filter_video. now rewrite Hd.
  - destruct (filter_video cfg v); [|reflexivity]. now rewrite IH.
Qed.

End ScraperFacts.

(** X28: every video that [_filter_videos] keeps has a duration within the
    configured bounds, at least the configured number of views, the score
    likes / max(views, 1), which is not below the configured ratio divided
    by 100, and, when the check is enabled, no copyright keyword in its
    lower-cased title or description; the kept videos are videos of the
    input, in the order of the input. *)
Theorem filter_keeps_only_suitable_videos (cfg : YouTubeScraper.Setup)
    (videos kept : list YouTubeScraper.VideoInfo) :
  YouTubeScraper._filter_videos cfg videos = Py.Ret kept ->
  Forall (Spec.suitable cfg) kept /\
  map YouTubeScraper.id kept `sublist_of` map YouTubeScraper.id videos.
Proof. apply _filter_videos_kept. Qed.

Lemma filter_keeps_only_suitable_videos_witness :
  exists kept,
    YouTubeScraper._filter_videos Sample.scraper
      [Sample.clip_good; Sample.clip_official; Sample.clip_better]
    = Py.Ret kept /\
    map YouTubeScraper.id kept = ["g1"; "g2"] /\
    Forall (Spec.suitable Sample.scraper) kept.
Proof.
  destruct (YouTubeScraper._filter_videos Sample.scraper
              [Sample.clip_good; Sample.clip_official; Sample.clip_better])
    as [kept|] eqn:E; [|vm_compute in E; discriminate].
  exists kept. split; [reflexivity|]. split.
  - vm_compute in E. injection E as <-. reflexivity.
  - now apply (filter_keeps_only_suitable_videos Sample.scraper _ kept E).
Defined.

(** X29: one search result of unknown duration makes the filter raise, and
    the search then drops every result of that keyword, the suitable ones
    included. *)
Theorem unknown_duration_drops_the_keyword (cfg : YouTubeScraper.Setup)
    (keyword : string)
    (results : list YouTubeScraper.VideoInfo)
    (video : YouTubeScraper.VideoInfo) (max_results : Z) :
  YouTubeScraper.search cfg keyword = Py.Ret results ->
  video ∈ results -> YouTubeScraper.duration video = None ->
  YouTubeScraper._filter_videos cfg results = Py.Raise /\
  YouTubeScraper.videos_of_keyword cfg keyword = [] /\
  YouTubeScraper.search_videos cfg [keyword] max_results = [].
Proof.
  intros Hsearch Hin Hd.
  pose proof (_filter_videos_unknown_duration cfg results video Hin Hd) as Hr.
  assert (YouTubeScraper.videos_of_keyword cfg keyword = []) as Hk
    by (unfold YouTubeScraper.videos_of_keyword; now rewrite Hsearch, Hr).
  split; [exact Hr|]. split; [exact Hk|].
  unfold YouTubeScraper.search_videos. cbn [flat_map]. rewrite Hk.
  unfold Py.slice_to_Z. simpl. destruct (max_results <? 0); [reflexivity|apply firstn_nil].
Qed.

Lemma unknown_duration_drops_the_keyword_witness :
  YouTubeScraper.search_videos Sample.scraper ["gym"] 50 = [].
Proof.
  refine (proj2 (proj2 (unknown_duration_drops_the_keyword Sample.scraper
                          "gym" [Sample.clip_better; Sample.clip_unknown]
                          Sample.clip_unknown 50 _ _ _))).
  - reflexivity.
  - apply list_elem_of_In. simpl. auto.
  - reflexivity.
Defined.

(** X30: [search_videos] returns suitable videos only, each found for one
    of the keywords, never more than a [max_results] that is not negative,
    and, the scores not being NaN, the best score first. *)
Theorem search_videos_returns_suitable_videos (cfg : YouTubeScraper.Setup)
    (keywords : list string) (max_results : Z) :
  let result := YouTubeScraper.search_videos cfg keywords max_results in
  Forall (Spec.suitable cfg) result /\
  (forall video, video ∈ result ->
     exists keyword, keyword ∈ keywords /\
                     video ∈ YouTubeScraper.videos_of_keyword cfg keyword) /\
  (0 <= max_results -> (length result <= Z.to_nat max_results)%nat) /\
  (Forall (Py.not_nan YouTubeScraper.score_of)
     (flat_map (YouTubeScraper.videos_of_keyword cfg) keywords) ->
   StronglySorted (Py.desc YouTubeScraper.score_of) result).
Proof.
  intros result.
  set (videos := flat_map (YouTubeScraper.videos_of_keyword cfg) keywords).
  set (sorted := Py.sorted_desc YouTubeScraper.score_of videos).
  assert (result `sublist_of` sorted) as Hsub by apply slice_to_Z_sublist.
  assert (Permutation sorted videos) as Hperm by apply sorted_desc_perm.
  assert (forall video, video ∈ result ->
            exists keyword, keyword ∈ keywords /\
              video ∈ YouTubeScraper.videos_of_keyword cfg keyword) as Hfrom.
  { intros video Hin.
    assert (video ∈ videos) as Hv
      by (rewrite <- Hperm; eapply elem_of_sublist; eassumption).
    unfold videos in Hv. apply list_elem_of_In, in_flat_map in Hv
      as (keyword & Hk & Hv).
    exists keyword. split; now apply list_elem_of_In. }
  split; [|split; [exact Hfrom|split]].
  - apply Forall_forall. intros video Hin.
    destruct (Hfrom video Hin) as (keyword & _ & Hv).
    unfold YouTubeScraper.videos_of_keyword in Hv.
    destruct (YouTubeScraper.search cfg keyword) as [results|];
      [|now apply elem_of_nil in Hv].
    destruct (YouTubeScraper._filter_videos cfg results) as [kept|] eqn:E;
      [|now apply elem_of_nil in Hv].
    apply _filter_videos_kept in E as [Hall _].
    rewrite Forall_forall in Hall. now apply Hall.
  - intros Hmax. unfold result, YouTubeScraper.search_videos, Py.slice_to_Z.
    destruct (Z.ltb_spec max_results 0); [lia|]. rewrite length_firstn. lia.
  - intros Hnan.
    assert (StronglySorted (Py.desc YouTubeScraper.score_of) sorted) as Hs
      by now apply sorted_desc_sorted.
    unfold result, YouTubeScraper.search_videos, Py.slice_to_Z.
    fold videos. fold sorted.
    destruct (max_results <? 0);
      eapply StronglySorted_app_l; erewrite firstn_skipn; exact Hs.
Qed.

Lemma search_videos_returns_suitable_videos_witness :
  map YouTubeScraper.id
    (YouTubeScraper.search_videos Sample.scraper ["motivation"; "gym"] 50)
    = ["g2"; "g1"] /\
  StronglySorted (Py.desc YouTubeScraper.score_of)
    (YouTubeScraper.search_videos Sample.scraper ["motivation"; "gym"] 50).
Proof.
  split; [by vm_compute|].
  apply (search_videos_returns_suitable_videos Sample.scraper
           ["motivation"; "gym"] 50).
  apply Forall_forall. intros video Hin. vm_compute in Hin.
  apply list_elem_of_In in Hin. simpl in Hin.
  destruct Hin as [<-|[<-|[]]]; reflexivity.
Defined.
